(** * gerbil (Tailscale edition): bandwidth accounting, status API and
      remote-config bootstrap

    A shallow embedding of the parts of [main.go] and [tailscale/client.go]
    that decide the behaviour of the accounting cycle
    ([calculatePeerBandwidth]), of the reporter tick ([reportPeerBandwidth]),
    of the change notifier ([notifyPeerChange]), of the [/status] handler
    ([handleStatus]) and of the remote-config loop of [main]; and, for the
    facts of Part III, of the reporter loop ([periodicBandwidthCheck]), of
    the handlers [handlePeer], [handleGetPeers] and [handleHealth], of
    [ensureTailscale] with the two functions it calls, and of the methods
    [Login], [GetVersion] and [GetNetworkStats] of the client.

    Conventions.
    - [int64] values are [Z] with the wrap-around of Go's arithmetic written
      out ([Int64.wrap]).
    - [float64] values are IEEE-754 binary64 numbers, taken from the
      specification of floating-point arithmetic of the standard library
      ([SpecFloat], precision 53, [emax] 1024).
    - The Go map [lastReadings] is a [gmap string PeerReading].
    - The output of [tailscale status --json] is taken as [json.Unmarshal]
      decodes it, a tree of [json.Value]s; [Status()] and [GetPeerTraffic()]
      read it as the source does, type assertion by type assertion.
    - What the program obtains from outside (the outputs of the [tailscale]
      command line, the clock, HTTP replies) is an explicit argument; what it
      does to the outside (commands run, HTTP requests, sleeps) is returned
      as a trace of [Effect]s. *)

From Stdlib Require Import ZArith Lia Bool List QArith Qpower.
From Stdlib Require Import Floats.SpecFloat.
From stdpp Require Import base gmap strings list.

(* ================================================================== *)
(** * Part I: definitions                                              *)
(* ================================================================== *)

(** ** Go's [int64] *)

Module Int64.
Local Open Scope Z_scope.

Definition min_int64 : Z := - 2 ^ 63.
Definition max_int64 : Z := 2 ^ 63 - 1.

(** Two's-complement wrap-around of a mathematical integer. *)
Definition wrap (z : Z) : Z := (z + 2 ^ 63) mod 2 ^ 64 - 2 ^ 63.

(** [x - y] on [int64]. *)
Definition sub (x y : Z) : Z := wrap (x - y).

Definition in_range (z : Z) : Prop := min_int64 <= z <= max_int64.
End Int64.

(** ** Go's [float64] *)

Module F64.
Local Open Scope Z_scope.

Definition prec : Z := 53.
Definition emax : Z := 1024.

Definition float64 : Type := spec_float.

(** The literal [0]. *)
Definition zero : float64 := S754_zero false.

(** The conversion [float64(n)] of an integer: round to nearest, ties to
    even. *)
Definition of_int (n : Z) : float64 := binary_normalize prec emax n 0 false.

Definition add (x y : float64) : float64 := SFadd prec emax x y.
Definition div (x y : float64) : float64 := SFdiv prec emax x y.

(** The conversion [int64(x)]: the fraction is dropped. Go leaves the result
    to the implementation when the value does not fit an [int64]; taken here
    is what amd64 gives, the smallest [int64]. *)
Definition to_int64 (x : float64) : Z :=
  match x with
  | S754_zero _ => 0
  | S754_finite s m e =>
      let magnitude :=
        if 0 <=? e then Z.pos m * 2 ^ e else Z.pos m / 2 ^ (- e) in
      let z := if s then - magnitude else magnitude in
      if (Int64.min_int64 <=? z) && (z <=? Int64.max_int64) then z
      else Int64.min_int64
  | _ => Int64.min_int64
  end.

(** The comparisons [x < y], [x > y] and [x <= y]; all are false on NaN. *)
Definition ltb (x y : float64) : bool := SFltb x y.
Definition gtb (x y : float64) : bool := SFltb y x.
Definition leb (x y : float64) : bool := SFleb x y.

(** The rational number a finite [float64] stands for. *)
Definition toQ (x : float64) : Q :=
  match x with
  | S754_finite s m e =>
      ((if s then inject_Z (Zneg m) else inject_Z (Zpos m)) * Qpower 2 e)%Q
  | _ => 0%Q
  end.

Definition is_finite (x : float64) : bool :=
  match x with
  | S754_zero _ | S754_finite _ _ _ => true
  | _ => false
  end.

(** [x] is a number (not NaN) whose sign bit is [s]. *)
Definition has_sign (s : bool) (x : float64) : Prop :=
  match x with
  | S754_zero s' | S754_infinity s' | S754_finite s' _ _ => s' = s
  | S754_nan => False
  end.

(** [x] is a non-zero number whose sign bit is [s], with an exponent the
    format has. *)
Definition nonzero_sign (s : bool) (x : float64) : Prop :=
  match x with
  | S754_infinity s' => s' = s
  | S754_finite s' _ e => s' = s /\ emin prec emax <= e
  | _ => False
  end.
End F64.

Abbreviation float64 := F64.float64.

(** ** Go's [time] *)

Module time.
Local Open Scope Z_scope.

(** A [time.Time] read by [time.Now()], as nanoseconds on the clock of the
    process. *)
Definition Time : Type := Z.

(** A [time.Duration], an [int64] count of nanoseconds. *)
Definition Duration : Type := Z.

Definition Second : Duration := 1000000000.

(** [t.Sub(u)]: the difference [t - u], saturated to the range of
    [Duration]. *)
Definition Sub (t u : Time) : Duration :=
  Z.max Int64.min_int64 (Z.min Int64.max_int64 (t - u)).

(** [d.Seconds()]; [/] and [%] truncate towards zero. *)
Definition Seconds (d : Duration) : float64 :=
  let sec := Z.quot d Second in
  let nsec := Z.rem d Second in
  F64.add (F64.of_int sec) (F64.div (F64.of_int nsec) (F64.of_int 1000000000)).
End time.

(** ** Errors and results *)

Definition error : Type := string.

Inductive result (A : Type) : Type :=
| Ok (a : A)
| Err (e : error).
Arguments Ok {A} a.
Arguments Err {A} e.

(** A Go computation that either returns or panics at run time. *)
Inductive Exec (A : Type) : Type :=
| Returns (a : A)
| Panics (reason : string).
Arguments Returns {A} a.
Arguments Panics {A} reason.

#[global] Instance Exec_ret : MRet Exec := @Returns.

#[global] Instance Exec_fmap : FMap Exec := fun A B f c =>
  match c with
  | Returns a => Returns (f a)
  | Panics reason => Panics reason
  end.

#[global] Instance Exec_bind : MBind Exec := fun A B k c =>
  match c with
  | Returns a => k a
  | Panics reason => Panics reason
  end.

(** Reading through a pointer: a nil pointer panics. *)
Definition deref {A} (p : option A) : Exec A :=
  match p with
  | Some a => Returns a
  | None => Panics "invalid memory address or nil pointer dereference"
  end.

(** ** Decoded JSON *)

Module json.

(** What [json.Unmarshal] stores in an [interface{}]: [nil], [bool],
    [float64], [string], [[]interface{}] or [map[string]interface{}]. A map
    is the list of its entries, in the order [range] goes through them. *)
#[local] Unset Elimination Schemes.
Inductive Value : Type :=
| Null
| Bool (b : bool)
| Number (n : float64)
| String (s : string)
| Array (elems : list Value)
| Object (members : list (string * Value)).
#[local] Set Elimination Schemes.

(** [m[key]]: [nil] when the key is absent. *)
Fixpoint index (m : list (string * Value)) (key : string) : Value :=
  match m with
  | [] => Null
  | (k, v) :: rest => if String.eqb k key then v else index rest key
  end.

(** The type assertions [v.(T)], [None] when [ok] is false. *)
Definition asObject (v : Value) : option (list (string * Value)) :=
  match v with Object m => Some m | _ => None end.

Definition asArray (v : Value) : option (list Value) :=
  match v with Array l => Some l | _ => None end.

Definition asString (v : Value) : option string :=
  match v with String s => Some s | _ => None end.

Definition asBool (v : Value) : option bool :=
  match v with Bool b => Some b | _ => None end.

Definition asNumber (v : Value) : option float64 :=
  match v with Number n => Some n | _ => None end.

End json.

(** ** Package [tailscale] *)

Module tailscale.
Local Open Scope Z_scope.

Record PeerInfo : Type := {
  PublicKey : string;
  Hostname : string;
  TailscaleIPs : string;
  AllowedIPs : list string;
  Online : bool;
  RxBytes : Z;
  TxBytes : Z
}.

(** [Self] is a [*PeerInfo]: [None] is the nil pointer. *)
Record Status : Type := {
  LoggedIn : bool;
  Self : option PeerInfo;
  Peers : list PeerInfo
}.

(** What one run of [tailscale status --json] gives: the command fails, its
    output does not decode into a [map[string]interface{}], or it does. *)
Inductive CommandOutput : Type :=
| CommandFailed (e : error)
| Unparsable (e : error)
| Parsed (rawStatus : list (string * json.Value)).

(** The [tailscale] command line as one accounting cycle, or one request,
    meets it: the output of the run made by [Status()], and the output of the
    run made by the [n]-th call to [GetPeerTraffic] (each call runs the
    command again). *)
Record Client : Type := {
  StatusOutput : CommandOutput;
  TrafficOutput : nat -> CommandOutput
}.

(** The value [Status()] returns, with a nil error, when the command fails
    (tailscale not running or not logged in). *)
Definition minimalStatus : Status :=
  {| LoggedIn := false; Self := None; Peers := [] |}.

(** [x["TailscaleIPs"].([]interface{})], non-empty, with a string first. *)
Definition firstIP (v : json.Value) : option string :=
  match json.asArray v with
  | Some (ip :: _) => json.asString ip
  | _ => None
  end.

Definition selfInfo (self : list (string * json.Value)) : PeerInfo :=
  {| Hostname := default "" (json.asString (json.index self "HostName"));
     PublicKey := default "" (json.asString (json.index self "PublicKey"));
     Online := default false (json.asBool (json.index self "Online"));
     TailscaleIPs := default "" (firstIP (json.index self "TailscaleIPs"));
     AllowedIPs := []; RxBytes := 0; TxBytes := 0 |}.

(** The traffic statistics of a peer object: [int64(rx)] where
    [peer["RxBytes"]] is a number, [0] otherwise. *)
Definition counter (peer : list (string * json.Value)) (name : string) : Z :=
  match json.asNumber (json.index peer name) with
  | Some n => F64.to_int64 n
  | None => 0
  end.

Definition peerInfo (peer : list (string * json.Value)) : PeerInfo :=
  {| Hostname := default "" (json.asString (json.index peer "HostName"));
     PublicKey := default "" (json.asString (json.index peer "PublicKey"));
     Online := default false (json.asBool (json.index peer "Online"));
     TailscaleIPs := default "" (firstIP (json.index peer "TailscaleIPs"));
     AllowedIPs :=
       match json.asArray (json.index peer "AllowedIPs") with
       | Some allowedIPs => omap json.asString allowedIPs
       | None => []
       end;
     RxBytes := counter peer "RxBytes";
     TxBytes := counter peer "TxBytes" |}.

(** [c.Status()]. *)
Definition Client_Status (c : Client) : result Status :=
  match StatusOutput c with
  | CommandFailed _ =>
      (* If tailscale is not running or not logged in, return a minimal
         status *)
      Ok minimalStatus
  | Unparsable e => Err ("failed to parse tailscale status: " +:+ e)
  | Parsed rawStatus =>
      (* Check if we're logged in *)
      let self := json.asObject (json.index rawStatus "Self") in
      (* Parse peers *)
      let peers :=
        match json.asObject (json.index rawStatus "Peer") with
        | Some peers =>
            omap (fun peerData => peerInfo <$> json.asObject peerData.2) peers
        | None => []
        end in
      Ok {| LoggedIn := bool_decide (is_Some self);
            Self := selfInfo <$> self;
            Peers := peers |}
  end.

(** The loop of [GetPeerTraffic] over [rawStatus["Peer"]]: the counters of
    the first peer object whose ["PublicKey"] is the string asked for. *)
Fixpoint findTraffic (peers : list (string * json.Value)) (publicKey : string)
    : option (Z * Z) :=
  match peers with
  | [] => None
  | (_, peerData) :: rest =>
      match json.asObject peerData with
      | Some peer =>
          match json.asString (json.index peer "PublicKey") with
          | Some pubKey =>
              if String.eqb pubKey publicKey
              then Some (counter peer "RxBytes", counter peer "TxBytes")
              else findTraffic rest publicKey
          | None => findTraffic rest publicKey
          end
      | None => findTraffic rest publicKey
      end
  end.

(** [c.GetPeerTraffic(publicKey)], for the [n]-th call of a cycle. *)
Definition GetPeerTraffic (c : Client) (n : nat) (publicKey : string)
    : Z * Z :=
  match TrafficOutput c n with
  | CommandFailed _ | Unparsable _ => (0, 0)
  | Parsed rawStatus =>
      match json.asObject (json.index rawStatus "Peer") with
      | Some peers => default (0, 0) (findTraffic peers publicKey)
      | None => (0, 0)
      end
  end.

End tailscale.

(** ** Package [main]: data *)

Record TailscaleConfig : Type := {
  AuthKey : string;
  ControlURL : string;
  Hostname : string;
  ExitNode : string;
  AcceptRoutes : bool
}.

(** The zero value [TailscaleConfig{}]. *)
Definition TailscaleConfig_zero : TailscaleConfig :=
  {| AuthKey := ""; ControlURL := ""; Hostname := ""; ExitNode := "";
     AcceptRoutes := false |}.

Record PeerBandwidth : Type := {
  PublicKey : string;
  BytesIn : float64;
  BytesOut : float64
}.

Record PeerReading : Type := {
  BytesReceived : Z;
  BytesTransmitted : Z;
  LastChecked : time.Time
}.

(** Bodies of the HTTP requests the program sends. *)
Inductive Payload : Type :=
| BandwidthJSON (bandwidths : list PeerBandwidth)
| NotifyJSON (action publicKey : string).

(** What the program does to the outside world. *)
Inductive Effect : Type :=
| CmdStatus                                   (* tsClient.Status() *)
| CmdPeerTraffic (publicKey : string)         (* tsClient.GetPeerTraffic(k) *)
| HttpGet (url : string)
| HttpPost (url : string) (body : Payload)
| Sleep (d : time.Duration).

(** ** The accounting cycle *)

Local Open Scope Z_scope.

(** The constant [1024 * 1024] as a [float64]. *)
Definition MB : float64 := F64.of_int (1024 * 1024).

(** The body of [if timeDiff > 0 { ... }]: the report of a peer with a cached
    reading. *)
Definition deltaReport (publicKey : string)
    (currentReading lastReading : PeerReading) : PeerBandwidth :=
  (* Calculate bytes transferred since last reading *)
  let bytesInDiff :=
    F64.of_int (Int64.sub (BytesReceived currentReading)
                          (BytesReceived lastReading)) in
  let bytesOutDiff :=
    F64.of_int (Int64.sub (BytesTransmitted currentReading)
                          (BytesTransmitted lastReading)) in
  (* Handle counter wraparound *)
  let bytesInDiff :=
    if F64.ltb bytesInDiff F64.zero
    then F64.of_int (BytesReceived currentReading) else bytesInDiff in
  let bytesOutDiff :=
    if F64.ltb bytesOutDiff F64.zero
    then F64.of_int (BytesTransmitted currentReading) else bytesOutDiff in
  (* Convert to MB *)
  let bytesInMB := F64.div bytesInDiff MB in
  let bytesOutMB := F64.div bytesOutDiff MB in
  {| PublicKey := publicKey; BytesIn := bytesInMB; BytesOut := bytesOutMB |}.

(** The state the loop over [status.Peers] works on: the global map
    [lastReadings], the slice [peerBandwidths], and the commands run. *)
Record Cycle : Type := {
  lastReadings : gmap string PeerReading;
  peerBandwidths : list PeerBandwidth;
  effects : list Effect
}.

(** One iteration of [for _, peer := range status.Peers]; [n] counts the
    iterations, hence the calls to [GetPeerTraffic]. *)
Definition peerStep (tsClient : tailscale.Client) (now : time.Time) (n : nat)
    (peer : tailscale.PeerInfo) (c : Cycle) : Cycle :=
  let publicKey := tailscale.PublicKey peer in
  (* Get current traffic stats from Tailscale *)
  let '(rxBytes, txBytes) := tailscale.GetPeerTraffic tsClient n publicKey in
  let currentReading :=
    {| BytesReceived := rxBytes; BytesTransmitted := txBytes;
       LastChecked := now |} in
  let peerBandwidths :=
    match lastReadings c !! publicKey with
    | Some lastReading =>
        let timeDiff :=
          time.Seconds
            (time.Sub (LastChecked currentReading) (LastChecked lastReading)) in
        if F64.gtb timeDiff F64.zero
        then peerBandwidths c
               ++ [deltaReport publicKey currentReading lastReading]
        else peerBandwidths c
    | None =>
        (* First reading of a peer *)
        peerBandwidths c
          ++ [{| PublicKey := publicKey; BytesIn := F64.zero;
                 BytesOut := F64.zero |}]
    end in
  (* Update the last reading *)
  {| lastReadings := <[publicKey := currentReading]> (lastReadings c);
     peerBandwidths := peerBandwidths;
     effects := effects c ++ [CmdPeerTraffic publicKey] |}.

Fixpoint peerLoop (tsClient : tailscale.Client) (now : time.Time) (n : nat)
    (peers : list tailscale.PeerInfo) (c : Cycle) : Cycle :=
  match peers with
  | [] => c
  | peer :: rest =>
      peerLoop tsClient now (S n) rest (peerStep tsClient now n peer c)
  end.

(** [currentPeerKeys]: a [map[string]bool] holding [true] for the keys of the
    snapshot. *)
Definition currentPeerKeys (peers : list tailscale.PeerInfo) : gset string :=
  list_to_set (tailscale.PublicKey <$> peers).

(** Clean up old peers: delete from [lastReadings] every key not in
    [currentPeerKeys]. *)
Definition cleanUp (keys : gset string) (readings : gmap string PeerReading)
    : gmap string PeerReading :=
  filter (fun kv => kv.1 ∈ keys) readings.

(** [calculatePeerBandwidth()]. Takes the command line, the reading of the
    clock and the global [lastReadings]; gives the new [lastReadings], the
    returned pair as a [result], and the commands run. The loop and the
    clean-up run with the mutex [mu] held, so that a cycle sees the cache as
    the cycle before left it. *)
Definition calculatePeerBandwidth (tsClient : tailscale.Client)
    (now : time.Time) (readings : gmap string PeerReading)
    : gmap string PeerReading * result (list PeerBandwidth) * list Effect :=
  match tailscale.Client_Status tsClient with
  | Err e =>
      (readings, Err ("failed to get Tailscale status: " +:+ e), [CmdStatus])
  | Ok status =>
      let c := peerLoop tsClient now 0 (tailscale.Peers status)
                 {| lastReadings := readings; peerBandwidths := [];
                    effects := [CmdStatus] |} in
      (cleanUp (currentPeerKeys (tailscale.Peers status)) (lastReadings c),
       Ok (peerBandwidths c), effects c)
  end.

(** *** Vocabulary for the statements about a cycle *)

Definition keysOf (peers : list tailscale.PeerInfo) : list string :=
  tailscale.PublicKey <$> peers.

(** The [i]-th peer of the snapshot has key [k], and no peer before it
    has. In a snapshot without repeated keys that is every peer. *)
Definition firstOf (peers : list tailscale.PeerInfo) (i : nat) (k : string)
    : Prop :=
  keysOf peers !! i = Some k /\
  forall j, (j < i)%nat -> keysOf peers !! j <> Some k.

(** The [i]-th peer of the snapshot has key [k], and no peer after it has. *)
Definition lastOf (peers : list tailscale.PeerInfo) (i : nat) (k : string)
    : Prop :=
  keysOf peers !! i = Some k /\
  forall j, (i < j)%nat -> keysOf peers !! j <> Some k.

(** The reports of a list that are about the peer with key [k]. *)
Definition reportsFor (k : string) (bandwidths : list PeerBandwidth)
    : list PeerBandwidth :=
  filter (fun r => PublicKey r = k) bandwidths.

(** The reading the [n]-th iteration builds for key [k]. *)
Definition currentReading (tsClient : tailscale.Client) (now : time.Time)
    (n : nat) (k : string) : PeerReading :=
  {| BytesReceived := (tailscale.GetPeerTraffic tsClient n k).1;
     BytesTransmitted := (tailscale.GetPeerTraffic tsClient n k).2;
     LastChecked := now |}.

Definition zeroReport (k : string) : PeerBandwidth :=
  {| PublicKey := k; BytesIn := F64.zero; BytesOut := F64.zero |}.

(** What one iteration appends to [peerBandwidths], by the cached reading
    it finds. *)
Definition emitted (k : string) (current : PeerReading)
    (prior : option PeerReading) : list PeerBandwidth :=
  match prior with
  | Some last =>
      if bool_decide (LastChecked last < LastChecked current)
      then [deltaReport k current last] else []
  | None => [zeroReport k]
  end.

(** [float64(bytes) / (1024 * 1024)]. *)
Definition toMB (bytes : Z) : float64 := F64.div (F64.of_int bytes) MB.

(** ** The reporter tick and the change notifier *)

Definition StatusOK : Z := 200.
Definition StatusInternalServerError : Z := 500.

(** The response of [http.Post] as the reporter reads it: [resp.StatusCode]
    and [resp.Status], the status line as the server sent it. *)
Module http.

Record Response : Type := {
  StatusCode : Z;
  Status : string
}.

End http.

(** [json.Marshal] refuses a [float64] that is infinite or NaN. *)
Definition json_Marshal (bandwidths : list PeerBandwidth) : result Payload :=
  if forallb (fun r => F64.is_finite (BytesIn r) && F64.is_finite (BytesOut r))
       bandwidths
  then Ok (BandwidthJSON bandwidths)
  else Err "json: unsupported value".

(** [reportPeerBandwidth(apiURL)]; [post] is the outcome of [http.Post]: the
    response, or a transport error. *)
Definition reportPeerBandwidth (apiURL : string) (tsClient : tailscale.Client)
    (now : time.Time) (post : result http.Response)
    (readings : gmap string PeerReading)
    : gmap string PeerReading * option error * list Effect :=
  match calculatePeerBandwidth tsClient now readings with
  | (readings', Err e, effs) =>
      (readings', Some ("failed to calculate peer bandwidth: " +:+ e), effs)
  | (readings', Ok bandwidths, effs) =>
      match json_Marshal bandwidths with
      | Err e =>
          (readings', Some ("failed to marshal bandwidth data: " +:+ e), effs)
      | Ok jsonData =>
          let effs := effs ++ [HttpPost apiURL jsonData] in
          match post with
          | Err e =>
              (readings', Some ("failed to send bandwidth data: " +:+ e), effs)
          | Ok resp =>
              if decide (http.StatusCode resp = StatusOK)
              then (readings', None, effs)
              else (readings',
                    Some ("API returned non-OK status: " +:+ http.Status resp),
                    effs)
          end
      end
  end.

(** [notifyPeerChange(action, publicKey)], with the global [notifyURL]. *)
Definition notifyPeerChange (notifyURL action publicKey : string)
    : list Effect :=
  if decide (notifyURL = "") then []
  else [HttpPost notifyURL (NotifyJSON action publicKey)].

(** *** Membership changes and their notification *)

(** The commands and requests of a cycle, the cache it leaves, and the
    commands and requests of the whole tick of the reporter around it. *)
Definition cycleEffects (tsClient : tailscale.Client) (now : time.Time)
    (readings : gmap string PeerReading) : list Effect :=
  (calculatePeerBandwidth tsClient now readings).2.

Definition cycleReadings (tsClient : tailscale.Client) (now : time.Time)
    (readings : gmap string PeerReading) : gmap string PeerReading :=
  (calculatePeerBandwidth tsClient now readings).1.1.

Definition tickEffects (apiURL : string) (tsClient : tailscale.Client)
    (now : time.Time) (post : result http.Response)
    (readings : gmap string PeerReading) : list Effect :=
  (reportPeerBandwidth apiURL tsClient now post readings).2.

(** The peer with key [k] is baselined by the cycle: in the snapshot, not in
    the cache before. *)
Definition newlyBaselined (tsClient : tailscale.Client)
    (readings : gmap string PeerReading) (k : string) : Prop :=
  readings !! k = None /\
  exists status, tailscale.Client_Status tsClient = Ok status /\
                 k ∈ keysOf (tailscale.Peers status).

(** The peer with key [k] is pruned by the cycle: in the cache before, not
    after. *)
Definition newlyPruned (tsClient : tailscale.Client) (now : time.Time)
    (readings : gmap string PeerReading) (k : string) : Prop :=
  is_Some (readings !! k) /\ cycleReadings tsClient now readings !! k = None.

(** The claim that the changes of membership a cycle sees are notified: for
    each peer baselined or pruned, the tick posts [{action, publicKey}] to
    the notify URL. *)
Definition cycleNotifiesChanges (notifyURL apiURL : string)
    (tsClient : tailscale.Client) (now : time.Time)
    (post : result http.Response) (readings : gmap string PeerReading)
    : Prop :=
  forall k,
    newlyBaselined tsClient readings k \/ newlyPruned tsClient now readings k ->
    exists action,
      HttpPost notifyURL (NotifyJSON action k)
        ∈ tickEffects apiURL tsClient now post readings.

(** *** Concrete command outputs and caches *)

(** An output of [tailscale status --json] with one peer for each key, all
    with the counters [rx] and [tx]. *)
Definition examplePeerJSON (rx tx : Z) (k : string) : string * json.Value :=
  ("nodekey:" +:+ k,
   json.Object
     [("HostName", json.String "node"); ("PublicKey", json.String k);
      ("Online", json.Bool true);
      ("TailscaleIPs", json.Array [json.String "100.64.0.2"]);
      ("RxBytes", json.Number (F64.of_int rx));
      ("TxBytes", json.Number (F64.of_int tx))]).

Definition exampleOutput (keys : list string) (rx tx : Z)
    : tailscale.CommandOutput :=
  tailscale.Parsed
    [("Self",
      json.Object
        [("HostName", json.String "gerbil"); ("PublicKey", json.String "S");
         ("Online", json.Bool true);
         ("TailscaleIPs", json.Array [json.String "100.64.0.1"])]);
     ("Peer", json.Object (examplePeerJSON rx tx <$> keys))].

Definition exampleClient (keys : list string) (rx tx : Z) : tailscale.Client :=
  {| tailscale.StatusOutput := exampleOutput keys rx tx;
     tailscale.TrafficOutput := fun _ => exampleOutput keys rx tx |}.

(** What [Status()] makes of that output. *)
Definition examplePeer (rx tx : Z) (k : string) : tailscale.PeerInfo :=
  {| tailscale.PublicKey := k; tailscale.Hostname := "node";
     tailscale.TailscaleIPs := "100.64.0.2"; tailscale.AllowedIPs := [];
     tailscale.Online := true; tailscale.RxBytes := rx;
     tailscale.TxBytes := tx |}.

Definition exampleStatus (keys : list string) (rx tx : Z) : tailscale.Status :=
  {| tailscale.LoggedIn := true;
     tailscale.Self :=
       Some {| tailscale.PublicKey := "S"; tailscale.Hostname := "gerbil";
               tailscale.TailscaleIPs := "100.64.0.1";
               tailscale.AllowedIPs := []; tailscale.Online := true;
               tailscale.RxBytes := 0; tailscale.TxBytes := 0 |};
     tailscale.Peers := examplePeer rx tx <$> keys |}.

(** A client for which the output of [tailscale status --json] does not
    parse. *)
Definition failingClient : tailscale.Client :=
  {| tailscale.StatusOutput := tailscale.Unparsable "unexpected end of JSON input";
     tailscale.TrafficOutput :=
       fun _ => tailscale.Unparsable "unexpected end of JSON input" |}.

(** A client for which the command fails: tailscale is not running. *)
Definition stoppedClient : tailscale.Client :=
  {| tailscale.StatusOutput := tailscale.CommandFailed "exit status 1";
     tailscale.TrafficOutput := fun _ => tailscale.CommandFailed "exit status 1" |}.

Definition exampleReadings (k : string) (rx tx : Z) (t : time.Time)
    : gmap string PeerReading :=
  {[ k := {| BytesReceived := rx; BytesTransmitted := tx; LastChecked := t |} ]}.

(** The answers of the report endpoint: 200 and 500. *)
Definition response200 : http.Response :=
  {| http.StatusCode := 200; http.Status := "200 OK" |}.

Definition response500 : http.Response :=
  {| http.StatusCode := 500; http.Status := "500 Internal Server Error" |}.

(** ** The [/status] handler *)

Inductive Body : Type :=
| ErrorText (msg : string)
| SelfStatusJSON (loggedIn : bool) (hostname tailscaleIPs publicKey : string)
                 (online : bool) (peerCount : nat).

Record Response : Type := { StatusCode : Z; ResponseBody : Body }.

(** [handleStatus(w, r)]: what is written to [w], or the panic raised while
    the response map is built. *)
Definition handleStatus (tsClient : tailscale.Client) : Exec Response :=
  match tailscale.Client_Status tsClient with
  | Err e =>
      Returns {| StatusCode := StatusInternalServerError;
                 ResponseBody :=
                   ErrorText ("Failed to get Tailscale status: " +:+ e) |}
  | Ok status =>
      hostname ← tailscale.Hostname <$> deref (tailscale.Self status);
      tailscaleIPs ← tailscale.TailscaleIPs <$> deref (tailscale.Self status);
      publicKey ← tailscale.PublicKey <$> deref (tailscale.Self status);
      online ← tailscale.Online <$> deref (tailscale.Self status);
      mret {| StatusCode := StatusOK;
              ResponseBody :=
                SelfStatusJSON (tailscale.LoggedIn status) hostname
                  tailscaleIPs publicKey online
                  (length (tailscale.Peers status)) |}
  end.

(** The two responses the interface of [/status] allows. *)
Definition isSelfStatusView (r : Response) : Prop :=
  StatusCode r = StatusOK /\
  exists loggedIn hostname ips key online count,
    ResponseBody r = SelfStatusJSON loggedIn hostname ips key online count.

Definition isInternalServerError (r : Response) : Prop :=
  StatusCode r = StatusInternalServerError.

(** The check [ensureTailscale] makes before it reads the same fields:
    [if status.Self != nil { ... status.Self.Hostname ... }]. *)
Definition ensureTailscale_identity (status : tailscale.Status)
    : Exec (option (string * string)) :=
  match tailscale.Self status with
  | Some self =>
      Returns (Some (tailscale.Hostname self, tailscale.TailscaleIPs self))
  | None => Returns None
  end.

(** ** Acquiring the configuration in [main] *)

(** [strings.HasSuffix] and [strings.TrimSuffix]. *)
Definition HasSuffix (s suffix : string) : bool :=
  (String.length suffix <=? String.length s)%nat
  && String.eqb
       (String.substring (String.length s - String.length suffix)%nat
                         (String.length suffix) s)
       suffix.

Definition TrimSuffix (s suffix : string) : string :=
  if HasSuffix s suffix
  then String.substring 0 (String.length s - String.length suffix)%nat s
  else s.

(** One answer of the remote endpoint to [http.Get]: a transport error, a
    response whose body cannot be read, or a response with a status code and
    a body, the body given by what [json.Unmarshal] makes of it (the config
    decoded so far and the decoding error, if any). *)
Inductive FetchReply : Type :=
| GetFailed (e : error)
| ReadFailed (code : Z) (e : error)
| Replied (code : Z) (decoded : TailscaleConfig) (decodeErr : option error).

(** [loadRemoteConfig(url)] on a reply. The status code is not looked at. *)
Definition loadRemoteConfig (reply : FetchReply)
    : TailscaleConfig * option error :=
  match reply with
  | GetFailed e => (TailscaleConfig_zero, Some e)
  | ReadFailed _ e => (TailscaleConfig_zero, Some e)
  | Replied _ config err => (config, err)
  end.

(** The content of the local configuration file, for [loadConfig]. *)
Inductive FileContent : Type :=
| OpenFailed (e : error)
| FileReadFailed (e : error)
| Content (decoded : TailscaleConfig) (decodeErr : option error).

Definition loadConfig (file : FileContent) : TailscaleConfig * option error :=
  match file with
  | OpenFailed e => (TailscaleConfig_zero, Some e)
  | FileReadFailed e => (TailscaleConfig_zero, Some e)
  | Content tsconfig None => (tsconfig, None)
  | Content _ (Some e) => (TailscaleConfig_zero, Some e)
  end.

(** How the configuration part of [main] ends. *)
Inductive Startup : Type :=
| Fatal (msg : string)
| Configured (tsconfig : TailscaleConfig) (effs : list Effect)
| Fetching (effs : list Effect).

(** [for tsconfig.AuthKey == "" { ... }], run against the replies of the
    endpoint in the order they come. The loop has no exit of its own: when
    the replies given are used up with the key still empty, it is still
    [Fetching]. *)
Fixpoint fetchLoop (url : string) (replies : list FetchReply)
    (tsconfig : TailscaleConfig) (effs : list Effect) : Startup :=
  if decide (AuthKey tsconfig = "") then
    match replies with
    | [] => Fetching effs
    | reply :: rest =>
        let '(tsconfig, err) := loadRemoteConfig reply in
        let effs := effs ++ [HttpGet url] in
        match err with
        | Some _ =>
            fetchLoop url rest tsconfig (effs ++ [Sleep (5 * time.Second)])
        | None => fetchLoop url rest tsconfig effs
        end
    end
  else Configured tsconfig effs.

(** The parameters of [main] after the environment and the flags are read. *)
Record Params : Type := {
  configFile : string;
  remoteConfigURL : string;
  authKey : string;
  hostname : string;
  controlURL : string
}.

(** Modelled from the spec: [logger.Fatal], of the package [logger] whose
    source is missing, ends the process; section 7 of the specification
    lists its uses as the fatal errors, "process exits". *)
Definition logger_Fatal (msg : string) : Startup := Fatal msg.

(** The part of [main] that loads the configuration. *)
Definition acquireConfig (p : Params) (file : FileContent)
    (replies : list FetchReply) : Startup :=
  (* Clean up the remote config URL for backwards compatibility *)
  let remoteConfigURL :=
    TrimSuffix (TrimSuffix (remoteConfigURL p) "/gerbil/get-config") "/" in
  if negb (String.eqb (configFile p) "") then
    match loadConfig file with
    | (_, Some e) => logger_Fatal ("Failed to load configuration: " +:+ e)
    | (tsconfig, None) => Configured tsconfig []
    end
  else if negb (String.eqb remoteConfigURL "") then
    (* Loop until we get the config *)
    fetchLoop (remoteConfigURL +:+ "/gerbil/get-tailscale-config") replies
      TailscaleConfig_zero []
  else
    (* Use environment variables or flags *)
    let tsconfig :=
      {| AuthKey := authKey p; ControlURL := controlURL p;
         Hostname := hostname p; ExitNode := ""; AcceptRoutes := false |} in
    if String.eqb (AuthKey tsconfig) "" then
      logger_Fatal
        "You must provide either a config file, remote config URL, or Tailscale auth key"
    else Configured tsconfig [].

(** *** Vocabulary for the statements about the loop *)

Definition StartupEffects (s : Startup) : list Effect :=
  match s with
  | Fatal _ => []
  | Configured _ effs | Fetching effs => effs
  end.

(** The replies the loop gets to: up to the first that carries a key. *)
Fixpoint fetched (replies : list FetchReply) : list FetchReply :=
  match replies with
  | [] => []
  | reply :: rest =>
      if decide (AuthKey (loadRemoteConfig reply).1 = "")
      then reply :: fetched rest else [reply]
  end.

(** One attempt: the request, and the delay if it returned an error. *)
Definition attempt (url : string) (reply : FetchReply) : list Effect :=
  HttpGet url ::
  match (loadRemoteConfig reply).2 with
  | Some _ => [Sleep (5 * time.Second)]
  | None => []
  end.

Definition exampleConfig : TailscaleConfig :=
  {| AuthKey := "tskey-auth-k1"; ControlURL := ""; Hostname := "gerbil";
     ExitNode := ""; AcceptRoutes := false |}.

(** ** The reporter loop *)

(** What one tick of the ticker meets: the command line, the clock, and the
    outcome of the POST to the endpoint. *)
Record Tick : Type := {
  tickClient : tailscale.Client;
  tickNow : time.Time;
  tickPost : result http.Response
}.

(** [periodicBandwidthCheck(endpoint)] over the ticks the ticker delivers,
    from the global [lastReadings]: the [lastReadings] left, the lines
    logged, and the commands and requests made. The loop has no exit; an
    error of a tick is logged and the next tick is waited for. *)
Fixpoint periodicBandwidthCheck (endpoint : string) (ticks : list Tick)
    (readings : gmap string PeerReading)
    : gmap string PeerReading * list string * list Effect :=
  match ticks with
  | [] => (readings, [], [])
  | tick :: rest =>
      let '(readings, err, effs) :=
        reportPeerBandwidth endpoint (tickClient tick) (tickNow tick)
          (tickPost tick) readings in
      let '(final, logged, effs') :=
        periodicBandwidthCheck endpoint rest readings in
      (final,
       match err with
       | Some e => ("Failed to report peer bandwidth: " +:+ e) :: logged
       | None => logged
       end,
       effs ++ effs')
  end.

(** *** Vocabulary for the statements about successive cycles *)

(** The reports a cycle returns, none when it returns an error. *)
Definition cycleReports (tsClient : tailscale.Client) (now : time.Time)
    (readings : gmap string PeerReading) : list PeerBandwidth :=
  match (calculatePeerBandwidth tsClient now readings).1.2 with
  | Ok bandwidths => bandwidths
  | Err _ => []
  end.

(** Successive calls of [calculatePeerBandwidth], each on the
    [lastReadings] the call before left: the cache at the end and the
    reports of all the calls, in order. *)
Fixpoint runCycles (ticks : list (tailscale.Client * time.Time))
    (readings : gmap string PeerReading)
    : gmap string PeerReading * list PeerBandwidth :=
  match ticks with
  | [] => (readings, [])
  | (tsClient, now) :: rest =>
      let '(final, reports) :=
        runCycles rest (cycleReadings tsClient now readings) in
      (final, cycleReports tsClient now readings ++ reports)
  end.

(** The megabytes a list of reports adds up to, as rationals. *)
Definition totalIn (reports : list PeerBandwidth) : Q :=
  foldr (fun r acc => (F64.toQ (BytesIn r) + acc)%Q) 0%Q reports.

Definition totalOut (reports : list PeerBandwidth) : Q :=
  foldr (fun r acc => (F64.toQ (BytesOut r) + acc)%Q) 0%Q reports.

(** A run of cycles during which the peer with key [k], cached at [prior],
    stays in the snapshot under one entry, the clock advances from cycle to
    cycle and the counters of the peer never go back (and grow by less than
    [2^53] bytes between two readings). A cycle whose snapshot query
    returns an error is allowed anywhere in the run. *)
Fixpoint steadyRun (k : string) (prior : PeerReading)
    (ticks : list (tailscale.Client * time.Time)) : Prop :=
  match ticks with
  | [] => True
  | (tsClient, now) :: rest =>
      match tailscale.Client_Status tsClient with
      | Err _ => steadyRun k prior rest
      | Ok status =>
          exists i,
            firstOf (tailscale.Peers status) i k /\
            lastOf (tailscale.Peers status) i k /\
            LastChecked prior < now /\
            let current := currentReading tsClient now i k in
            0 <= BytesReceived current - BytesReceived prior < 2 ^ 53 /\
            0 <= BytesTransmitted current - BytesTransmitted prior < 2 ^ 53 /\
            steadyRun k current rest
      end
  end.

(** A client whose snapshot query works while its traffic queries fail. *)
Definition flakyClient (keys : list string) : tailscale.Client :=
  {| tailscale.StatusOutput := exampleOutput keys 0 0;
     tailscale.TrafficOutput :=
       fun _ => tailscale.CommandFailed "exit status 1" |}.

(** Three ticks: the peer ["P"] read at [(2049576, 500)] at time 20, a
    snapshot that does not parse at time 25, the peer read at
    [(3098152, 1049076)] at time 30. *)
Definition exampleRun : list (tailscale.Client * time.Time) :=
  [(exampleClient ["P"] 2049576 500, 20);
   (failingClient, 25);
   (exampleClient ["P"] 3098152 1049076, 30)].

(** The decoded output that [exampleOutput] holds. *)
Definition exampleRawStatus (keys : list string) (rx tx : Z)
    : list (string * json.Value) :=
  [("Self",
    json.Object
      [("HostName", json.String "gerbil"); ("PublicKey", json.String "S");
       ("Online", json.Bool true);
       ("TailscaleIPs", json.Array [json.String "100.64.0.1"])]);
   ("Peer", json.Object (examplePeerJSON rx tx <$> keys))].

(** The entries of [rawStatus["Peer"]], the map both [Status()] and
    [GetPeerTraffic] range over; no entry when it is not a map. *)
Definition peerEntries (rawStatus : list (string * json.Value))
    : list (string * json.Value) :=
  default [] (json.asObject (json.index rawStatus "Peer")).

(** A command line whose output holds the peers ["P"], with the counters
    1000 and 500, and ["Q"], with the counters 2000 and 700; the run made
    for the snapshot ranges over them in one order, the runs made for the
    traffic of a peer in the other. *)
Definition shuffledOutput (qFirst : bool) : list (string * json.Value) :=
  [("Self", json.Object [("PublicKey", json.String "S")]);
   ("Peer",
    json.Object
      (if qFirst
       then [examplePeerJSON 2000 700 "Q"; examplePeerJSON 1000 500 "P"]
       else [examplePeerJSON 1000 500 "P"; examplePeerJSON 2000 700 "Q"]))].

Definition shuffledClient : tailscale.Client :=
  {| tailscale.StatusOutput := tailscale.Parsed (shuffledOutput false);
     tailscale.TrafficOutput :=
       fun _ => tailscale.Parsed (shuffledOutput true) |}.

(** The request bodies a list of effects posts to [url]. *)
Definition postedTo (url : string) (effs : list Effect) : list Payload :=
  omap (fun e => match e with
                 | HttpPost url' body =>
                     if decide (url' = url) then Some body else None
                 | _ => None
                 end) effs.

(** The reports that request bodies carry. *)
Definition reportsOf (bodies : list Payload) : list PeerBandwidth :=
  flat_map (fun body => match body with
                        | BandwidthJSON bandwidths => bandwidths
                        | NotifyJSON _ _ => []
                        end) bodies.

(** ** The handlers [/peer], [/peers] and [/health] *)

Module api.

(** [main.PeerInfo], the view of a peer the API gives. *)
Record PeerInfo : Type := {
  PublicKey : string;
  Hostname : string;
  IP : string;
  AllowedIPs : list string;
  Connected : bool
}.

End api.

Definition StatusMethodNotAllowed : Z := 405.
Definition StatusNotImplemented : Z := 501.
Definition StatusServiceUnavailable : Z := 503.

(** What a handler writes to [w]: [http.Error(w, msg, code)]; status 200
    with the JSON encoding of a [[]PeerInfo], [None] being the nil slice,
    encoded as [null]; or status 200 with a plain body. *)
Inductive Written : Type :=
| http_Error (msg : string) (code : Z)
| PeersJSON (peers : option (list api.PeerInfo))
| Plain (code : Z) (body : string).

(** [append(s, x)] on a slice that may be nil. *)
Definition slice_append {A} (s : option (list A)) (x : A) : option (list A) :=
  Some (default [] s ++ [x]).

Definition handleGetPeers (tsClient : tailscale.Client) : Written :=
  match tailscale.Client_Status tsClient with
  | Err e =>
      http_Error ("Failed to get Tailscale status: " +:+ e)
                 StatusInternalServerError
  | Ok status =>
      (* var peers []PeerInfo *)
      let peers :=
        foldl (fun peers peer =>
                 let peerInfo :=
                   {| api.PublicKey := tailscale.PublicKey peer;
                      api.Hostname := tailscale.Hostname peer;
                      api.IP := tailscale.TailscaleIPs peer;
                      api.AllowedIPs := tailscale.AllowedIPs peer;
                      api.Connected := tailscale.Online peer |} in
                 slice_append peers peerInfo)
              None (tailscale.Peers status) in
      PeersJSON peers
  end.

(** [handlePeer(w, r)], by [r.Method]. *)
Definition handlePeer (method : string) (tsClient : tailscale.Client)
    : Written :=
  if String.eqb method "GET" then handleGetPeers tsClient
  else if String.eqb method "POST" then
    (* Tailscale peers are managed by the control plane *)
    http_Error "Peers are managed by Tailscale control plane"
               StatusNotImplemented
  else if String.eqb method "DELETE" then
    http_Error "Peers are managed by Tailscale control plane"
               StatusNotImplemented
  else http_Error "Method not allowed" StatusMethodNotAllowed.

Definition handleHealth (tsClient : tailscale.Client) : Written :=
  match tailscale.Client_Status tsClient with
  | Err _ => http_Error "Unhealthy" StatusServiceUnavailable
  | Ok status =>
      if negb (tailscale.LoggedIn status)
      then http_Error "Not logged in" StatusServiceUnavailable
      else Plain StatusOK "OK"
  end.

(** The view [/peers] gives of a peer of the snapshot. *)
Definition peerView (peer : tailscale.PeerInfo) : api.PeerInfo :=
  {| api.PublicKey := tailscale.PublicKey peer;
     api.Hostname := tailscale.Hostname peer;
     api.IP := tailscale.TailscaleIPs peer;
     api.AllowedIPs := tailscale.AllowedIPs peer;
     api.Connected := tailscale.Online peer |}.

(** ** Bringing Tailscale up *)

(** [c.Login(authKey, hostname, controlURL)] of package [tailscale]: the
    arguments of the [tailscale] command it runs, and its result on the
    outcome of the run (the error and the combined output, if it fails). *)
Module tailscale_Login.

Definition args (authKey hostname controlURL : string) : list string :=
  let args := ["up"; "--authkey"; authKey] in
  let args :=
    if decide (hostname = "") then args
    else args ++ ["--hostname"; hostname] in
  let args :=
    if decide (controlURL = "") then args
    else args ++ ["--login-server"; controlURL] in
  args.

Definition Login (authKey hostname controlURL : string)
    (run : list string -> option (error * string)) : option error :=
  match run (args authKey hostname controlURL) with
  | Some (err, output) =>
      Some ("failed to login: " +:+ err +:+ ", output: " +:+ output)
  | None => None
  end.

End tailscale_Login.

(** What [ensureTailscale] does to the host: the commands it runs, the
    queries of the status and the delays. *)
Inductive BootStep : Type :=
| ExecCommand (name : string) (args : list string)
| Did (e : Effect).

(** The host as [ensureTailscale] meets it: the error ([None] for [nil]) of
    each command it may run, the status command as the two calls of
    [Status()] find it, and the outcome of [tailscale up] (the error and the
    combined output, if it fails). *)
Record Host : Type := {
  probeRun : option error;
  tailscaledStart : option error;
  systemctlRun : option error;
  serviceRun : option error;
  statusBefore : tailscale.Client;
  loginRun : list string -> option (error * string);
  statusAfter : tailscale.Client
}.

Definition isTailscaleDaemonRunning (h : Host) : bool * list BootStep :=
  (bool_decide (probeRun h = None),
   [ExecCommand "tailscale" ["status"; "--json"]]).

Definition startTailscaleDaemon (h : Host) : option error * list BootStep :=
  (* Try to start tailscaled in the background *)
  let tailscaled :=
    ExecCommand "tailscaled"
      ["--state=/var/lib/tailscale/tailscaled.state";
       "--socket=/var/run/tailscale/tailscaled.sock"] in
  match tailscaledStart h with
  | Some _ =>
      (* If that fails, try using systemctl *)
      let systemctl := ExecCommand "systemctl" ["start"; "tailscaled"] in
      match systemctlRun h with
      | Some _ =>
          (* If that also fails, try service command *)
          (serviceRun h,
           [tailscaled; systemctl;
            ExecCommand "service" ["tailscaled"; "start"]])
      | None => (None, [tailscaled; systemctl])
      end
  | None => (None, [tailscaled])
  end.

(** The arguments of [tailscale up] that [ensureTailscale] builds. *)
Definition loginArgs (config : TailscaleConfig) : list string :=
  let args := ["up"; "--authkey"; AuthKey config] in
  let args :=
    if decide (Hostname config = "") then args
    else args ++ ["--hostname"; Hostname config] in
  let args :=
    if decide (ControlURL config = "") then args
    else args ++ ["--login-server"; ControlURL config] in
  let args :=
    if AcceptRoutes config then args ++ ["--accept-routes"] else args in
  let args :=
    if decide (ExitNode config = "") then args
    else args ++ ["--exit-node"; ExitNode config] in
  args.

(** [ensureTailscale(config)]: the error returned, [None] for [nil], and
    what was done to the host. *)
Definition ensureTailscale (config : TailscaleConfig) (h : Host)
    : Exec (option error * list BootStep) :=
  (* Check if tailscaled is running *)
  let '(running, steps) := isTailscaleDaemonRunning h in
  let started :=
    if negb running then
      match startTailscaleDaemon h with
      | (Some err, steps') =>
          (Some ("failed to start tailscaled: " +:+ err), steps ++ steps')
      | (None, steps') =>
          (* Wait for daemon to be ready *)
          (None, steps ++ steps' ++ [Did (Sleep (3 * time.Second))])
      end
    else (None, steps) in
  match started with
  | (Some err, steps) => Returns (Some err, steps)
  | (None, steps) =>
      (* Check current status *)
      let steps := steps ++ [Did CmdStatus] in
      match tailscale.Client_Status (statusBefore h) with
      | Err err =>
          Returns (Some ("failed to get Tailscale status: " +:+ err), steps)
      | Ok status =>
          (* If not logged in, use the auth key to join the network *)
          let loggedIn :=
            if negb (tailscale.LoggedIn status) then
              let args := loginArgs config in
              let steps := steps ++ [ExecCommand "tailscale" args] in
              match loginRun h args with
              | Some (err, output) =>
                  (Some ("failed to login to Tailscale: " +:+ err
                         +:+ ", output: " +:+ output), steps)
              | None =>
                  (* Wait for connection to establish *)
                  (None, steps ++ [Did (Sleep (5 * time.Second))])
              end
            else (None, steps) in
          match loggedIn with
          | (Some err, steps) => Returns (Some err, steps)
          | (None, steps) =>
              (* Verify we're connected *)
              let steps := steps ++ [Did CmdStatus] in
              match tailscale.Client_Status (statusAfter h) with
              | Err err =>
                  Returns
                    (Some ("failed to verify Tailscale status: " +:+ err),
                     steps)
              | Ok status =>
                  _ ← ensureTailscale_identity status;
                  mret (None, steps)
              end
          end
      end
  end.

(** The commands [ensureTailscale] ran, the delays it made. *)
Definition commandsRun (steps : list BootStep) : list (string * list string) :=
  omap (fun s => match s with
                 | ExecCommand name args => Some (name, args)
                 | Did _ => None
                 end) steps.

Definition delays (steps : list BootStep) : list time.Duration :=
  omap (fun s => match s with
                 | Did (Sleep d) => Some d
                 | _ => None
                 end) steps.

(** A host on which the daemon runs and the node is logged in, one on
    which nothing works, and one on which the daemon starts and
    [tailscale up] succeeds while the status command keeps failing. *)
Definition readyHost : Host :=
  {| probeRun := None; tailscaledStart := None; systemctlRun := None;
     serviceRun := None;
     statusBefore := exampleClient ["P"] 0 0;
     loginRun := fun _ => None;
     statusAfter := exampleClient ["P"] 0 0 |}.

Definition deadHost : Host :=
  {| probeRun := Some "exit status 1";
     tailscaledStart := Some "executable file not found in $PATH";
     systemctlRun := Some "exit status 5";
     serviceRun := Some "exit status 1";
     statusBefore := stoppedClient;
     loginRun := fun _ => Some ("exit status 1", "failed to connect to local tailscaled");
     statusAfter := stoppedClient |}.

Definition freshHost : Host :=
  {| probeRun := Some "exit status 1";
     tailscaledStart := None; systemctlRun := None; serviceRun := None;
     statusBefore := stoppedClient;
     loginRun := fun _ => None;
     statusAfter := stoppedClient |}.

(** ** The endpoint of the reporter in [main] *)

(** Parameters that name the Pangolin server with a slash at the end of
    its URL, and nothing else. *)
Definition exampleParams : Params :=
  {| configFile := "";
     remoteConfigURL := "http://pangolin:3001/api/v1/";
     authKey := ""; hostname := ""; controlURL := "" |}.


(** [if remoteConfigURL != "" { go periodicBandwidthCheck(...) }], on the
    cleaned URL: the endpoint the reporter is started with once
    [ensureTailscale] has returned no error, [None] when it is not
    started. *)
Definition reporterEndpoint (p : Params) : option string :=
  let remoteConfigURL :=
    TrimSuffix (TrimSuffix (remoteConfigURL p) "/gerbil/get-config") "/" in
  if negb (String.eqb remoteConfigURL "")
  then Some (remoteConfigURL +:+ "/gerbil/receive-bandwidth")
  else None.

(** ** Package [tailscale]: the methods that read plain text *)

Module text.

(** [strings.HasPrefix] and [strings.Contains]. *)
Fixpoint HasPrefix (s prefix : string) : bool :=
  match prefix, s with
  | "", _ => true
  | String a prefix, String b s => Ascii.eqb a b && HasPrefix s prefix
  | String _ _, "" => false
  end.

Fixpoint Contains (s substr : string) : bool :=
  HasPrefix s substr
  || match s with
     | "" => false
     | String _ rest => Contains rest substr
     end.

(** [strings.Split(s, sep)] for a separator [sep] of one byte, as the
    package calls it: the parts of [s] between the separators, one part
    more than there are separators. *)
Fixpoint Split (s : string) (sep : Ascii.ascii) : list string :=
  match s with
  | "" => [""]
  | String c rest =>
      if Ascii.eqb c sep then "" :: Split rest sep
      else match Split rest sep with
           | part :: parts => String c part :: parts
           | [] => [String c ""]
           end
  end.

Definition newline : Ascii.ascii := Ascii.ascii_of_nat 10.
Definition colon : Ascii.ascii := Ascii.ascii_of_nat 58.

(** [parts[i]]: an index out of range panics. *)
Definition at_index (parts : list string) (i : nat) : Exec string :=
  match parts !! i with
  | Some part => Returns part
  | None => Panics "index out of range"
  end.

Section Methods.
(** [strings.TrimSpace], which the methods apply to what they return. *)
Variable TrimSpace : string -> string.

(** [c.GetVersion()] on the outcome of [tailscale version]. *)
Definition GetVersion (run : result string) : result string :=
  match run with
  | Err err => Err ("failed to get version: " +:+ err)
  | Ok output =>
      let lines := Split output newline in
      match lines with
      | line :: _ => Ok (TrimSpace line)
      | [] => Err "unable to parse version"
      end
  end.

(** One iteration of [for _, line := range lines] in [GetNetworkStats]. *)
Definition statsLine (stats : gmap string string) (line : string)
    : Exec (gmap string string) :=
  if Contains line "UDP:" then
    value ← at_index (Split line colon) 1;
    mret (<["udp" := TrimSpace value]> stats)
  else if Contains line "IPv4:" then
    value ← at_index (Split line colon) 1;
    mret (<["ipv4" := TrimSpace value]> stats)
  else if Contains line "IPv6:" then
    value ← at_index (Split line colon) 1;
    mret (<["ipv6" := TrimSpace value]> stats)
  else mret stats.

Fixpoint statsLines (stats : gmap string string) (lines : list string)
    : Exec (gmap string string) :=
  match lines with
  | [] => mret stats
  | line :: rest => stats ← statsLine stats line; statsLines stats rest
  end.

(** [c.GetNetworkStats()] on the outcome of [tailscale netcheck]. *)
Definition GetNetworkStats (run : result string)
    : Exec (result (gmap string string)) :=
  match run with
  | Err err => mret (Err ("failed to run netcheck: " +:+ err))
  | Ok output =>
      stats ← statsLines ∅ (Split output newline);
      mret (Ok stats)
  end.

End Methods.

End text.

(* ================================================================== *)
(** * Part II: facts                                                   *)
(* ================================================================== *)

(** ** IEEE-754 rounding: what the accounting needs of it *)

Module F64Facts.
Import F64.

(** *** Shifting a mantissa to the right *)

Lemma iter_pos_nat {A} (f : A -> A) (p : positive) (x : A) :
  SpecFloat.iter_pos f p x = Nat.iter (Pos.to_nat p) f x.
Proof.
  revert x. induction p as [p IH | p IH |]; intros x; cbn [SpecFloat.iter_pos].
  - rewrite !IH, Pos2Nat.inj_xI.
    replace (S (2 * Pos.to_nat p))%nat
      with (Pos.to_nat p + (Pos.to_nat p + 1))%nat by lia.
    rewrite !Nat.iter_add. reflexivity.
  - rewrite !IH, Pos2Nat.inj_xO.
    replace (2 * Pos.to_nat p)%nat with (Pos.to_nat p + Pos.to_nat p)%nat
      by lia.
    rewrite Nat.iter_add. reflexivity.
  - reflexivity.
Qed.

Lemma Zdigits2_nonneg (m : Z) : 0 <= Zdigits2 m.
Proof. destruct m; cbn; lia. Qed.

Lemma Zdigits2_pos (m : Z) : 0 < m -> 0 < Zdigits2 m.
Proof. destruct m; cbn; lia. Qed.

Lemma Zdigits2_pos_inv (m : Z) : 0 <= m -> 0 < Zdigits2 m -> 0 < m.
Proof. destruct m; cbn; lia. Qed.

Lemma shr_1_nonneg (r : shr_record) : 0 <= shr_m r -> 0 <= shr_m (shr_1 r).
Proof.
  destruct r as [m r s]; cbn [shr_m].
  destruct m as [| [p | p |] | p]; cbn; lia.
Qed.

Lemma shr_1_digits (r : shr_record) :
  0 < shr_m r -> Zdigits2 (shr_m (shr_1 r)) = Zdigits2 (shr_m r) - 1.
Proof.
  destruct r as [m r s]; cbn [shr_m].
  destruct m as [| [p | p |] | p]; cbn; lia.
Qed.

Lemma shr_iter_nonneg (n : nat) (r : shr_record) :
  0 <= shr_m r -> 0 <= shr_m (Nat.iter n shr_1 r).
Proof.
  intros H. induction n as [| n IH]; [assumption |].
  rewrite Nat.iter_succ. apply shr_1_nonneg, IH.
Qed.

Lemma shr_iter_digits (n : nat) (r : shr_record) :
  0 <= shr_m r -> Z.of_nat n <= Zdigits2 (shr_m r) ->
  Zdigits2 (shr_m (Nat.iter n shr_1 r)) = Zdigits2 (shr_m r) - Z.of_nat n.
Proof.
  intros H0. induction n as [| n IH]; intros Hn.
  { change (Nat.iter 0 shr_1 r) with r. lia. }
  rewrite Nat.iter_succ, shr_1_digits.
  - rewrite IH by lia. lia.
  - apply Zdigits2_pos_inv; [apply shr_iter_nonneg, H0 |].
    rewrite IH by lia. lia.
Qed.

Lemma shr_m_of_loc (m : Z) (l : location) :
  shr_m (shr_record_of_loc m l) = m.
Proof. destruct l as [| []]; reflexivity. Qed.

Lemma shr_fexp_nonneg (m e : Z) (l : location) :
  0 <= m -> 0 <= shr_m (fst (shr_fexp prec emax m e l)).
Proof.
  intros H. unfold shr_fexp, shr.
  destruct (fexp prec emax (Zdigits2 m + e) - e) as [| p | p];
    cbn [fst]; rewrite ?iter_pos_nat;
    try apply shr_iter_nonneg; rewrite shr_m_of_loc; assumption.
Qed.

(** Above the smallest exponent a non-zero mantissa is never shifted
    away. *)
Lemma shr_fexp_pos (m e : Z) (l : location) :
  0 < m -> emin prec emax <= e ->
  0 < shr_m (fst (shr_fexp prec emax m e l)) /\
  emin prec emax <= snd (shr_fexp prec emax m e l).
Proof.
  intros Hm He. unfold shr_fexp, shr.
  pose proof (Zdigits2_pos m Hm) as Hd.
  destruct (fexp prec emax (Zdigits2 m + e) - e) as [| p | p] eqn:Hs;
    cbn [fst snd]; rewrite ?shr_m_of_loc; try (split; [lia | lia]).
  assert (Hp : Z.pos p = Zdigits2 m - prec).
  { revert Hs He. unfold fexp, emin, prec, emax. lia. }
  split; [| lia].
  rewrite iter_pos_nat.
  apply Zdigits2_pos_inv.
  - apply shr_iter_nonneg. rewrite shr_m_of_loc. lia.
  - rewrite shr_iter_digits; rewrite shr_m_of_loc, ?positive_nat_Z;
      unfold prec in Hp; lia.
Qed.

Lemma round_nearest_even_bounds (m : Z) (l : location) :
  m <= round_nearest_even m l <= m + 1.
Proof.
  destruct l as [| []]; cbn [round_nearest_even]; try lia.
  destruct (Z.even m); lia.
Qed.

(** *** Signs of rounded results *)

Lemma binary_round_aux_not_lt0 (m e : Z) (l : location) :
  ltb (binary_round_aux prec emax false m e l) zero = false.
Proof.
  unfold binary_round_aux.
  destruct (shr_fexp prec emax m e l) as [mrs' e'].
  destruct (shr_fexp prec emax _ e' loc_Exact) as [mrs'' e''].
  destruct (shr_m mrs''); [reflexivity | | reflexivity].
  destruct (e'' <=? emax - prec); reflexivity.
Qed.

Lemma binary_round_aux_has_sign (s : bool) (m e : Z) (l : location) :
  0 <= m -> has_sign s (binary_round_aux prec emax s m e l).
Proof.
  intros Hm. unfold binary_round_aux.
  pose proof (shr_fexp_nonneg m e l Hm) as H1.
  destruct (shr_fexp prec emax m e l) as [mrs' e']; cbn [fst] in H1.
  pose proof (round_nearest_even_bounds (shr_m mrs')
                (loc_of_shr_record mrs')) as Hr.
  pose proof (shr_fexp_nonneg
                (round_nearest_even (shr_m mrs') (loc_of_shr_record mrs'))
                e' loc_Exact ltac:(lia)) as H2.
  destruct (shr_fexp prec emax _ e' loc_Exact) as [mrs'' e''];
    cbn [fst] in H2.
  destruct (shr_m mrs''); [reflexivity | | lia].
  destruct (e'' <=? emax - prec); reflexivity.
Qed.

Lemma binary_round_aux_nonzero (s : bool) (m e : Z) (l : location) :
  0 < m -> emin prec emax <= e ->
  nonzero_sign s (binary_round_aux prec emax s m e l).
Proof.
  intros Hm He. unfold binary_round_aux.
  pose proof (shr_fexp_pos m e l Hm He) as [H1 He1].
  destruct (shr_fexp prec emax m e l) as [mrs' e']; cbn [fst snd] in *.
  pose proof (round_nearest_even_bounds (shr_m mrs')
                (loc_of_shr_record mrs')) as Hr.
  pose proof (shr_fexp_pos
                (round_nearest_even (shr_m mrs') (loc_of_shr_record mrs'))
                e' loc_Exact ltac:(lia) He1) as [H2 He2].
  destruct (shr_fexp prec emax _ e' loc_Exact) as [mrs'' e''];
    cbn [fst snd] in H2, He2.
  destruct (shr_m mrs''); [lia | | lia].
  destruct (e'' <=? emax - prec); cbn; auto.
Qed.

Lemma shl_align_exponent (m : positive) (e e' : Z) :
  emin prec emax <= e -> emin prec emax <= e' ->
  emin prec emax <= snd (shl_align m e e').
Proof. intros. unfold shl_align. destruct (e' - e); cbn [snd]; lia. Qed.

Lemma binary_round_nonzero (s : bool) (m : positive) (e : Z) :
  emin prec emax <= e -> nonzero_sign s (binary_round prec emax s m e).
Proof.
  intros He. unfold binary_round.
  pose proof (shl_align_exponent m e
    (fexp prec emax (Z.pos (digits2_pos m) + e)) He
    ltac:(unfold fexp; lia)) as H.
  destruct (shl_align m e _) as [mz ez]; cbn [snd] in H.
  apply binary_round_aux_nonzero; [lia | assumption].
Qed.

(** *** The conversion [float64(n)] *)

Lemma of_int_not_lt0 (n : Z) : 0 <= n -> ltb (of_int n) zero = false.
Proof.
  intros Hn. destruct n as [| p | p]; [reflexivity | | lia].
  unfold of_int, binary_normalize, binary_round.
  destruct (shl_align p 0 _) as [mz ez]. apply binary_round_aux_not_lt0.
Qed.

Lemma of_int_has_sign (n : Z) : 0 <= n -> has_sign false (of_int n).
Proof.
  intros Hn. destruct n as [| p | p]; [reflexivity | | lia].
  pose proof (binary_round_nonzero false p 0 ltac:(unfold emin, prec, emax; lia)) as H.
  unfold of_int, binary_normalize.
  destruct (binary_round prec emax false p 0); cbn in *; tauto.
Qed.

Lemma of_int_lt0 (n : Z) : n < 0 -> ltb (of_int n) zero = true.
Proof.
  intros Hn. destruct n as [| p | p]; [lia | lia |].
  pose proof (binary_round_nonzero true p 0 ltac:(unfold emin, prec, emax; lia)) as H.
  unfold of_int, binary_normalize.
  destruct (binary_round prec emax true p 0) as [| s | | s m e];
    cbn in H; try contradiction; [| destruct H]; subst; reflexivity.
Qed.

(** *** Division *)

Lemma has_sign_false_leb (x : float64) : has_sign false x -> leb zero x = true.
Proof. destruct x as [s | s | | s m e]; cbn; intros H; subst; tauto. Qed.

Lemma div_MB_has_sign (x : float64) :
  has_sign false x -> has_sign false (div x MB).
Proof.
  change MB with (S754_finite false 4503599627370496 (-32)).
  destruct x as [s | s | | s m e]; cbn [has_sign]; intros H; subst;
    try contradiction; try reflexivity.
  unfold div, SFdiv, SFdiv_core_binary.
  cbv zeta.
  match goal with
  | |- context [Z.div_eucl ?a ?b] =>
      pose proof (Z_div_mod a b ltac:(lia)) as Hq;
      assert (Ha : 0 <= a);
      [| destruct (Z.div_eucl a b) as [q r] ]
  end.
  { match goal with |- 0 <= match ?s with _ => _ end =>
      destruct s eqn:Hs end; try lia.
    rewrite <- Hs. apply Z.shiftl_nonneg. lia. }
  apply binary_round_aux_has_sign. nia.
Qed.

(** *** Exact conversions and quotients *)

Lemma digits2_size (p : positive) : digits2_pos p = Pos.size p.
Proof. induction p; cbn; congruence. Qed.

Lemma digits2_le_53 (p : positive) :
  Z.pos p < 2 ^ 53 -> Z.pos (digits2_pos p) <= 53.
Proof.
  intros Hp. rewrite digits2_size.
  pose proof (Pos.size_le p) as Hle.
  apply Pos2Z.pos_le_pos in Hle. rewrite Pos2Z.inj_pow in Hle.
  destruct (Z_le_gt_dec (Z.pos (Pos.size p)) 53) as [| Hgt]; [assumption |].
  exfalso.
  assert (2 ^ 54 <= 2 ^ Z.pos (Pos.size p)) by (apply Z.pow_le_mono_r; lia).
  change (2 ^ 54) with (2 * 2 ^ 53) in *. lia.
Qed.

Lemma digits2_iter_xO (p : positive) (n : positive) :
  Z.pos (digits2_pos (Pos.iter xO p n)) = Z.pos (digits2_pos p) + Z.pos n.
Proof.
  rewrite Pos2Nat.inj_iter, <- (positive_nat_Z n).
  induction (Pos.to_nat n) as [| k IH]; [cbn; lia |].
  cbn [nat_rect digits2_pos]. lia.
Qed.

Lemma Zpos_iter_xO (p : positive) (n : positive) :
  Z.pos (Pos.iter xO p n) = Z.pos p * 2 ^ Z.pos n.
Proof.
  change (Pos.iter xO p n) with (shift_pos n p).
  rewrite shift_pos_correct, Z.pow_pos_fold. lia.
Qed.

(** A mantissa of 53 bits with an exponent in range is left alone by the
    rounding. *)
Lemma binary_round_aux_canonical (s : bool) (m : positive) (e : Z) :
  digits2_pos m = 53%positive -> emin prec emax <= e <= emax - prec ->
  binary_round_aux prec emax s (Z.pos m) e loc_Exact = S754_finite s m e.
Proof.
  intros Hd He.
  assert (Hshr : forall l, l = loc_Exact ->
            shr_fexp prec emax (Z.pos m) e l
            = ({| shr_m := Z.pos m; shr_r := false; shr_s := false |}, e)).
  { intros l ->. unfold shr_fexp, shr. cbn [Zdigits2]. rewrite Hd.
    replace (fexp prec emax (53 + e) - e) with 0
      by (revert He; unfold fexp, emin, prec, emax; lia).
    reflexivity. }
  unfold binary_round_aux.
  rewrite (Hshr loc_Exact eq_refl). cbn [shr_m shr_r shr_s loc_of_shr_record
    round_nearest_even].
  rewrite (Hshr loc_Exact eq_refl). cbn [shr_m].
  destruct (Z.leb_spec e (emax - prec)); [reflexivity | lia].
Qed.

(** Rounding an integer below [2^53] is exact. *)
Lemma binary_round_small (s : bool) (p : positive) :
  Z.pos p < 2 ^ 53 ->
  exists m e, binary_round prec emax s p 0 = S754_finite s m e /\
              digits2_pos m = 53%positive /\ -52 <= e <= 0 /\
              Z.pos m = Z.pos p * 2 ^ (- e).
Proof.
  intros Hp. pose proof (digits2_le_53 p Hp) as Hd.
  unfold binary_round.
  replace (fexp prec emax (Z.pos (digits2_pos p) + 0))
    with (Z.pos (digits2_pos p) - 53)
    by (unfold fexp, emin, prec, emax; lia).
  unfold shl_align.
  destruct (Z.pos (digits2_pos p) - 53 - 0) as [| k | k] eqn:Hk; [| lia |].
  - exists p, 0. rewrite binary_round_aux_canonical;
      [| lia | unfold emin, prec, emax; lia].
    repeat split; lia.
  - exists (Pos.iter xO p k), (Z.pos (digits2_pos p) - 53).
    rewrite binary_round_aux_canonical;
      [| pose proof (digits2_iter_xO p k); lia
       | unfold emin, prec, emax; lia].
    repeat split; try lia.
    + pose proof (digits2_iter_xO p k); lia.
    + rewrite Zpos_iter_xO. f_equal. f_equal. lia.
Qed.

Lemma div_eucl_pow2 (m : positive) :
  Z.div_eucl (Z.shiftl (Z.pos m) 53) 4503599627370496 = (Z.pos m~0, 0).
Proof.
  rewrite Z.shiftl_mul_pow2 by lia.
  pose proof (Z_div_mod (Z.pos m * 2 ^ 53) 4503599627370496 ltac:(lia)) as H.
  destruct (Z.div_eucl _ _) as [q r].
  change (2 ^ 53) with (2 * 4503599627370496) in H.
  assert (q = Z.pos m~0 /\ r = 0) as [-> ->] by nia. reflexivity.
Qed.

(** Dividing a 53-bit mantissa by [2^20] only moves the exponent. *)
Lemma div_MB_canonical (s : bool) (m : positive) (e : Z) :
  digits2_pos m = 53%positive -> -52 <= e <= 11 ->
  div (S754_finite s m e) MB = S754_finite s m (e - 20).
Proof.
  intros Hd He.
  change MB with (S754_finite false 4503599627370496 (-32)).
  unfold div, SFdiv, SFdiv_core_binary. cbn [Zdigits2]. rewrite Hd.
  change (digits2_pos 4503599627370496) with 53%positive.
  cbv zeta.
  replace (Z.min (fexp prec emax (53 + e - (53 + -32))) (e - -32))
    with (e - 21) by (unfold fexp, emin, prec, emax; lia).
  replace (e - -32 - (e - 21)) with 53 by lia.
  cbv iota beta. rewrite div_eucl_pow2.
  change (new_location 4503599627370496 0) with loc_Exact.
  rewrite xorb_false_r.
  unfold binary_round_aux.
  assert (H1 : shr_fexp prec emax (Z.pos m~0) (e - 21) loc_Exact
               = ({| shr_m := Z.pos m; shr_r := false; shr_s := false |},
                  e - 20)).
  { unfold shr_fexp, shr. cbn [Zdigits2 digits2_pos]. rewrite Hd.
    replace (fexp prec emax (Z.pos (Pos.succ 53) + (e - 21)) - (e - 21))
      with 1 by (unfold fexp, emin, prec, emax; lia).
    cbn. f_equal. lia. }
  rewrite H1. cbn [shr_m shr_r shr_s loc_of_shr_record round_nearest_even].
  assert (H2 : shr_fexp prec emax (Z.pos m) (e - 20) loc_Exact
               = ({| shr_m := Z.pos m; shr_r := false; shr_s := false |},
                  e - 20)).
  { unfold shr_fexp, shr. cbn [Zdigits2]. rewrite Hd.
    replace (fexp prec emax (53 + (e - 20)) - (e - 20)) with 0
      by (unfold fexp, emin, prec, emax; lia).
    reflexivity. }
  rewrite H2. cbn [shr_m].
  destruct (Z.leb_spec (e - 20) (emax - prec)); [reflexivity |].
  unfold emax, prec in *; lia.
Qed.

(** The quotient [float64(n) / (1024 * 1024)] is the rational
    [n / 1048576], with no rounding, for [0 <= n < 2^53]. *)
Lemma toMB_exact (n : Z) :
  0 <= n < 2 ^ 53 ->
  is_finite (div (of_int n) MB) = true /\
  Qeq (toQ (div (of_int n) MB)) (inject_Z n / inject_Z 1048576).
Proof.
  intros [H0 Hn]. destruct n as [| p | p]; [split; reflexivity | | lia].
  destruct (binary_round_small false p Hn) as (m & e & Hr & Hd & He & Hm).
  unfold of_int, binary_normalize. rewrite Hr.
  rewrite div_MB_canonical by (assumption || lia).
  split; [reflexivity |].
  cbn [toQ]. rewrite Hm, inject_Z_mult.
  rewrite (Zpower_Qpower 2 (- e)) by lia.
  replace (e - 20) with (e + -20) by lia.
  rewrite Qpower_plus by discriminate.
  change (inject_Z 2) with 2%Q.
  rewrite <- (Qmult_assoc (inject_Z (Z.pos p))).
  rewrite (Qmult_assoc (2 ^ (- e))%Q).
  rewrite <- Qpower_plus by discriminate.
  replace (- e + e) with 0 by lia.
  change (2 ^ 0)%Q with 1%Q. rewrite Qmult_1_l.
  reflexivity.
Qed.
End F64Facts.

(** ** The sign of [Duration.Seconds] *)

Module TimeFacts.
Import F64 F64Facts.

Lemma digits53_lower (m : positive) :
  digits2_pos m = 53%positive -> 2 ^ 52 <= Z.pos m.
Proof.
  intros Hd. rewrite digits2_size in Hd.
  pose proof (Pos.size_le m) as Hle. rewrite Hd in Hle.
  apply Pos2Z.pos_le_pos in Hle. rewrite Pos2Z.inj_pow in Hle.
  change (2 ^ 53) with (2 * 2 ^ 52) in Hle. lia.
Qed.

Lemma nonzero_false_gt0 (x : float64) :
  nonzero_sign false x -> gtb x zero = true.
Proof.
  destruct x as [s | s | | s m e]; cbn; try tauto; [| intros []];
    intros; subst; reflexivity.
Qed.

Lemma nonzero_true_not_gt0 (x : float64) :
  nonzero_sign true x -> gtb x zero = false.
Proof.
  destruct x as [s | s | | s m e]; cbn; try tauto; [| intros []];
    intros; subst; reflexivity.
Qed.

(** Dividing by [1e9] keeps a number of the size of a [Duration] away from
    zero. *)
Lemma div_1e9_nonzero (s : bool) (m : positive) (e : Z) :
  digits2_pos m = 53%positive -> -52 <= e <= 0 ->
  nonzero_sign s (div (S754_finite s m e) (of_int 1000000000)).
Proof.
  intros Hd He. pose proof (digits53_lower m Hd) as Hm.
  change (of_int 1000000000) with (S754_finite false 8388608000000000 (-23)).
  unfold div, SFdiv, SFdiv_core_binary. cbn [Zdigits2]. rewrite Hd.
  change (digits2_pos 8388608000000000) with 53%positive.
  cbv zeta.
  replace (Z.min (fexp prec emax (53 + e - (53 + -23))) (e - -23))
    with (e - 30) by (unfold fexp, emin, prec, emax; lia).
  replace (e - -23 - (e - 30)) with 53 by lia.
  cbv iota beta. rewrite Z.shiftl_mul_pow2 by lia.
  pose proof (Z_div_mod (Z.pos m * 2 ^ 53) 8388608000000000 ltac:(lia)) as H.
  destruct (Z.div_eucl _ _) as [q r].
  rewrite xorb_false_r.
  apply binary_round_aux_nonzero; [| unfold emin, prec, emax; lia].
  change (2 ^ 53) with 9007199254740992 in H.
  change (2 ^ 52) with 4503599627370496 in Hm. lia.
Qed.

Lemma add_nonzero (s : bool) (x y : float64) :
  x = S754_zero false \/ nonzero_sign s x ->
  y = S754_zero false \/ nonzero_sign s y ->
  nonzero_sign s x \/ nonzero_sign s y ->
  nonzero_sign s (add x y).
Proof.
  intros [-> | Hx] [-> | Hy] Hxy.
  - destruct Hxy as [[] | []].
  - destruct y; cbn in *; tauto.
  - destruct x; cbn in *; tauto.
  - clear Hxy.
    destruct x as [| sx | | sx mx ex], y as [| sy | | sy my ey];
      cbn in Hx, Hy; try contradiction.
    + subst. destruct s; cbn; reflexivity.
    + destruct Hy; subst. cbn. reflexivity.
    + destruct Hx; subst. cbn. reflexivity.
    + destruct Hx as [-> Hex], Hy as [-> Hey].
      unfold add, SFadd.
      destruct (shl_align mx ex (Z.min ex ey)) as [mx' ex'],
               (shl_align my ey (Z.min ex ey)) as [my' ey']; cbn [fst].
      destruct s; cbn [cond_Zopp Z.opp Z.add binary_normalize];
        apply binary_round_nonzero; lia.
Qed.

Lemma of_int_small_signed (n : Z) :
  - 2 ^ 53 < n < 2 ^ 53 -> n <> 0 ->
  exists m e, of_int n = S754_finite (n <? 0) m e /\
              digits2_pos m = 53%positive /\ -52 <= e <= 0.
Proof.
  intros Hn H0. destruct n as [| p | p]; [done | |].
  - destruct (binary_round_small false p) as (m & e & H & Hd & He & _);
      [lia |]. by exists m, e.
  - destruct (binary_round_small true p) as (m & e & H & Hd & He & _);
      [lia |]. by exists m, e.
Qed.

Lemma of_int_zero_or_nonzero (s : bool) (n : Z) :
  - 2 ^ 53 < n < 2 ^ 53 -> (if s then n <= 0 else 0 <= n) ->
  (n = 0 /\ of_int n = S754_zero false) \/
  (n <> 0 /\ exists m e, of_int n = S754_finite s m e /\
                        digits2_pos m = 53%positive /\ -52 <= e <= 0).
Proof.
  intros Hn Hs. destruct (decide (n = 0)) as [-> | H0]; [by left |].
  right. split; [done |].
  destruct (of_int_small_signed n Hn H0) as (m & e & H & Hd & He).
  exists m, e. split; [| by split].
  rewrite H. f_equal. destruct s; [apply Z.ltb_lt | apply Z.ltb_ge]; lia.
Qed.

(** The sign of [d.Seconds()] is the sign of [d]. *)
Lemma Seconds_sign (s : bool) (d : Z) :
  Int64.in_range d -> (if s then d < 0 else 0 < d) ->
  nonzero_sign s (time.Seconds d).
Proof.
  unfold Int64.in_range, Int64.min_int64, Int64.max_int64. intros Hr Hs.
  unfold time.Seconds. cbv zeta.
  pose proof (Z.quot_rem' d time.Second) as Hd.
  set (sec := Z.quot d time.Second) in *.
  set (nsec := Z.rem d time.Second) in *.
  assert (Hb : if s then -9223372037 < sec <= 0 /\ -1000000000 < nsec <= 0
               else 0 <= sec < 9223372037 /\ 0 <= nsec < 1000000000).
  { unfold time.Second in *. destruct s.
    - pose proof (Z.rem_bound_pos_neg d 1000000000 ltac:(lia) ltac:(lia)).
      fold nsec in H. lia.
    - pose proof (Z.rem_bound_pos_pos d 1000000000 ltac:(lia) ltac:(lia)).
      fold nsec in H. lia. }
  assert (Hne : sec <> 0 \/ nsec <> 0) by (destruct s; lia).
  destruct (of_int_zero_or_nonzero s sec) as [[Hs0 Hx] | [Hs0 Hx]];
    [destruct s; lia .. | |];
  destruct (of_int_zero_or_nonzero s nsec) as [[Hn0 Hy] | [Hn0 Hy]];
    try (destruct s; lia).
  - destruct Hy as (m & e & Hy & Hdig & He). rewrite Hx, Hy.
    apply add_nonzero; [by left | right | right];
      by apply div_1e9_nonzero.
  - destruct Hx as (m & e & Hx & Hdig & He). rewrite Hx, Hy.
    apply add_nonzero; [right | by left | left];
      cbn; (split; [done | unfold emin, prec, emax; lia]).
  - destruct Hx as (m & e & Hx & Hdig & He).
    destruct Hy as (m' & e' & Hy & Hdig' & He'). rewrite Hx, Hy.
    apply add_nonzero; [right | right | left];
      try (by apply div_1e9_nonzero);
      cbn; (split; [done | unfold emin, prec, emax; lia]).
Qed.

(** [timeDiff > 0] holds exactly when the later reading is the later
    one. *)
Lemma timeDiff_positive (t u : time.Time) :
  gtb (time.Seconds (time.Sub t u)) zero = bool_decide (u < t).
Proof.
  assert (Hr : Int64.in_range (time.Sub t u)).
  { unfold Int64.in_range, time.Sub, Int64.min_int64, Int64.max_int64. lia. }
  destruct (Z.lt_trichotomy (time.Sub t u) 0) as [Hlt | [Heq | Hgt]].
  - rewrite (nonzero_true_not_gt0 _ (Seconds_sign true _ Hr Hlt)).
    symmetry. apply bool_decide_eq_false_2. revert Hlt.
    unfold time.Sub, Int64.min_int64, Int64.max_int64. lia.
  - rewrite Heq. symmetry. apply bool_decide_eq_false_2. revert Heq.
    unfold time.Sub, Int64.min_int64, Int64.max_int64. lia.
  - rewrite (nonzero_false_gt0 _ (Seconds_sign false _ Hr Hgt)).
    symmetry. apply bool_decide_eq_true_2. revert Hgt.
    unfold time.Sub, Int64.min_int64, Int64.max_int64. lia.
Qed.
End TimeFacts.

(** ** The loop over the peers of the snapshot *)

Section Cycle.
Variable tsClient : tailscale.Client.
Variable now : time.Time.

Lemma peerStep_eq (n : nat) (peer : tailscale.PeerInfo) (c : Cycle) :
  let k := tailscale.PublicKey peer in
  peerStep tsClient now n peer c =
  {| lastReadings := <[k := currentReading tsClient now n k]> (lastReadings c);
     peerBandwidths :=
       peerBandwidths c
         ++ emitted k (currentReading tsClient now n k) (lastReadings c !! k);
     effects := effects c ++ [CmdPeerTraffic k] |}.
Proof.
  cbv zeta. unfold peerStep, currentReading, emitted.
  destruct (tailscale.GetPeerTraffic tsClient n (tailscale.PublicKey peer))
    as [rx tx]; cbn [fst snd].
  destruct (lastReadings c !! tailscale.PublicKey peer) as [last |];
    [| reflexivity].
  cbn [LastChecked]. rewrite TimeFacts.timeDiff_positive.
  case_bool_decide; [reflexivity | by rewrite app_nil_r].
Qed.

Lemma peerLoop_app (n : nat) (l1 l2 : list tailscale.PeerInfo) (c : Cycle) :
  peerLoop tsClient now n (l1 ++ l2) c =
  peerLoop tsClient now (n + length l1) l2 (peerLoop tsClient now n l1 c).
Proof.
  revert n c. induction l1 as [| p l1 IH]; intros n c; cbn.
  - by rewrite Nat.add_0_r.
  - rewrite IH. f_equal. lia.
Qed.

Lemma reportsFor_app k l1 l2 :
  reportsFor k (l1 ++ l2) = reportsFor k l1 ++ reportsFor k l2.
Proof. apply filter_app. Qed.

Lemma reportsFor_emitted_ne k k' current prior :
  k <> k' -> reportsFor k (emitted k' current prior) = [].
Proof.
  intros Hne. unfold emitted, reportsFor.
  destruct prior as [last |]; [case_bool_decide |]; try reflexivity;
    rewrite filter_cons_False; cbn; congruence.
Qed.

Lemma reportsFor_emitted_eq k current prior :
  reportsFor k (emitted k current prior) = emitted k current prior.
Proof.
  unfold emitted, reportsFor.
  destruct prior as [last |]; [case_bool_decide |]; try reflexivity;
    by rewrite filter_cons_True.
Qed.

(** A key that the peers gone through do not have is left alone. *)
Lemma peerLoop_untouched (k : string) (l : list tailscale.PeerInfo) n c :
  k ∉ keysOf l ->
  lastReadings (peerLoop tsClient now n l c) !! k = lastReadings c !! k /\
  reportsFor k (peerBandwidths (peerLoop tsClient now n l c))
    = reportsFor k (peerBandwidths c).
Proof.
  revert n c. induction l as [| p l IH]; intros n c Hk; [done |].
  cbn [peerLoop]. apply not_elem_of_cons in Hk as [Hne Hk].
  destruct (IH (S n) (peerStep tsClient now n p c) Hk) as [-> ->].
  rewrite peerStep_eq; cbn [lastReadings peerBandwidths].
  rewrite lookup_insert_ne by done.
  by rewrite reportsFor_app, reportsFor_emitted_ne, app_nil_r.
Qed.

(** A key already read in this cycle gets no further report. *)
Lemma peerLoop_seen (k : string) (l : list tailscale.PeerInfo) n c last :
  lastReadings c !! k = Some last -> LastChecked last = now ->
  reportsFor k (peerBandwidths (peerLoop tsClient now n l c))
    = reportsFor k (peerBandwidths c).
Proof.
  revert n c last. induction l as [| p l IH]; intros n c last Hl Ht; [done |].
  cbn [peerLoop]. rewrite peerStep_eq.
  destruct (decide (tailscale.PublicKey p = k)) as [<- | Hne].
  - rewrite (IH (S n) _ (currentReading tsClient now n (tailscale.PublicKey p)));
      cbn [lastReadings peerBandwidths];
      [| by rewrite lookup_insert_eq | done].
    rewrite reportsFor_app, Hl. unfold emitted. cbn [currentReading LastChecked].
    rewrite Ht, bool_decide_eq_false_2 by lia. by rewrite app_nil_r.
  - rewrite (IH (S n) _ last); cbn [lastReadings peerBandwidths];
      [| by rewrite lookup_insert_ne | done].
    by rewrite reportsFor_app, reportsFor_emitted_ne, app_nil_r.
Qed.

Lemma firstOf_split peers i k :
  firstOf peers i k ->
  exists l1 p l2, peers = l1 ++ p :: l2 /\ length l1 = i /\
                  tailscale.PublicKey p = k /\ k ∉ keysOf l1.
Proof.
  intros [Hi Hbefore]. unfold keysOf in *.
  apply list_lookup_fmap_Some in Hi as (p & -> & Hp).
  exists (take i peers), p, (drop (S i) peers).
  pose proof (lookup_lt_Some _ _ _ Hp) as Hlt.
  repeat split.
  - by rewrite take_drop_middle.
  - rewrite length_take. lia.
  - intros Hin. apply list_elem_of_lookup in Hin as [j Hj].
    pose proof (lookup_lt_Some _ _ _ Hj) as Hjlt.
    rewrite length_fmap, length_take in Hjlt.
    apply (Hbefore j); [lia |].
    rewrite list_lookup_fmap in Hj |- *.
    by rewrite lookup_take_lt in Hj by lia.
Qed.

Lemma lastOf_split peers i k :
  lastOf peers i k ->
  exists l1 p l2, peers = l1 ++ p :: l2 /\ length l1 = i /\
                  tailscale.PublicKey p = k /\ k ∉ keysOf l2.
Proof.
  intros [Hi Hafter]. unfold keysOf in *.
  apply list_lookup_fmap_Some in Hi as (p & -> & Hp).
  exists (take i peers), p, (drop (S i) peers).
  pose proof (lookup_lt_Some _ _ _ Hp) as Hlt.
  repeat split.
  - by rewrite take_drop_middle.
  - rewrite length_take. lia.
  - intros Hin. apply list_elem_of_lookup in Hin as [j Hj].
    apply (Hafter (S i + j)%nat); [lia |].
    rewrite list_lookup_fmap in Hj |- *.
    by rewrite lookup_drop in Hj.
Qed.

(** The reports of a key are those of its first occurrence in the
    snapshot. *)
Lemma peerLoop_first (k : string) (peers : list tailscale.PeerInfo) i n c :
  firstOf peers i k ->
  reportsFor k (peerBandwidths (peerLoop tsClient now n peers c))
    = reportsFor k (peerBandwidths c)
        ++ emitted k (currentReading tsClient now (n + i) k)
             (lastReadings c !! k).
Proof.
  intros (l1 & p & l2 & -> & <- & <- & Hk)%firstOf_split.
  rewrite peerLoop_app. cbn [peerLoop].
  destruct (peerLoop_untouched _ l1 n c Hk) as [Hr Hb].
  rewrite peerStep_eq.
  rewrite (peerLoop_seen _ l2 _ _
             (currentReading tsClient now (n + length l1) (tailscale.PublicKey p)));
    cbn [lastReadings peerBandwidths];
    [| by rewrite lookup_insert_eq | done].
  by rewrite reportsFor_app, reportsFor_emitted_eq, Hr, Hb.
Qed.

(** The cached reading of a key is that of its last occurrence. *)
Lemma peerLoop_last (k : string) (peers : list tailscale.PeerInfo) i n c :
  lastOf peers i k ->
  lastReadings (peerLoop tsClient now n peers c) !! k
    = Some (currentReading tsClient now (n + i) k).
Proof.
  intros (l1 & p & l2 & -> & <- & <- & Hk)%lastOf_split.
  rewrite peerLoop_app. cbn [peerLoop].
  destruct (peerLoop_untouched _ l2 (S (n + length l1))
              (peerStep tsClient now (n + length l1) p
                 (peerLoop tsClient now n l1 c)) Hk) as [-> _].
  rewrite peerStep_eq; cbn [lastReadings]. by rewrite lookup_insert_eq.
Qed.

Lemma peerLoop_effects (peers : list tailscale.PeerInfo) n c :
  effects (peerLoop tsClient now n peers c)
    = effects c ++ (CmdPeerTraffic <$> keysOf peers).
Proof.
  revert n c. induction peers as [| p l IH]; intros n c; cbn.
  - by rewrite app_nil_r.
  - rewrite IH, peerStep_eq; cbn [effects]. by rewrite <- app_assoc.
Qed.

(** A property of reports that each iteration keeps. *)
Lemma peerLoop_Forall (P : PeerBandwidth -> Prop)
    (peers : list tailscale.PeerInfo) n c :
  (forall i p, peers !! i = Some p ->
     let k := tailscale.PublicKey p in
     P (zeroReport k) /\
     forall last, P (deltaReport k (currentReading tsClient now (n + i) k) last)) ->
  Forall P (peerBandwidths c) ->
  Forall P (peerBandwidths (peerLoop tsClient now n peers c)).
Proof.
  revert n c. induction peers as [| p l IH]; intros n c HP Hc; [done |].
  cbn [peerLoop]. apply IH.
  - intros i q Hq. replace (S n + i)%nat with (n + S i)%nat by lia.
    by apply HP.
  - rewrite peerStep_eq; cbn [peerBandwidths].
    apply Forall_app; split; [done |].
    destruct (HP 0%nat p eq_refl) as [Hz Hd]. rewrite Nat.add_0_r in Hd.
    unfold emitted. destruct (lastReadings c !! _) as [last |].
    + case_bool_decide; [by repeat constructor | constructor].
    + by repeat constructor.
Qed.
End Cycle.

(** ** Occurrences of a key in the snapshot, and the clean-up *)

Lemma firstOf_exists (peers : list tailscale.PeerInfo) (k : string) :
  k ∈ keysOf peers -> exists i, firstOf peers i k.
Proof.
  induction peers as [| p l IH]; intros Hk; [by apply elem_of_nil in Hk |].
  destruct (decide (tailscale.PublicKey p = k)) as [<- | Hne].
  - exists 0%nat. split; [done | lia].
  - apply elem_of_cons in Hk as [-> | Hk]; [done |].
    destruct (IH Hk) as [i [Hi Hb]]. exists (S i). split; [done |].
    intros [| j] Hj; cbn; [congruence | apply Hb; lia].
Qed.

Lemma lastOf_exists (peers : list tailscale.PeerInfo) (k : string) :
  k ∈ keysOf peers -> exists i, lastOf peers i k.
Proof.
  induction peers as [| p l IH]; intros Hk; [by apply elem_of_nil in Hk |].
  destruct (decide (k ∈ keysOf l)) as [Hin | Hnin].
  - destruct (IH Hin) as [i [Hi Ha]]. exists (S i). split; [done |].
    intros [| j] Hj; [lia |]. cbn. apply Ha. lia.
  - apply elem_of_cons in Hk as [-> | Hk]; [| done].
    exists 0%nat. split; [done |].
    intros [| j] Hj; [lia |]. cbn. intros Hj'.
    apply Hnin, list_elem_of_lookup. eauto.
Qed.

Lemma firstOf_elem peers i k : firstOf peers i k -> k ∈ keysOf peers.
Proof. intros [Hi _]. apply list_elem_of_lookup. eauto. Qed.

Lemma lastOf_elem peers i k : lastOf peers i k -> k ∈ keysOf peers.
Proof. intros [Hi _]. apply list_elem_of_lookup. eauto. Qed.

Lemma elem_of_currentPeerKeys peers k :
  k ∈ currentPeerKeys peers <-> k ∈ keysOf peers.
Proof. unfold currentPeerKeys, keysOf. apply elem_of_list_to_set. Qed.

Lemma cleanUp_lookup_in keys (m : gmap string PeerReading) k :
  k ∈ keys -> cleanUp keys m !! k = m !! k.
Proof.
  intros Hk. unfold cleanUp. destruct (m !! k) as [x |] eqn:Hm.
  - by apply map_lookup_filter_Some.
  - apply map_lookup_filter_None. by left.
Qed.

Lemma cleanUp_lookup_out keys (m : gmap string PeerReading) k :
  k ∉ keys -> cleanUp keys m !! k = None.
Proof.
  intros Hk. unfold cleanUp. apply map_lookup_filter_None. right.
  intros x _. done.
Qed.

Lemma reportsFor_elem k bandwidths r :
  r ∈ reportsFor k bandwidths <-> r ∈ bandwidths /\ PublicKey r = k.
Proof. unfold reportsFor. rewrite list_elem_of_filter. tauto. Qed.

(** What one successful cycle does, key by key. *)
Lemma calculatePeerBandwidth_spec tsClient now readings status :
  tailscale.Client_Status tsClient = Ok status ->
  let peers := tailscale.Peers status in
  exists readings' bandwidths effs,
    calculatePeerBandwidth tsClient now readings
      = (readings', Ok bandwidths, effs) /\
    (forall i k, firstOf peers i k ->
       reportsFor k bandwidths
         = emitted k (currentReading tsClient now i k) (readings !! k)) /\
    (forall i k, lastOf peers i k ->
       readings' !! k = Some (currentReading tsClient now i k)) /\
    (forall k, k ∉ keysOf peers ->
       readings' !! k = None /\ reportsFor k bandwidths = []) /\
    effs = CmdStatus :: (CmdPeerTraffic <$> keysOf peers).
Proof.
  intros Hs peers. unfold calculatePeerBandwidth. rewrite Hs. fold peers.
  set (c0 := {| lastReadings := readings; peerBandwidths := [];
                effects := [CmdStatus] |}).
  eexists _, _, _. split; [reflexivity |]. repeat split.
  - intros i k Hf. by rewrite (peerLoop_first _ _ _ _ i 0%nat c0 Hf).
  - intros i k Hl. rewrite cleanUp_lookup_in
      by (apply elem_of_currentPeerKeys; eapply lastOf_elem; eauto).
    by rewrite (peerLoop_last _ _ _ _ i 0%nat c0 Hl).
  - apply cleanUp_lookup_out. by rewrite elem_of_currentPeerKeys.
  - by destruct (peerLoop_untouched tsClient now k peers 0%nat c0 H) as [_ ->].
  - by rewrite peerLoop_effects.
Qed.

(** ** The traffic query and the snapshot *)

Lemma peerInfo_PublicKey peer k :
  tailscale.PublicKey (tailscale.peerInfo peer) = k -> k <> "" ->
  json.asString (json.index peer "PublicKey") = Some k.
Proof.
  cbn. destruct (json.asString (json.index peer "PublicKey")) as [s |]; cbn;
    congruence.
Qed.

Lemma findTraffic_first members i k p :
  let peers :=
    omap (fun peerData => tailscale.peerInfo <$> json.asObject peerData.2)
         members in
  firstOf peers i k -> peers !! i = Some p -> k <> "" ->
  tailscale.findTraffic members k
    = Some (tailscale.RxBytes p, tailscale.TxBytes p).
Proof.
  cbv zeta. revert i.
  induction members as [| [name peerData] rest IH]; intros i [Hi Hb] Hp Hk;
    [done |].
  cbn [omap list_omap tailscale.findTraffic snd] in *.
  destruct (json.asObject peerData) as [peer |]; cbn [fmap option_fmap option_map] in *;
    [| by apply (IH i)].
  destruct i as [| i].
  - injection Hp as <-.
    assert (Hpk : tailscale.PublicKey (tailscale.peerInfo peer) = k)
      by (by injection Hi).
    rewrite (peerInfo_PublicKey peer k Hpk Hk), String.eqb_refl. reflexivity.
  - assert (Hne : tailscale.PublicKey (tailscale.peerInfo peer) <> k).
    { intros Heq. apply (Hb 0%nat); [lia |].
      change (Some (tailscale.PublicKey (tailscale.peerInfo peer)) = Some k).
      by rewrite Heq. }
    assert (Hrest : tailscale.findTraffic rest k
                    = Some (tailscale.RxBytes p, tailscale.TxBytes p)).
    { apply (IH i); [| done | done]. split; [done |].
      intros j Hj. apply (Hb (S j)). lia. }
    cbn in Hne.
    destruct (json.asString (json.index peer "PublicKey")) as [pubKey |];
      [| done].
    cbn in Hne. destruct (String.eqb_spec pubKey k); [done | done].
Qed.

(** When the run of the command made for the traffic of a peer gives what
    the run made for the snapshot gave, the counters read for the first peer
    with a (non-empty) key are the counters of that peer in the snapshot. *)
Lemma GetPeerTraffic_of_snapshot tsClient n rawStatus status i k p :
  tailscale.StatusOutput tsClient = tailscale.Parsed rawStatus ->
  tailscale.TrafficOutput tsClient n = tailscale.Parsed rawStatus ->
  tailscale.Client_Status tsClient = Ok status ->
  firstOf (tailscale.Peers status) i k ->
  tailscale.Peers status !! i = Some p -> k <> "" ->
  tailscale.GetPeerTraffic tsClient n k
    = (tailscale.RxBytes p, tailscale.TxBytes p).
Proof.
  intros Hso Hto Hs Hf Hp Hk.
  unfold tailscale.Client_Status in Hs. rewrite Hso in Hs.
  injection Hs as <-. cbn [tailscale.Peers] in *.
  unfold tailscale.GetPeerTraffic. rewrite Hto.
  destruct (json.asObject (json.index rawStatus "Peer")) as [members |];
    [| done].
  by rewrite (findTraffic_first members i k p Hf Hp Hk).
Qed.

(** ** The accounting cycle: deltas, resets, baselines *)

Lemma Int64_sub_exact (x y : Z) :
  Int64.min_int64 <= x - y <= Int64.max_int64 -> Int64.sub x y = x - y.
Proof.
  unfold Int64.sub, Int64.wrap, Int64.min_int64, Int64.max_int64. intros H.
  rewrite Z.mod_small; lia.
Qed.

(** The counter did not go back: the difference is kept. *)
Lemma diff_kept (current prior : Z) :
  0 <= current - prior <= Int64.max_int64 ->
  (let d := F64.of_int (Int64.sub current prior) in
   if F64.ltb d F64.zero then F64.of_int current else d)
  = F64.of_int (current - prior).
Proof.
  intros H. cbv zeta.
  rewrite Int64_sub_exact
    by (revert H; unfold Int64.min_int64, Int64.max_int64; lia).
  by rewrite F64Facts.of_int_not_lt0 by lia.
Qed.

(** The counter went back: the current value is taken. *)
Lemma diff_reset (current prior : Z) :
  Int64.min_int64 <= current - prior < 0 ->
  (let d := F64.of_int (Int64.sub current prior) in
   if F64.ltb d F64.zero then F64.of_int current else d)
  = F64.of_int current.
Proof.
  intros H. cbv zeta.
  rewrite Int64_sub_exact
    by (revert H; unfold Int64.min_int64, Int64.max_int64; lia).
  by rewrite F64Facts.of_int_lt0 by lia.
Qed.

Lemma currentReading_eq tsClient now i k rx tx :
  tailscale.GetPeerTraffic tsClient i k = (rx, tx) ->
  currentReading tsClient now i k
  = {| BytesReceived := rx; BytesTransmitted := tx; LastChecked := now |}.
Proof. intros H. unfold currentReading. by rewrite H. Qed.

(** The reports of a peer with a cached reading. *)
Lemma cached_peer_reports tsClient now readings status i k prior rx tx :
  tailscale.Client_Status tsClient = Ok status ->
  firstOf (tailscale.Peers status) i k ->
  readings !! k = Some prior ->
  tailscale.GetPeerTraffic tsClient i k = (rx, tx) ->
  exists readings' bandwidths effs,
    calculatePeerBandwidth tsClient now readings
      = (readings', Ok bandwidths, effs) /\
    reportsFor k bandwidths
      = if bool_decide (LastChecked prior < now)
        then [deltaReport k
                {| BytesReceived := rx; BytesTransmitted := tx;
                   LastChecked := now |} prior]
        else [].
Proof.
  intros Hs Hf Hp Ht.
  destruct (calculatePeerBandwidth_spec tsClient now readings status Hs)
    as (readings' & bandwidths & effs & Hc & Hfirst & _).
  exists readings', bandwidths, effs. split; [done |].
  rewrite (Hfirst i k Hf), Hp, (currentReading_eq _ _ _ _ _ _ Ht). done.
Qed.

(** C1. For a peer of the snapshot with a cached prior reading whose
    counters did not go back ([prior.rx <= current.rx] and
    [prior.tx <= current.tx], the differences fitting an [int64], as they do
    for byte counts, which are not negative), every report the cycle emits
    for that peer has [bytesIn] equal to
    [float64(current.rx - prior.rx) / (1024 * 1024)] and [bytesOut] equal to
    [float64(current.tx - prior.tx) / (1024 * 1024)]; below [2^53] bytes
    these are the rationals [(current - prior) / 1048576] with no rounding
    at all. Such a report is emitted whenever the clock has advanced since
    the cached reading. *)
Theorem C1_delta_in_megabytes
    tsClient now readings status i k prior rx tx :
  tailscale.Client_Status tsClient = Ok status ->
  firstOf (tailscale.Peers status) i k ->
  readings !! k = Some prior ->
  tailscale.GetPeerTraffic tsClient i k = (rx, tx) ->
  BytesReceived prior <= rx ->
  rx - BytesReceived prior <= Int64.max_int64 ->
  BytesTransmitted prior <= tx ->
  tx - BytesTransmitted prior <= Int64.max_int64 ->
  exists readings' bandwidths effs,
    calculatePeerBandwidth tsClient now readings
      = (readings', Ok bandwidths, effs) /\
    (forall r, r ∈ bandwidths -> PublicKey r = k ->
       BytesIn r = toMB (rx - BytesReceived prior) /\
       BytesOut r = toMB (tx - BytesTransmitted prior) /\
       (rx - BytesReceived prior < 2 ^ 53 ->
        F64.is_finite (BytesIn r) = true /\
        Qeq (F64.toQ (BytesIn r))
            (inject_Z (rx - BytesReceived prior) / inject_Z 1048576)) /\
       (tx - BytesTransmitted prior < 2 ^ 53 ->
        F64.is_finite (BytesOut r) = true /\
        Qeq (F64.toQ (BytesOut r))
            (inject_Z (tx - BytesTransmitted prior) / inject_Z 1048576))) /\
    (LastChecked prior < now ->
     exists r, r ∈ bandwidths /\ PublicKey r = k).
Proof.
  intros Hs Hf Hp Ht Hrx Hrmax Htx Htmax.
  destruct (cached_peer_reports tsClient now readings status i k prior rx tx
              Hs Hf Hp Ht) as (readings' & bandwidths & effs & Hc & Hr).
  exists readings', bandwidths, effs. split; [done |]. split.
  - intros r Hin Hk.
    assert (Hin' : r ∈ reportsFor k bandwidths) by by apply reportsFor_elem.
    rewrite Hr in Hin'. case_bool_decide; [| by apply elem_of_nil in Hin'].
    apply list_elem_of_singleton in Hin' as ->.
    assert (HIn : BytesIn (deltaReport k
                    {| BytesReceived := rx; BytesTransmitted := tx;
                       LastChecked := now |} prior)
                  = toMB (rx - BytesReceived prior)).
    { unfold deltaReport, toMB. cbn [BytesIn BytesReceived].
      by rewrite diff_kept by lia. }
    assert (HOut : BytesOut (deltaReport k
                    {| BytesReceived := rx; BytesTransmitted := tx;
                       LastChecked := now |} prior)
                  = toMB (tx - BytesTransmitted prior)).
    { unfold deltaReport, toMB. cbn [BytesOut BytesTransmitted].
      by rewrite diff_kept by lia. }
    rewrite HIn, HOut. repeat split; try done.
    + apply F64Facts.toMB_exact. lia.
    + apply F64Facts.toMB_exact. lia.
    + apply F64Facts.toMB_exact. lia.
    + apply F64Facts.toMB_exact. lia.
  - intros Hlt. rewrite bool_decide_eq_true_2 in Hr by done.
    eexists. apply reportsFor_elem. rewrite Hr. apply list_elem_of_singleton.
    reflexivity.
Qed.

(** C2. For a peer of the snapshot with a cached prior reading (the
    [int64] differences of the counters not overflowing, as they do not for
    byte counts, which are not negative): a counter that is strictly below
    its cached value is reported as its current absolute value in megabytes,
    [float64(current) / 1048576], not as a difference; a counter that is
    not below its cached value is reported as the difference in megabytes,
    whatever the other counter does. Below [2^53] bytes the value reported
    is the rational [current / 1048576], respectively
    [(current - prior) / 1048576], with no rounding at all. *)
Theorem C2_reset_reports_current_value
    tsClient now readings status i k prior rx tx :
  tailscale.Client_Status tsClient = Ok status ->
  firstOf (tailscale.Peers status) i k ->
  readings !! k = Some prior ->
  tailscale.GetPeerTraffic tsClient i k = (rx, tx) ->
  Int64.in_range (rx - BytesReceived prior) ->
  Int64.in_range (tx - BytesTransmitted prior) ->
  exists readings' bandwidths effs,
    calculatePeerBandwidth tsClient now readings
      = (readings', Ok bandwidths, effs) /\
    (forall r, r ∈ bandwidths -> PublicKey r = k ->
       (rx < BytesReceived prior ->
        BytesIn r = F64.div (F64.of_int rx) (F64.of_int 1048576) /\
        (0 <= rx < 2 ^ 53 ->
         F64.is_finite (BytesIn r) = true /\
         Qeq (F64.toQ (BytesIn r)) (inject_Z rx / inject_Z 1048576))) /\
       (BytesReceived prior <= rx ->
        BytesIn r
        = F64.div (F64.of_int (rx - BytesReceived prior))
            (F64.of_int 1048576) /\
        (0 <= rx - BytesReceived prior < 2 ^ 53 ->
         F64.is_finite (BytesIn r) = true /\
         Qeq (F64.toQ (BytesIn r))
             (inject_Z (rx - BytesReceived prior) / inject_Z 1048576))) /\
       (tx < BytesTransmitted prior ->
        BytesOut r = F64.div (F64.of_int tx) (F64.of_int 1048576) /\
        (0 <= tx < 2 ^ 53 ->
         F64.is_finite (BytesOut r) = true /\
         Qeq (F64.toQ (BytesOut r)) (inject_Z tx / inject_Z 1048576))) /\
       (BytesTransmitted prior <= tx ->
        BytesOut r
        = F64.div (F64.of_int (tx - BytesTransmitted prior))
            (F64.of_int 1048576) /\
        (0 <= tx - BytesTransmitted prior < 2 ^ 53 ->
         F64.is_finite (BytesOut r) = true /\
         Qeq (F64.toQ (BytesOut r))
             (inject_Z (tx - BytesTransmitted prior) / inject_Z 1048576)))) /\
    (LastChecked prior < now ->
     exists r, r ∈ bandwidths /\ PublicKey r = k).
Proof.
  intros Hs Hf Hp Ht [Hrmin Hrmax] [Htmin Htmax].
  destruct (cached_peer_reports tsClient now readings status i k prior rx tx
              Hs Hf Hp Ht) as (readings' & bandwidths & effs & Hc & Hr).
  exists readings', bandwidths, effs. split; [done |]. split.
  - intros r Hin Hk.
    assert (Hin' : r ∈ reportsFor k bandwidths) by by apply reportsFor_elem.
    rewrite Hr in Hin'. case_bool_decide; [| by apply elem_of_nil in Hin'].
    apply list_elem_of_singleton in Hin' as ->.
    unfold deltaReport.
    cbn [BytesIn BytesOut BytesReceived BytesTransmitted].
    split; [| split; [| split]]; intros Hcmp.
    + rewrite diff_reset by lia.
      split; [reflexivity | apply F64Facts.toMB_exact].
    + rewrite diff_kept by lia.
      split; [reflexivity | apply F64Facts.toMB_exact].
    + rewrite diff_reset by lia.
      split; [reflexivity | apply F64Facts.toMB_exact].
    + rewrite diff_kept by lia.
      split; [reflexivity | apply F64Facts.toMB_exact].
  - intros Hlt. rewrite bool_decide_eq_true_2 in Hr by done.
    eexists. apply reportsFor_elem. rewrite Hr. apply list_elem_of_singleton.
    reflexivity.
Qed.

(** C3. A peer of the snapshot with no cached reading gets exactly one
    report, with [bytesIn = 0] and [bytesOut = 0], and after the cycle the
    cache holds, under its public key, the counters read for it in this
    cycle and the time of the cycle. *)
Theorem C3_first_seen_baseline
    tsClient now readings status i j k rx tx :
  tailscale.Client_Status tsClient = Ok status ->
  firstOf (tailscale.Peers status) i k ->
  lastOf (tailscale.Peers status) j k ->
  readings !! k = None ->
  tailscale.GetPeerTraffic tsClient j k = (rx, tx) ->
  exists readings' bandwidths effs,
    calculatePeerBandwidth tsClient now readings
      = (readings', Ok bandwidths, effs) /\
    reportsFor k bandwidths
      = [{| PublicKey := k; BytesIn := F64.zero; BytesOut := F64.zero |}] /\
    readings' !! k
      = Some {| BytesReceived := rx; BytesTransmitted := tx;
                LastChecked := now |}.
Proof.
  intros Hs Hf Hl Hp Ht.
  destruct (calculatePeerBandwidth_spec tsClient now readings status Hs)
    as (readings' & bandwidths & effs & Hc & Hfirst & Hlast & _).
  exists readings', bandwidths, effs. split; [done |]. split.
  - by rewrite (Hfirst i k Hf), Hp.
  - by rewrite (Hlast j k Hl), (currentReading_eq _ _ _ _ _ _ Ht).
Qed.

(** C10. For a peer of the snapshot with a cached reading, a report is
    emitted exactly when the time of the cycle is strictly after the time of
    the cached reading; when it is not, no report is emitted for the peer.
    In both cases the cache entry is overwritten with the counters and the
    time of this cycle. *)
Theorem C10_report_needs_time_to_advance
    tsClient now readings status i j k prior rx tx :
  tailscale.Client_Status tsClient = Ok status ->
  firstOf (tailscale.Peers status) i k ->
  lastOf (tailscale.Peers status) j k ->
  readings !! k = Some prior ->
  tailscale.GetPeerTraffic tsClient j k = (rx, tx) ->
  exists readings' bandwidths effs,
    calculatePeerBandwidth tsClient now readings
      = (readings', Ok bandwidths, effs) /\
    (LastChecked prior < now ->
     exists r, reportsFor k bandwidths = [r]) /\
    (now <= LastChecked prior -> reportsFor k bandwidths = []) /\
    readings' !! k
      = Some {| BytesReceived := rx; BytesTransmitted := tx;
                LastChecked := now |}.
Proof.
  intros Hs Hf Hl Hp Ht.
  destruct (calculatePeerBandwidth_spec tsClient now readings status Hs)
    as (readings' & bandwidths & effs & Hc & Hfirst & Hlast & _).
  exists readings', bandwidths, effs. split; [done |].
  rewrite (Hfirst i k Hf), Hp, (Hlast j k Hl),
    (currentReading_eq _ _ _ _ _ _ Ht).
  unfold emitted; cbn [LastChecked currentReading].
  repeat split.
  - intros Hlt. rewrite bool_decide_eq_true_2 by done. eauto.
  - intros Hge. by rewrite bool_decide_eq_false_2 by lia.
Qed.

(** ** The accounting cycle: cache keys, signs, failure *)

(** C4. After a successful cycle the keys of the reading cache are exactly
    the public keys of the snapshot of that cycle: every peer of the snapshot
    has an entry, every other key has none, whatever the cache held before.
    No report is about a peer outside the snapshot, and a peer that was
    absent is, in whatever later cycle sees it again first, reported as
    first seen (one report, zero deltas). *)
Theorem C4_cache_keys_are_snapshot_keys tsClient now readings status :
  tailscale.Client_Status tsClient = Ok status ->
  exists readings' bandwidths effs,
    calculatePeerBandwidth tsClient now readings
      = (readings', Ok bandwidths, effs) /\
    dom readings' = currentPeerKeys (tailscale.Peers status) /\
    (forall k, k ∈ keysOf (tailscale.Peers status) <-> is_Some (readings' !! k)) /\
    (forall r, r ∈ bandwidths -> PublicKey r ∈ keysOf (tailscale.Peers status)) /\
    (forall k tsClient2 now2 status2,
       k ∉ keysOf (tailscale.Peers status) ->
       tailscale.Client_Status tsClient2 = Ok status2 ->
       k ∈ keysOf (tailscale.Peers status2) ->
       exists readings2 bandwidths2 effs2,
         calculatePeerBandwidth tsClient2 now2 readings'
           = (readings2, Ok bandwidths2, effs2) /\
         reportsFor k bandwidths2
           = [{| PublicKey := k; BytesIn := F64.zero; BytesOut := F64.zero |}]).
Proof.
  intros Hs.
  destruct (calculatePeerBandwidth_spec tsClient now readings status Hs)
    as (readings' & bandwidths & effs & Hc & Hfirst & Hlast & Hout & _).
  exists readings', bandwidths, effs. split; [done |].
  assert (Hkeys : forall k, k ∈ keysOf (tailscale.Peers status)
                            <-> is_Some (readings' !! k)).
  { intros k. split.
    - intros [j Hj]%lastOf_exists. rewrite (Hlast j k Hj). eauto.
    - intros [x Hx].
      destruct (decide (k ∈ keysOf (tailscale.Peers status))) as [| Hn];
        [done |].
      destruct (Hout k Hn) as [Hnone _]. congruence. }
  repeat split.
  - apply set_eq. intros k.
    rewrite elem_of_dom, elem_of_currentPeerKeys. symmetry. apply Hkeys.
  - apply Hkeys.
  - apply Hkeys.
  - intros r Hr.
    destruct (decide (PublicKey r ∈ keysOf (tailscale.Peers status)))
      as [| Hn]; [done |].
    destruct (Hout _ Hn) as [_ Hnil].
    assert (Hin : r ∈ reportsFor (PublicKey r) bandwidths)
      by by apply reportsFor_elem.
    rewrite Hnil in Hin. by apply elem_of_nil in Hin.
  - intros k tsClient2 now2 status2 Hn Hs2 [i Hi]%firstOf_exists.
    destruct (calculatePeerBandwidth_spec tsClient2 now2 readings' status2 Hs2)
      as (readings2 & bandwidths2 & effs2 & Hc2 & Hfirst2 & _).
    exists readings2, bandwidths2, effs2. split; [done |].
    destruct (Hout k Hn) as [Hnone _].
    by rewrite (Hfirst2 i k Hi), Hnone.
Qed.

Lemma deltaReport_nonneg k current last :
  0 <= BytesReceived current -> 0 <= BytesTransmitted current ->
  F64.leb F64.zero (BytesIn (deltaReport k current last)) = true /\
  F64.leb F64.zero (BytesOut (deltaReport k current last)) = true.
Proof.
  intros Hrx Htx.
  assert (H : forall cur prev, 0 <= cur ->
            F64.has_sign false
              (let d := F64.of_int (Int64.sub cur prev) in
               if F64.ltb d F64.zero then F64.of_int cur else d)).
  { intros cur prev Hcur. cbv zeta.
    destruct (F64.ltb (F64.of_int (Int64.sub cur prev)) F64.zero) eqn:Hlt.
    - by apply F64Facts.of_int_has_sign.
    - apply F64Facts.of_int_has_sign.
      destruct (Z_lt_ge_dec (Int64.sub cur prev) 0) as [Hneg |]; [| lia].
      rewrite (F64Facts.of_int_lt0 _ Hneg) in Hlt. discriminate. }
  unfold deltaReport; cbn [BytesIn BytesOut].
  split; apply F64Facts.has_sign_false_leb, F64Facts.div_MB_has_sign, H; done.
Qed.

(** C5. When every counter read in a cycle is non-negative, no report of that
    cycle has a negative [bytesIn] or [bytesOut]: for every report, [0 <=
    bytesIn] and [0 <= bytesOut] hold as [float64] comparisons (so neither is
    NaN), whatever the cache held. *)
Theorem C5_no_negative_delta tsClient now readings status :
  tailscale.Client_Status tsClient = Ok status ->
  (forall i p rx tx,
     tailscale.Peers status !! i = Some p ->
     tailscale.GetPeerTraffic tsClient i (tailscale.PublicKey p) = (rx, tx) ->
     0 <= rx /\ 0 <= tx) ->
  exists readings' bandwidths effs,
    calculatePeerBandwidth tsClient now readings
      = (readings', Ok bandwidths, effs) /\
    forall r, r ∈ bandwidths ->
      F64.leb F64.zero (BytesIn r) = true /\
      F64.leb F64.zero (BytesOut r) = true.
Proof.
  intros Hs Hpos. unfold calculatePeerBandwidth. rewrite Hs.
  eexists _, _, _. split; [reflexivity |].
  apply Forall_forall. apply peerLoop_Forall; [| constructor].
  intros i p Hp k. split; [by split |].
  intros last. apply deltaReport_nonneg; cbn [currentReading BytesReceived
    BytesTransmitted];
    destruct (tailscale.GetPeerTraffic tsClient (0 + i) k) as [rx tx] eqn:Ht;
    destruct (Hpos i p rx tx Hp Ht); done.
Qed.

(** [Status()] returns an error exactly when the output of the command does
    not parse; a command that fails is answered with the minimal status. *)
Lemma Client_Status_error tsClient e :
  tailscale.Client_Status tsClient = Err e <->
  exists e', tailscale.StatusOutput tsClient = tailscale.Unparsable e' /\
             e = "failed to parse tailscale status: " +:+ e'.
Proof.
  unfold tailscale.Client_Status.
  destruct (tailscale.StatusOutput tsClient) as [e0 | e0 | rawStatus]; split;
    try discriminate; try (intros (e' & He' & _); discriminate).
  - intros [= <-]. eauto.
  - intros (e' & [= <-] & ->). reflexivity.
Qed.

(** What does hold of a cycle whose status query returns an error, as it
    does when the output of the command does not parse: the cycle returns
    an error, leaves the reading cache as it was and emits nothing; it runs
    no traffic query, and the reporter tick around it sends no report. *)
Lemma status_error_changes_nothing tsClient now readings e :
  tailscale.Client_Status tsClient = Err e ->
  calculatePeerBandwidth tsClient now readings
    = (readings, Err ("failed to get Tailscale status: " +:+ e), [CmdStatus])
  /\ forall apiURL post, exists msg,
       reportPeerBandwidth apiURL tsClient now post readings
         = (readings, Some msg, [CmdStatus]).
Proof.
  intros Hs. unfold reportPeerBandwidth, calculatePeerBandwidth. rewrite Hs.
  split; [reflexivity |]. intros apiURL post. eexists. reflexivity.
Qed.



(** ** Notifications, the status handler, the remote-config loop *)

Lemma calculatePeerBandwidth_effects tsClient now readings :
  cycleEffects tsClient now readings
  = CmdStatus ::
    match tailscale.Client_Status tsClient with
    | Ok status => CmdPeerTraffic <$> keysOf (tailscale.Peers status)
    | Err _ => []
    end.
Proof.
  unfold cycleEffects, calculatePeerBandwidth.
  destruct (tailscale.Client_Status tsClient) as [status | e]; [| done].
  cbn [snd]. by rewrite peerLoop_effects.
Qed.

Lemma no_post_among_commands url body (keys : list string) :
  HttpPost url body ∉ CmdStatus :: (CmdPeerTraffic <$> keys).
Proof.
  intros [Heq | Hin]%elem_of_cons; [discriminate |].
  apply list_elem_of_fmap in Hin as (k & Hk & _). discriminate.
Qed.

(** A tick adds at most the bandwidth report to what its cycle does. *)
Lemma reportPeerBandwidth_effects apiURL tsClient now post readings :
  exists rest,
    (reportPeerBandwidth apiURL tsClient now post readings).2
      = cycleEffects tsClient now readings ++ rest /\
    (rest = [] \/
     exists bandwidths, rest = [HttpPost apiURL (BandwidthJSON bandwidths)]).
Proof.
  unfold reportPeerBandwidth, cycleEffects.
  destruct (calculatePeerBandwidth tsClient now readings)
    as [[readings' [bandwidths | e]] effs]; cbn [snd].
  - unfold json_Marshal. destruct (forallb _ bandwidths).
    + exists [HttpPost apiURL (BandwidthJSON bandwidths)].
      split; [| by eauto].
      destruct post as [code | e]; [case_decide |]; reflexivity.
    + exists []. split; [by rewrite app_nil_r | by left].
  - exists []. split; [by rewrite app_nil_r | by left].
Qed.

(** A cycle posts nothing, and the tick around it posts no notification,
    to whatever URL. *)
Lemma cycle_posts_nothing tsClient now readings url body :
  HttpPost url body ∉ cycleEffects tsClient now readings.
Proof.
  intros Hin. rewrite calculatePeerBandwidth_effects in Hin.
  destruct (tailscale.Client_Status tsClient);
    [by apply no_post_among_commands in Hin |].
  by apply (no_post_among_commands url body []) in Hin.
Qed.

Lemma tick_posts_no_notification apiURL tsClient now post readings
    url action k :
  HttpPost url (NotifyJSON action k)
    ∉ tickEffects apiURL tsClient now post readings.
Proof.
  intros Hin.
  destruct (reportPeerBandwidth_effects apiURL tsClient now post readings)
    as (rest & Heffs & Hrest).
  unfold tickEffects in Hin.
  rewrite Heffs in Hin. apply elem_of_app in Hin as [Hin | Hin].
  - by apply cycle_posts_nothing in Hin.
  - destruct Hrest as [-> | [bandwidths ->]];
      [by apply elem_of_nil in Hin |].
    apply list_elem_of_singleton in Hin. discriminate.
Qed.

(** A change of membership is seen by a cycle whose status query
    succeeded. *)
Lemma membership_change_has_snapshot tsClient now readings k :
  newlyBaselined tsClient readings k \/ newlyPruned tsClient now readings k ->
  exists status, tailscale.Client_Status tsClient = Ok status.
Proof.
  intros [(_ & status & Hs & _) | [[r Hr] Hnone]]; [eauto |].
  destruct (tailscale.Client_Status tsClient) as [status | e] eqn:Hs;
    [eauto |].
  destruct (status_error_changes_nothing tsClient now readings e Hs)
    as [Hc _].
  unfold cycleReadings in Hnone. rewrite Hc in Hnone. cbn in Hnone.
  congruence.
Qed.

(** C7. The code breaks the claim: nothing calls [notifyPeerChange].
    Whenever a cycle baselines or prunes a peer, the tick around it posts
    no notification for that peer, to the notify URL or to any other,
    whatever the notify URL is set to; so the claim fails for that tick.
    All the tick does to the outside is the status query, one traffic
    query for each peer of the snapshot and, at the end, at most the
    bandwidth report to the report URL. *)
Theorem C7_membership_change_is_not_notified
    notifyURL apiURL tsClient now post readings k :
  newlyBaselined tsClient readings k \/ newlyPruned tsClient now readings k ->
  (forall url action,
     HttpPost url (NotifyJSON action k)
       ∉ tickEffects apiURL tsClient now post readings) /\
  ~ cycleNotifiesChanges notifyURL apiURL tsClient now post readings /\
  exists status rest,
    tailscale.Client_Status tsClient = Ok status /\
    tickEffects apiURL tsClient now post readings
    = CmdStatus :: (CmdPeerTraffic <$> keysOf (tailscale.Peers status))
      ++ rest /\
    (rest = [] \/
     exists bandwidths, rest = [HttpPost apiURL (BandwidthJSON bandwidths)]).
Proof.
  intros Hchange. split; [| split].
  - intros url action. apply tick_posts_no_notification.
  - intros Hnotified. destruct (Hnotified k Hchange) as [action Hin].
    by apply tick_posts_no_notification in Hin.
  - destruct (membership_change_has_snapshot _ _ _ _ Hchange)
      as [status Hs].
    destruct (reportPeerBandwidth_effects apiURL tsClient now post readings)
      as (rest & Heffs & Hrest).
    exists status, rest. split; [done |]. split; [| done].
    unfold tickEffects. rewrite Heffs, calculatePeerBandwidth_effects, Hs.
    reflexivity.
Qed.

(** A status without self info makes [handleStatus] panic. *)
Lemma handleStatus_without_self tsClient status :
  tailscale.Client_Status tsClient = Ok status ->
  tailscale.Self status = None ->
  handleStatus tsClient
    = Panics "invalid memory address or nil pointer dereference".
Proof. intros Hs Hself. unfold handleStatus. by rewrite Hs, Hself. Qed.

(** [Status()] gives such a status when the command fails, and when its
    output has no object under ["Self"]. *)
Lemma Client_Status_without_self tsClient :
  match tailscale.StatusOutput tsClient with
  | tailscale.CommandFailed _ => True
  | tailscale.Unparsable _ => False
  | tailscale.Parsed rawStatus =>
      json.asObject (json.index rawStatus "Self") = None
  end ->
  exists status,
    tailscale.Client_Status tsClient = Ok status /\
    tailscale.LoggedIn status = false /\ tailscale.Self status = None.
Proof.
  unfold tailscale.Client_Status.
  destruct (tailscale.StatusOutput tsClient) as [e | e | rawStatus];
    intros H; [| done |].
  - eexists. split; [reflexivity |]. by split.
  - rewrite H. eexists. split; [reflexivity |]. by split.
Qed.

(** C8. The code breaks the claim: when the [tailscale] command fails,
    [Status()] returns, with no error, a status with [loggedIn] false and no
    self info; on it [handleStatus] reads [status.Self.Hostname] through the
    nil pointer and panics, so that it produces neither the SelfStatus view
    nor a 500. The sibling [ensureTailscale] guards the same reads with
    [status.Self != nil] and returns. *)
Theorem C8_handleStatus_panics_without_self :
  tailscale.Client_Status stoppedClient = Ok tailscale.minimalStatus /\
  handleStatus stoppedClient
    = Panics "invalid memory address or nil pointer dereference" /\
  ~ (exists r, handleStatus stoppedClient = Returns r /\
               (isSelfStatusView r \/ isInternalServerError r)) /\
  ensureTailscale_identity tailscale.minimalStatus = Returns None.
Proof.
  split; [reflexivity |]. split; [reflexivity |]. split; [| reflexivity].
  intros (r & Hr & _). discriminate.
Qed.

(** Where the claim of C8 does hold. *)
Lemma handleStatus_with_self tsClient status self :
  tailscale.Client_Status tsClient = Ok status ->
  tailscale.Self status = Some self ->
  exists r, handleStatus tsClient = Returns r /\ isSelfStatusView r.
Proof.
  intros Hs Hself. unfold handleStatus. rewrite Hs, Hself.
  eexists. split; [reflexivity |].
  split; [reflexivity |]. cbn. eauto 10.
Qed.

Lemma handleStatus_provider_error tsClient e :
  tailscale.Client_Status tsClient = Err e ->
  exists r, handleStatus tsClient = Returns r /\ isInternalServerError r.
Proof.
  intros Hs. unfold handleStatus. rewrite Hs. eexists. split; reflexivity.
Qed.

(** C9. The code breaks the claim: an HTTP 500 whose body decodes (as [{}]
    does, to a config without auth key) is not a failed fetch for
    [loadRemoteConfig], which does not look at the status code; three such
    replies are retried at once, with no 5-second delay between the
    attempts, before the fourth fetch succeeds. *)
Theorem C9_http500_with_decodable_body_is_not_delayed (url : string) :
  fetchLoop url
    [Replied 500 TailscaleConfig_zero None;
     Replied 500 TailscaleConfig_zero None;
     Replied 500 TailscaleConfig_zero None;
     Replied 200 exampleConfig None]
    TailscaleConfig_zero []
  = Configured exampleConfig [HttpGet url; HttpGet url; HttpGet url; HttpGet url].
Proof. reflexivity. Qed.

(** What does hold of the loop. Fetches that return an error are each
    followed by one sleep of five seconds. *)
Lemma fetchLoop_three_errors (url : string) (e1 e2 e3 : error) :
  fetchLoop url
    [Replied 500 TailscaleConfig_zero (Some e1); GetFailed e2;
     ReadFailed 500 e3; Replied 200 exampleConfig None]
    TailscaleConfig_zero []
  = Configured exampleConfig
      [HttpGet url; Sleep (5 * time.Second);
       HttpGet url; Sleep (5 * time.Second);
       HttpGet url; Sleep (5 * time.Second); HttpGet url].
Proof. reflexivity. Qed.

Lemma fetchLoop_with_key url replies tsconfig effs :
  AuthKey tsconfig <> "" ->
  fetchLoop url replies tsconfig effs = Configured tsconfig effs.
Proof. intros Hk. destruct replies; cbn; by rewrite decide_False. Qed.

Lemma fetchLoop_effects url replies tsconfig effs :
  AuthKey tsconfig = "" ->
  StartupEffects (fetchLoop url replies tsconfig effs)
  = effs ++ flat_map (attempt url) (fetched replies).
Proof.
  revert tsconfig effs.
  induction replies as [| reply rest IH]; intros tsconfig effs Hk.
  - cbn. rewrite decide_True by done. cbn. by rewrite app_nil_r.
  - cbn [fetchLoop fetched]. rewrite decide_True by done.
    assert (Hatt : attempt url reply
                   = HttpGet url ::
                     match (loadRemoteConfig reply).2 with
                     | Some _ => [Sleep (5 * time.Second)]
                     | None => []
                     end) by reflexivity.
    destruct (loadRemoteConfig reply) as [cfg err]; cbn [fst snd] in *.
    destruct (decide (AuthKey cfg = "")) as [Hcfg | Hcfg]; cbn [flat_map];
      rewrite Hatt.
    + destruct err as [e |]; rewrite IH by done; by rewrite <- !app_assoc.
    + destruct err as [e |]; rewrite fetchLoop_with_key by done;
        cbn [StartupEffects]; by rewrite app_nil_r, <- ?app_assoc.
Qed.

Lemma fetchLoop_never_fatal url replies tsconfig effs msg :
  fetchLoop url replies tsconfig effs <> Fatal msg.
Proof.
  revert tsconfig effs. induction replies as [| reply rest IH];
    intros tsconfig effs; cbn; case_decide; try discriminate.
  destruct (loadRemoteConfig reply) as [cfg [e |]]; apply IH.
Qed.

Lemma fetchLoop_configured url replies tsconfig effs cfg effs' :
  fetchLoop url replies tsconfig effs = Configured cfg effs' ->
  AuthKey cfg <> "".
Proof.
  revert tsconfig effs. induction replies as [| reply rest IH];
    intros tsconfig effs; cbn; case_decide; try discriminate;
    try (intros [= <- <-]; done).
  destruct (loadRemoteConfig reply) as [cfg' [e |]]; apply IH.
Qed.

(** The loop has no ceiling: after any number of failed fetches it is still
    fetching, one sleep of five seconds behind each. *)
Lemma fetchLoop_no_ceiling url e (n : nat) :
  fetchLoop url (replicate n (GetFailed e)) TailscaleConfig_zero []
  = Fetching (mjoin (replicate n [HttpGet url; Sleep (5 * time.Second)])).
Proof.
  assert (H : forall effs,
            fetchLoop url (replicate n (GetFailed e)) TailscaleConfig_zero effs
            = Fetching
                (effs ++ mjoin (replicate n [HttpGet url;
                                             Sleep (5 * time.Second)]))).
  { induction n as [| n IH]; intros effs; cbn.
    - by rewrite app_nil_r.
    - rewrite IH. by rewrite <- !app_assoc. }
  apply H.
Qed.

(** With a remote URL and no local file, loading the configuration never
    ends the process. *)
Lemma acquireConfig_remote_never_fatal p file replies msg :
  configFile p = "" ->
  TrimSuffix (TrimSuffix (remoteConfigURL p) "/gerbil/get-config") "/" <> "" ->
  acquireConfig p file replies <> Fatal msg.
Proof.
  intros Hf Hr. unfold acquireConfig. rewrite Hf. cbn [String.eqb negb].
  destruct (String.eqb_spec
              (TrimSuffix (TrimSuffix (remoteConfigURL p) "/gerbil/get-config")
                 "/") "") as [| _]; [done |].
  cbn [negb]. apply fetchLoop_never_fatal.
Qed.

(** ** The theorems at work on concrete cycles *)

Lemma firstOf_example (rx tx : Z) (k : string) :
  firstOf (examplePeer rx tx <$> [k]) 0 k.
Proof. split; [reflexivity | intros j Hj; lia]. Defined.

Lemma lastOf_example (rx tx : Z) (k : string) :
  lastOf (examplePeer rx tx <$> [k]) 0 k.
Proof.
  split; [reflexivity |]. intros [| j] Hj; [lia | discriminate].
Defined.

(** The peer ["P"], cached at [(1000, 500)] at time 10, is read at
    [(1049576, 500)] at time 20. *)
Lemma C1_witness :
  tailscale.Client_Status (exampleClient ["P"] 1049576 500)
    = Ok (exampleStatus ["P"] 1049576 500) /\
  firstOf (examplePeer 1049576 500 <$> ["P"]) 0 "P" /\
  tailscale.GetPeerTraffic (exampleClient ["P"] 1049576 500) 0 "P"
    = (1049576, 500) /\
  1000 <= 1049576 /\ 500 <= 500 /\
  exists readings' bandwidths effs,
    calculatePeerBandwidth (exampleClient ["P"] 1049576 500) 20
      (exampleReadings "P" 1000 500 10)
      = (readings', Ok bandwidths, effs) /\
    (forall r, r ∈ bandwidths -> PublicKey r = "P" ->
       BytesIn r = toMB (1049576 - 1000) /\
       BytesOut r = toMB (500 - 500) /\
       (1049576 - 1000 < 2 ^ 53 ->
        F64.is_finite (BytesIn r) = true /\
        Qeq (F64.toQ (BytesIn r))
            (inject_Z (1049576 - 1000) / inject_Z 1048576)) /\
       (500 - 500 < 2 ^ 53 ->
        F64.is_finite (BytesOut r) = true /\
        Qeq (F64.toQ (BytesOut r))
            (inject_Z (500 - 500) / inject_Z 1048576))) /\
    (10 < 20 -> exists r, r ∈ bandwidths /\ PublicKey r = "P").
Proof.
  split; [reflexivity |]. split; [apply firstOf_example |].
  split; [reflexivity |]. split; [lia |]. split; [lia |].
  apply (C1_delta_in_megabytes (exampleClient ["P"] 1049576 500) 20
           (exampleReadings "P" 1000 500 10)
           (exampleStatus ["P"] 1049576 500) 0%nat "P"
           {| BytesReceived := 1000; BytesTransmitted := 500;
              LastChecked := 10 |} 1049576 500).
  - reflexivity.
  - apply firstOf_example.
  - vm_compute. reflexivity.
  - reflexivity.
  - cbn. lia.
  - vm_compute. discriminate.
  - cbn. lia.
  - vm_compute. discriminate.
Defined.

(** The counter [rx] of ["P"] went back from 1000 to 5 while [tx] grew from
    500 to 700: reported are [5 / 1048576] and [200 / 1048576] megabytes. *)
Lemma C2_witness :
  tailscale.Client_Status (exampleClient ["P"] 5 700)
    = Ok (exampleStatus ["P"] 5 700) /\
  firstOf (examplePeer 5 700 <$> ["P"]) 0 "P" /\
  tailscale.GetPeerTraffic (exampleClient ["P"] 5 700) 0 "P" = (5, 700) /\
  Int64.in_range (5 - 1000) /\ Int64.in_range (700 - 500) /\
  exists readings' bandwidths effs,
    calculatePeerBandwidth (exampleClient ["P"] 5 700) 20
      (exampleReadings "P" 1000 500 10)
      = (readings', Ok bandwidths, effs) /\
    (forall r, r ∈ bandwidths -> PublicKey r = "P" ->
       (5 < 1000 ->
        BytesIn r = F64.div (F64.of_int 5) (F64.of_int 1048576) /\
        (0 <= 5 < 2 ^ 53 ->
         F64.is_finite (BytesIn r) = true /\
         Qeq (F64.toQ (BytesIn r)) (inject_Z 5 / inject_Z 1048576))) /\
       (1000 <= 5 ->
        BytesIn r
        = F64.div (F64.of_int (5 - 1000)) (F64.of_int 1048576) /\
        (0 <= 5 - 1000 < 2 ^ 53 ->
         F64.is_finite (BytesIn r) = true /\
         Qeq (F64.toQ (BytesIn r))
             (inject_Z (5 - 1000) / inject_Z 1048576))) /\
       (700 < 500 ->
        BytesOut r = F64.div (F64.of_int 700) (F64.of_int 1048576) /\
        (0 <= 700 < 2 ^ 53 ->
         F64.is_finite (BytesOut r) = true /\
         Qeq (F64.toQ (BytesOut r)) (inject_Z 700 / inject_Z 1048576))) /\
       (500 <= 700 ->
        BytesOut r
        = F64.div (F64.of_int (700 - 500)) (F64.of_int 1048576) /\
        (0 <= 700 - 500 < 2 ^ 53 ->
         F64.is_finite (BytesOut r) = true /\
         Qeq (F64.toQ (BytesOut r))
             (inject_Z (700 - 500) / inject_Z 1048576)))) /\
    (10 < 20 -> exists r, r ∈ bandwidths /\ PublicKey r = "P").
Proof.
  assert (H1 : Int64.in_range (5 - 1000))
    by (unfold Int64.in_range, Int64.min_int64, Int64.max_int64; cbn; lia).
  assert (H2 : Int64.in_range (700 - 500))
    by (unfold Int64.in_range, Int64.min_int64, Int64.max_int64; cbn; lia).
  split; [reflexivity |]. split; [apply firstOf_example |].
  split; [reflexivity |]. split; [exact H1 |]. split; [exact H2 |].
  exact (C2_reset_reports_current_value (exampleClient ["P"] 5 700) 20
           (exampleReadings "P" 1000 500 10)
           (exampleStatus ["P"] 5 700) 0%nat "P"
           {| BytesReceived := 1000; BytesTransmitted := 500;
              LastChecked := 10 |} 5 700
           eq_refl (firstOf_example 5 700 "P") eq_refl eq_refl H1 H2).
Defined.

(** The peer ["P"] is seen for the first time, with an empty cache. *)
Lemma C3_witness :
  firstOf (examplePeer 1000 500 <$> ["P"]) 0 "P" /\
  lastOf (examplePeer 1000 500 <$> ["P"]) 0 "P" /\
  (∅ : gmap string PeerReading) !! "P" = None /\
  exists readings' bandwidths effs,
    calculatePeerBandwidth (exampleClient ["P"] 1000 500) 10 ∅
      = (readings', Ok bandwidths, effs) /\
    reportsFor "P" bandwidths
      = [{| PublicKey := "P"; BytesIn := F64.zero; BytesOut := F64.zero |}] /\
    readings' !! "P"
      = Some {| BytesReceived := 1000; BytesTransmitted := 500;
                LastChecked := 10 |}.
Proof.
  split; [apply firstOf_example |]. split; [apply lastOf_example |].
  split; [reflexivity |].
  apply (C3_first_seen_baseline (exampleClient ["P"] 1000 500) 10 ∅
           (exampleStatus ["P"] 1000 500) 0%nat 0%nat "P" 1000 500).
  - reflexivity.
  - apply firstOf_example.
  - apply lastOf_example.
  - reflexivity.
  - reflexivity.
Defined.

(** The cache holds ["Q"], the snapshot holds ["P"]. *)
Lemma C4_witness :
  exists readings' bandwidths effs,
    calculatePeerBandwidth (exampleClient ["P"] 1000 500) 10
      (exampleReadings "Q" 7 7 5)
      = (readings', Ok bandwidths, effs) /\
    dom readings' = currentPeerKeys (examplePeer 1000 500 <$> ["P"]) /\
    (forall k, k ∈ keysOf (examplePeer 1000 500 <$> ["P"])
               <-> is_Some (readings' !! k)) /\
    (forall r, r ∈ bandwidths ->
               PublicKey r ∈ keysOf (examplePeer 1000 500 <$> ["P"])) /\
    (forall k tsClient2 now2 status2,
       k ∉ keysOf (examplePeer 1000 500 <$> ["P"]) ->
       tailscale.Client_Status tsClient2 = Ok status2 ->
       k ∈ keysOf (tailscale.Peers status2) ->
       exists readings2 bandwidths2 effs2,
         calculatePeerBandwidth tsClient2 now2 readings'
           = (readings2, Ok bandwidths2, effs2) /\
         reportsFor k bandwidths2
           = [{| PublicKey := k; BytesIn := F64.zero; BytesOut := F64.zero |}]).
Proof.
  exact (C4_cache_keys_are_snapshot_keys (exampleClient ["P"] 1000 500) 10
           (exampleReadings "Q" 7 7 5) (exampleStatus ["P"] 1000 500)
           eq_refl).
Defined.

(** The counters read are 5 and 700; the cache holds larger and smaller
    ones. *)
Lemma C5_witness :
  exists readings' bandwidths effs,
    calculatePeerBandwidth (exampleClient ["P"; "Q"] 5 700) 20
      (exampleReadings "P" 1000 500 10)
      = (readings', Ok bandwidths, effs) /\
    forall r, r ∈ bandwidths ->
      F64.leb F64.zero (BytesIn r) = true /\
      F64.leb F64.zero (BytesOut r) = true.
Proof.
  apply (C5_no_negative_delta (exampleClient ["P"; "Q"] 5 700) 20
           (exampleReadings "P" 1000 500 10)
           (exampleStatus ["P"; "Q"] 5 700)).
  - reflexivity.
  - intros [| [| i]] p rx tx Hp Heq; [| | discriminate];
      injection Hp as <-; vm_compute in Heq; injection Heq as <- <-; lia.
Defined.


(** A cycle that baselines the new peer ["P"] and prunes the cached peer
    ["Q"], with a notify URL set and the report endpoint answering 200. *)
Lemma newlyBaselined_example :
  newlyBaselined (exampleClient ["P"] 1000 500) (exampleReadings "Q" 7 7 5)
    "P".
Proof.
  split; [reflexivity |]. exists (exampleStatus ["P"] 1000 500).
  split; [reflexivity |]. apply list_elem_of_singleton. reflexivity.
Defined.

Lemma newlyPruned_example :
  newlyPruned (exampleClient ["P"] 1000 500) 10 (exampleReadings "Q" 7 7 5)
    "Q".
Proof. split; [by eexists | by vm_compute]. Defined.

Lemma C7_witness :
  (newlyBaselined (exampleClient ["P"] 1000 500) (exampleReadings "Q" 7 7 5)
     "P" \/
   newlyPruned (exampleClient ["P"] 1000 500) 10 (exampleReadings "Q" 7 7 5)
     "P") /\
  newlyPruned (exampleClient ["P"] 1000 500) 10 (exampleReadings "Q" 7 7 5)
    "Q" /\
  (forall url action,
     HttpPost url (NotifyJSON action "P")
       ∉ tickEffects "http://pangolin:3001/api/v1/gerbil/receive-bandwidth"
           (exampleClient ["P"] 1000 500) 10 (Ok response200)
           (exampleReadings "Q" 7 7 5)) /\
  ~ cycleNotifiesChanges "http://pangolin:3001/notify"
      "http://pangolin:3001/api/v1/gerbil/receive-bandwidth"
      (exampleClient ["P"] 1000 500) 10 (Ok response200)
      (exampleReadings "Q" 7 7 5) /\
  exists status rest,
    tailscale.Client_Status (exampleClient ["P"] 1000 500) = Ok status /\
    tickEffects "http://pangolin:3001/api/v1/gerbil/receive-bandwidth"
      (exampleClient ["P"] 1000 500) 10 (Ok response200)
      (exampleReadings "Q" 7 7 5)
    = CmdStatus :: (CmdPeerTraffic <$> keysOf (tailscale.Peers status))
      ++ rest /\
    (rest = [] \/
     exists bandwidths,
       rest = [HttpPost "http://pangolin:3001/api/v1/gerbil/receive-bandwidth"
                 (BandwidthJSON bandwidths)]).
Proof.
  split; [left; exact newlyBaselined_example |].
  split; [exact newlyPruned_example |].
  exact (C7_membership_change_is_not_notified "http://pangolin:3001/notify"
           "http://pangolin:3001/api/v1/gerbil/receive-bandwidth"
           (exampleClient ["P"] 1000 500) 10 (Ok response200)
           (exampleReadings "Q" 7 7 5) "P"
           (or_introl newlyBaselined_example)).
Defined.

(** The cached reading of ["P"] carries the time of the cycle itself. *)
Lemma C10_witness :
  firstOf (examplePeer 2000 900 <$> ["P"]) 0 "P" /\
  lastOf (examplePeer 2000 900 <$> ["P"]) 0 "P" /\
  exists readings' bandwidths effs,
    calculatePeerBandwidth (exampleClient ["P"] 2000 900) 20
      (exampleReadings "P" 1000 500 20)
      = (readings', Ok bandwidths, effs) /\
    (20 < 20 -> exists r, reportsFor "P" bandwidths = [r]) /\
    (20 <= 20 -> reportsFor "P" bandwidths = []) /\
    readings' !! "P"
      = Some {| BytesReceived := 2000; BytesTransmitted := 900;
                LastChecked := 20 |}.
Proof.
  split; [apply firstOf_example |]. split; [apply lastOf_example |].
  apply (C10_report_needs_time_to_advance (exampleClient ["P"] 2000 900) 20
           (exampleReadings "P" 1000 500 20)
           (exampleStatus ["P"] 2000 900) 0%nat 0%nat "P"
           {| BytesReceived := 1000; BytesTransmitted := 500;
              LastChecked := 20 |} 2000 900).
  - reflexivity.
  - apply firstOf_example.
  - apply lastOf_example.
  - vm_compute. reflexivity.
  - reflexivity.
Defined.

(** ** Worked examples *)

(** The scenario of the specification: cycle 1 sees ["P"] at
    [(1000, 500)] and reports [{P, 0, 0}]; cycle 2 sees it at
    [(1049576, 500)] and reports [{P, 1.0, 0.0}]. *)
Example scenario_cycle_1 :
  (calculatePeerBandwidth (exampleClient ["P"] 1000 500) 10 ∅).1.2
  = Ok [{| PublicKey := "P"; BytesIn := F64.zero; BytesOut := F64.zero |}].
Proof. reflexivity. Qed.

Example scenario_cycle_2 :
  (calculatePeerBandwidth (exampleClient ["P"] 1049576 500) 20
     (cycleReadings (exampleClient ["P"] 1000 500) 10 ∅)).1.2
  = Ok [{| PublicKey := "P"; BytesIn := F64.of_int 1;
           BytesOut := F64.zero |}].
Proof. vm_compute. reflexivity. Qed.

(** A counter that went back: 5 bytes are reported, not [5 - 1000]. *)
Example scenario_reset :
  (calculatePeerBandwidth (exampleClient ["P"] 5 700) 20
     (exampleReadings "P" 1000 500 10)).1.2
  = Ok [{| PublicKey := "P"; BytesIn := toMB 5; BytesOut := toMB 200 |}].
Proof. vm_compute. reflexivity. Qed.

(** Above [2^53] bytes the conversion to [float64] rounds: a difference of
    [2^53 + 1] bytes is reported as [2^33] megabytes. *)
Example toMB_rounds_above_2_53 :
  toMB (2 ^ 53 + 1) = toMB (2 ^ 53) /\
  Qeq (F64.toQ (toMB (2 ^ 53 + 1))) (inject_Z (2 ^ 33)).
Proof. split; vm_compute; reflexivity. Qed.

(** When the [tailscale] command itself fails, [Status()] answers with the
    minimal status and no error: the cycle sees an empty snapshot, prunes
    the whole cache and reports nothing. *)
Example stopped_daemon_prunes_cache :
  calculatePeerBandwidth stoppedClient 20 (exampleReadings "P" 1000 500 10)
  = (∅, Ok [], [CmdStatus]).
Proof. vm_compute. reflexivity. Qed.

(** The remote-config URL is cleaned of the suffix of earlier versions. *)
Example remote_url_cleaned :
  acquireConfig
    {| configFile := "";
       remoteConfigURL := "http://pangolin:3001/api/v1/gerbil/get-config";
       authKey := ""; hostname := ""; controlURL := "" |}
    (OpenFailed "") [Replied 200 exampleConfig None]
  = Configured exampleConfig
      [HttpGet "http://pangolin:3001/api/v1/gerbil/get-tailscale-config"].
Proof. reflexivity. Qed.

(* ================================================================== *)
(** * Part III: facts about the rest of the code                       *)
(* ================================================================== *)

(** ** Successive cycles *)

Lemma emitted_keys k current prior :
  PublicKey <$> emitted k current prior = [] \/
  PublicKey <$> emitted k current prior = [k].
Proof.
  unfold emitted. destruct prior as [last |]; [case_bool_decide |]; auto.
Qed.

Lemma emitted_nonempty k current prior :
  emitted k current prior <> [] ->
  prior = None \/
  exists last, prior = Some last /\ LastChecked last < LastChecked current.
Proof.
  unfold emitted. destruct prior as [last |]; [| by left].
  case_bool_decide; [| done]. right. eauto.
Qed.

Section Once.
Variable tsClient : tailscale.Client.
Variable now : time.Time.

(** The keys of the reports follow the keys of the peers gone through, and
    none comes twice: a key gone through is cached at [now], and gets no
    report after that. *)
Lemma peerLoop_keys_once (l2 l1 : list tailscale.PeerInfo) n c :
  PublicKey <$> peerBandwidths c `sublist_of` keysOf l1 ->
  NoDup (PublicKey <$> peerBandwidths c) ->
  (forall k, k ∈ keysOf l1 ->
     exists r, lastReadings c !! k = Some r /\ LastChecked r = now) ->
  PublicKey <$> peerBandwidths (peerLoop tsClient now n l2 c)
    `sublist_of` keysOf (l1 ++ l2) /\
  NoDup (PublicKey <$> peerBandwidths (peerLoop tsClient now n l2 c)).
Proof.
  revert l1 n c. induction l2 as [| p l2 IH]; intros l1 n c Hsub Hnd Hseen.
  { by rewrite app_nil_r. }
  cbn [peerLoop]. rewrite (cons_middle p l1 l2), app_assoc.
  set (k := tailscale.PublicKey p).
  assert (Hfresh : emitted k (currentReading tsClient now n k)
                     (lastReadings c !! k) <> [] -> k ∉ keysOf l1).
  { intros Hne Hin. destruct (Hseen k Hin) as (r & Hr & Ht).
    apply emitted_nonempty in Hne as [Hnone | (last & Hl & Hlt)].
    - congruence.
    - rewrite Hr in Hl. injection Hl as <-. cbn in Hlt. lia. }
  apply IH; rewrite peerStep_eq; fold k;
    cbn [peerBandwidths lastReadings]; unfold keysOf in *;
    rewrite ?fmap_app.
  - destruct (emitted_keys k (currentReading tsClient now n k)
                (lastReadings c !! k)) as [-> | ->].
    + rewrite app_nil_r. by apply sublist_inserts_r.
    + by apply sublist_app.
  - destruct (emitted_keys k (currentReading tsClient now n k)
                (lastReadings c !! k)) as [He | He]; rewrite He.
    + by rewrite app_nil_r.
    + apply NoDup_app. split; [done |]. split; [| apply NoDup_singleton].
      intros x Hx ->%list_elem_of_singleton.
      apply Hfresh.
      * intros Hnil. by rewrite Hnil in He.
      * by apply (sublist_subseteq _ _ Hsub).
  - intros k' [Hk' | ->%list_elem_of_singleton]%elem_of_app.
    + destruct (decide (k' = k)) as [-> | Hne].
      * rewrite lookup_insert_eq. eauto.
      * rewrite lookup_insert_ne by done. by apply Hseen.
    + rewrite lookup_insert_eq. eauto.
Qed.

(** With no key repeated in the snapshot, each peer is reported against
    the reading the cache held for it before the loop. *)
Lemma peerLoop_distinct (l : list tailscale.PeerInfo) n c :
  NoDup (keysOf l) ->
  peerBandwidths (peerLoop tsClient now n l c)
  = peerBandwidths c
    ++ mjoin (imap (fun i p =>
                      emitted (tailscale.PublicKey p)
                        (currentReading tsClient now (n + i)
                           (tailscale.PublicKey p))
                        (lastReadings c !! tailscale.PublicKey p)) l).
Proof.
  revert n c. induction l as [| p l IH]; intros n c Hnd.
  { cbn. by rewrite app_nil_r. }
  apply NoDup_cons in Hnd as [Hp Hnd].
  cbn [peerLoop]. rewrite IH by done. rewrite peerStep_eq.
  cbn [peerBandwidths lastReadings]. rewrite imap_cons.
  cbn [mjoin list_join]. rewrite <- app_assoc, Nat.add_0_r.
  do 3 f_equal. apply imap_ext. intros i q Hq. cbn.
  rewrite lookup_insert_ne.
  - f_equal. f_equal. lia.
  - intros Heq. apply Hp. rewrite Heq.
    apply list_elem_of_fmap_2. by eapply list_elem_of_lookup_2.
Qed.
End Once.

Lemma NoDup_firstOf_lastOf peers i p :
  NoDup (keysOf peers) -> peers !! i = Some p ->
  firstOf peers i (tailscale.PublicKey p) /\
  lastOf peers i (tailscale.PublicKey p).
Proof.
  intros Hnd Hp.
  assert (Hi : keysOf peers !! i = Some (tailscale.PublicKey p))
    by (unfold keysOf; by rewrite list_lookup_fmap, Hp).
  split; (split; [done |]); intros j Hj Hk;
    pose proof (NoDup_lookup _ _ _ _ Hnd Hi Hk); lia.
Qed.

Lemma cycleReports_Ok tsClient now readings readings' bandwidths effs :
  calculatePeerBandwidth tsClient now readings
    = (readings', Ok bandwidths, effs) ->
  cycleReports tsClient now readings = bandwidths /\
  cycleReadings tsClient now readings = readings'.
Proof. unfold cycleReports, cycleReadings. by intros ->. Qed.

Lemma cycle_of_error tsClient now readings e :
  tailscale.Client_Status tsClient = Err e ->
  cycleReports tsClient now readings = [] /\
  cycleReadings tsClient now readings = readings.
Proof.
  intros He. unfold cycleReports, cycleReadings, calculatePeerBandwidth.
  by rewrite He.
Qed.

Lemma totalIn_app l1 l2 :
  Qeq (totalIn (l1 ++ l2)) (totalIn l1 + totalIn l2).
Proof.
  induction l1 as [| r l1 IH]; cbn.
  - by rewrite Qplus_0_l.
  - fold (totalIn (l1 ++ l2)). fold (totalIn l1).
    rewrite IH. by rewrite Qplus_assoc.
Qed.

Lemma totalOut_app l1 l2 :
  Qeq (totalOut (l1 ++ l2)) (totalOut l1 + totalOut l2).
Proof.
  induction l1 as [| r l1 IH]; cbn.
  - by rewrite Qplus_0_l.
  - fold (totalOut (l1 ++ l2)). fold (totalOut l1).
    rewrite IH. by rewrite Qplus_assoc.
Qed.

Lemma megabytes_add (a b : Z) :
  Qeq (inject_Z a / inject_Z 1048576 + inject_Z b / inject_Z 1048576)
      (inject_Z (a + b) / inject_Z 1048576).
Proof. rewrite inject_Z_plus. field. Qed.

Lemma deltaReport_kept k current prior :
  0 <= BytesReceived current - BytesReceived prior <= Int64.max_int64 ->
  0 <= BytesTransmitted current - BytesTransmitted prior <= Int64.max_int64 ->
  deltaReport k current prior
  = {| PublicKey := k;
       BytesIn := toMB (BytesReceived current - BytesReceived prior);
       BytesOut := toMB (BytesTransmitted current - BytesTransmitted prior) |}.
Proof.
  intros Hrx Htx. unfold deltaReport, toMB.
  by rewrite !diff_kept by done.
Qed.

(** X1. Over any run of cycles during which a cached peer stays in the
    snapshot, the clock advances and the counters of the peer never go
    back, the reports of the peer add up to the growth of its counters,
    from the reading the cache held at the start to the reading it holds at
    the end, in megabytes and with no rounding: nothing is counted twice
    and nothing is dropped, also when cycles in between fail on the snapshot
    query. *)
Theorem X1_reports_add_up_to_counter_growth
    (k : string) (ticks : list (tailscale.Client * time.Time))
    (readings : gmap string PeerReading) (prior : PeerReading) :
  readings !! k = Some prior ->
  steadyRun k prior ticks ->
  exists last,
    (runCycles ticks readings).1 !! k = Some last /\
    Qeq (totalIn (reportsFor k (runCycles ticks readings).2))
        (inject_Z (BytesReceived last - BytesReceived prior)
         / inject_Z 1048576) /\
    Qeq (totalOut (reportsFor k (runCycles ticks readings).2))
        (inject_Z (BytesTransmitted last - BytesTransmitted prior)
         / inject_Z 1048576).
Proof.
  revert readings prior.
  induction ticks as [| [tsClient now] rest IH]; intros readings prior Hp Hrun.
  { exists prior. split; [done |]. cbn. rewrite !Z.sub_diag. split; reflexivity. }
  cbn [runCycles steadyRun] in *.
  destruct (tailscale.Client_Status tsClient) as [status | e] eqn:Hs.
  - destruct Hrun as (i & Hf & Hl & Hlt & Hrx & Htx & Hrest).
    cbv zeta in Hrx, Htx, Hrest.
    destruct (calculatePeerBandwidth_spec tsClient now readings status Hs)
      as (readings' & bandwidths & effs & Hc & Hfirst & Hlast & _).
    destruct (cycleReports_Ok _ _ _ _ _ _ Hc) as [-> ->].
    specialize (Hfirst i k Hf). specialize (Hlast i k Hl).
    destruct (IH readings' _ Hlast Hrest) as (last & Hfinal & Hin & Hout).
    destruct (runCycles rest readings') as [final reports].
    cbn [fst snd] in *. exists last. split; [done |].
    rewrite reportsFor_app, Hfirst, Hp. unfold emitted.
    rewrite bool_decide_eq_true_2 by done.
    assert (H53 : 2 ^ 53 <= Int64.max_int64) by (vm_compute; discriminate).
    rewrite deltaReport_kept by lia.
    cbn [app totalIn totalOut foldr BytesIn BytesOut].
    fold (totalIn (reportsFor k reports)).
    fold (totalOut (reportsFor k reports)).
    rewrite Hin, Hout. unfold toMB.
    rewrite (proj2 (F64Facts.toMB_exact _ Hrx)).
    rewrite (proj2 (F64Facts.toMB_exact _ Htx)).
    rewrite !megabytes_add. split; apply Qeq_alt; f_equal.
    + replace (BytesReceived (currentReading tsClient now i k)
               - BytesReceived prior
               + (BytesReceived last
                  - BytesReceived (currentReading tsClient now i k)))
        with (BytesReceived last - BytesReceived prior) by lia.
      apply Qeq_alt. reflexivity.
    + replace (BytesTransmitted (currentReading tsClient now i k)
               - BytesTransmitted prior
               + (BytesTransmitted last
                  - BytesTransmitted (currentReading tsClient now i k)))
        with (BytesTransmitted last - BytesTransmitted prior) by lia.
      apply Qeq_alt. reflexivity.
  - destruct (cycle_of_error tsClient now readings e Hs) as [-> ->].
    destruct (IH readings prior Hp Hrun) as (last & Hfinal & Hin & Hout).
    destruct (runCycles rest readings) as [final reports].
    cbn [fst snd app] in *. eauto.
Qed.

(** X2. A cycle reports a public key at most once, and the reports come in
    the order of the peers in the snapshot, also when the snapshot holds a
    key more than once. *)
Theorem X2_one_report_per_key_in_snapshot_order
    (tsClient : tailscale.Client) (now : time.Time)
    (readings : gmap string PeerReading) :
  NoDup (PublicKey <$> cycleReports tsClient now readings) /\
  forall status,
    tailscale.Client_Status tsClient = Ok status ->
    PublicKey <$> cycleReports tsClient now readings
      `sublist_of` keysOf (tailscale.Peers status).
Proof.
  unfold cycleReports, calculatePeerBandwidth.
  destruct (tailscale.Client_Status tsClient) as [status | e] eqn:Hs;
    cbn [fst snd]; [| split; [constructor | done]].
  destruct (peerLoop_keys_once tsClient now (tailscale.Peers status) [] 0%nat
              {| lastReadings := readings; peerBandwidths := [];
                 effects := [CmdStatus] |}) as [Hsub Hnd].
  - cbn. constructor.
  - cbn. constructor.
  - intros k Hk. by apply elem_of_nil in Hk.
  - split; [done |]. by intros ? [= <-].
Qed.

(** X3. When no public key comes twice in the snapshot, the loop of a cycle
    is a map over the peers: the reports are, peer by peer and in order,
    what each peer gets from its own cached reading alone, and the cache
    holds for each peer the reading just made. On an empty cache (the first
    cycle of the process) that is a zero report for every peer. *)
Theorem X3_distinct_keys_cycle_is_pointwise
    (tsClient : tailscale.Client) (now : time.Time)
    (readings : gmap string PeerReading) (status : tailscale.Status) :
  tailscale.Client_Status tsClient = Ok status ->
  NoDup (keysOf (tailscale.Peers status)) ->
  cycleReports tsClient now readings
  = mjoin (imap (fun i p =>
                   emitted (tailscale.PublicKey p)
                     (currentReading tsClient now i (tailscale.PublicKey p))
                     (readings !! tailscale.PublicKey p))
                (tailscale.Peers status)) /\
  (forall i p, tailscale.Peers status !! i = Some p ->
     cycleReadings tsClient now readings !! tailscale.PublicKey p
     = Some (currentReading tsClient now i (tailscale.PublicKey p))) /\
  (readings = ∅ ->
   cycleReports tsClient now readings
   = zeroReport <$> keysOf (tailscale.Peers status)).
Proof.
  intros Hs Hnd.
  assert (Hrep : cycleReports tsClient now readings
    = mjoin (imap (fun i p =>
                   emitted (tailscale.PublicKey p)
                     (currentReading tsClient now i (tailscale.PublicKey p))
                     (readings !! tailscale.PublicKey p))
                (tailscale.Peers status))).
  { unfold cycleReports, calculatePeerBandwidth. rewrite Hs. cbn [fst snd].
    by rewrite peerLoop_distinct. }
  split; [done |]. split.
  - intros i p Hp.
    destruct (NoDup_firstOf_lastOf _ i p Hnd Hp) as [_ Hl].
    destruct (calculatePeerBandwidth_spec tsClient now readings status Hs)
      as (readings' & bandwidths & effs & Hc & _ & Hlast & _).
    destruct (cycleReports_Ok _ _ _ _ _ _ Hc) as [_ ->]. by apply Hlast.
  - intros ->. rewrite Hrep. unfold keysOf.
    generalize (tailscale.Peers status). intros l.
    rewrite <- (imap_const zeroReport), imap_fmap.
    assert (Hgen : forall (f : nat -> tailscale.PeerInfo -> list PeerBandwidth)
                     (g : nat -> tailscale.PeerInfo -> PeerBandwidth),
              (forall i p, f i p = [g i p]) ->
              mjoin (imap f l) = imap g l).
    { induction l as [| p l IH]; intros f g Hfg; [done |].
      rewrite !imap_cons. cbn [mjoin list_join]. rewrite Hfg.
      cbn. f_equal. apply IH. intros i q. apply Hfg. }
    apply Hgen. intros i p. by rewrite lookup_empty.
Qed.

Lemma cycleReadings_forget tsClient now readings1 readings2 status :
  tailscale.Client_Status tsClient = Ok status ->
  cycleReadings tsClient now readings1 = cycleReadings tsClient now readings2.
Proof.
  intros Hs.
  destruct (calculatePeerBandwidth_spec tsClient now readings1 status Hs)
    as (r1 & b1 & e1 & Hc1 & _ & Hlast1 & Hout1 & _).
  destruct (calculatePeerBandwidth_spec tsClient now readings2 status Hs)
    as (r2 & b2 & e2 & Hc2 & _ & Hlast2 & Hout2 & _).
  destruct (cycleReports_Ok _ _ _ _ _ _ Hc1) as [_ ->].
  destruct (cycleReports_Ok _ _ _ _ _ _ Hc2) as [_ ->].
  apply map_eq. intros k.
  destruct (decide (k ∈ keysOf (tailscale.Peers status))) as [Hin | Hnin].
  - destruct (lastOf_exists _ k Hin) as [i Hi].
    by rewrite (Hlast1 i k Hi), (Hlast2 i k Hi).
  - destruct (Hout1 k Hnin) as [-> _]. by destruct (Hout2 k Hnin) as [-> _].
Qed.

(** X4. The cache a successful cycle leaves is made of the readings of that
    cycle only: whatever the cache held before, it is the same after, and
    every reading in it carries the time of the cycle. *)
Theorem X4_cache_after_cycle_forgets_the_past
    (tsClient : tailscale.Client) (now : time.Time)
    (readings1 readings2 : gmap string PeerReading)
    (status : tailscale.Status) :
  tailscale.Client_Status tsClient = Ok status ->
  cycleReadings tsClient now readings1 = cycleReadings tsClient now readings2
  /\
  forall k r, cycleReadings tsClient now readings1 !! k = Some r ->
              LastChecked r = now.
Proof.
  intros Hs. split; [by apply (cycleReadings_forget _ _ _ _ status) |].
  intros k r.
  destruct (calculatePeerBandwidth_spec tsClient now readings1 status Hs)
    as (r1 & b1 & e1 & Hc1 & _ & Hlast1 & Hout1 & _).
  destruct (cycleReports_Ok _ _ _ _ _ _ Hc1) as [_ ->].
  destruct (decide (k ∈ keysOf (tailscale.Peers status))) as [Hin | Hnin].
  - destruct (lastOf_exists _ k Hin) as [i Hi].
    rewrite (Hlast1 i k Hi). by intros [= <-].
  - by destruct (Hout1 k Hnin) as [-> _].
Qed.

(** X5. A peer that was not in the snapshot of one cycle and is in the
    snapshot of the next is measured anew: the clean-up of the first cycle
    dropped its reading, so the second cycle reports zero for it, whatever
    its counters are and whatever the cache held for it before. So it is
    for every peer after a cycle in which the [tailscale] command
    failed. *)
Theorem X5_returning_peer_starts_from_zero
    (tsClient1 tsClient2 : tailscale.Client) (now1 now2 : time.Time)
    (readings : gmap string PeerReading)
    (status1 status2 : tailscale.Status) (i : nat) (k : string) :
  tailscale.Client_Status tsClient1 = Ok status1 ->
  k ∉ keysOf (tailscale.Peers status1) ->
  tailscale.Client_Status tsClient2 = Ok status2 ->
  firstOf (tailscale.Peers status2) i k ->
  reportsFor k
    (cycleReports tsClient2 now2 (cycleReadings tsClient1 now1 readings))
  = [zeroReport k].
Proof.
  intros Hs1 Hk Hs2 Hf.
  destruct (calculatePeerBandwidth_spec tsClient1 now1 readings status1 Hs1)
    as (r1 & b1 & e1 & Hc1 & _ & _ & Hout1 & _).
  destruct (cycleReports_Ok _ _ _ _ _ _ Hc1) as [_ ->].
  destruct (Hout1 k Hk) as [Hnone _].
  destruct (calculatePeerBandwidth_spec tsClient2 now2 r1 status2 Hs2)
    as (r2 & b2 & e2 & Hc2 & Hfirst2 & _).
  destruct (cycleReports_Ok _ _ _ _ _ _ Hc2) as [-> _].
  by rewrite (Hfirst2 i k Hf), Hnone.
Qed.

(** X6. A cycle run again at the same reading of the clock reports
    nothing and leaves the cache as it is: every peer was read at that
    time, and a report needs the clock to have advanced. *)
Theorem X6_cycle_at_same_instant_reports_nothing
    (tsClient : tailscale.Client) (now : time.Time)
    (readings : gmap string PeerReading) (status : tailscale.Status) :
  tailscale.Client_Status tsClient = Ok status ->
  cycleReports tsClient now (cycleReadings tsClient now readings) = [] /\
  cycleReadings tsClient now (cycleReadings tsClient now readings)
  = cycleReadings tsClient now readings.
Proof.
  intros Hs. split; [| by apply (cycleReadings_forget _ _ _ _ status)].
  set (cache := cycleReadings tsClient now readings).
  destruct (calculatePeerBandwidth_spec tsClient now readings status Hs)
    as (r1 & b1 & e1 & Hc1 & _ & Hlast1 & _).
  destruct (cycleReports_Ok _ _ _ _ _ _ Hc1) as [_ Hcache]. fold cache in Hcache.
  destruct (calculatePeerBandwidth_spec tsClient now cache status Hs)
    as (r2 & b2 & e2 & Hc2 & Hfirst2 & _ & Hout2 & _).
  destruct (cycleReports_Ok _ _ _ _ _ _ Hc2) as [-> _].
  destruct b2 as [| r b2]; [done |]. exfalso.
  assert (Hr : r ∈ reportsFor (PublicKey r) (r :: b2))
    by (apply reportsFor_elem; split; [by left | done]).
  destruct (decide (PublicKey r ∈ keysOf (tailscale.Peers status)))
    as [Hin | Hnin].
  - destruct (firstOf_exists _ _ Hin) as [i Hi].
    destruct (lastOf_exists _ _ Hin) as [j Hj].
    rewrite (Hfirst2 i _ Hi), Hcache, (Hlast1 j _ Hj) in Hr.
    unfold emitted in Hr. cbn [LastChecked currentReading] in Hr.
    rewrite bool_decide_eq_false_2 in Hr by lia.
    by apply elem_of_nil in Hr.
  - destruct (Hout2 _ Hnin) as [_ Hnone]. rewrite Hnone in Hr.
    by apply elem_of_nil in Hr.
Qed.

(** X7. A traffic query that fails, or whose output does not parse, is read
    as the counters [(0, 0)]: for a cached peer with counters that are not
    negative the cycle then reports zero traffic, and caches [(0, 0)] as the
    reading of the peer, so that the next cycle measures from zero. *)
Theorem X7_failed_traffic_query_reads_as_zero
    (tsClient : tailscale.Client) (now : time.Time)
    (readings : gmap string PeerReading) (status : tailscale.Status)
    (i : nat) (k : string) (prior : PeerReading) :
  tailscale.Client_Status tsClient = Ok status ->
  firstOf (tailscale.Peers status) i k ->
  lastOf (tailscale.Peers status) i k ->
  (forall rawStatus,
     tailscale.TrafficOutput tsClient i <> tailscale.Parsed rawStatus) ->
  readings !! k = Some prior ->
  LastChecked prior < now ->
  0 <= BytesReceived prior <= Int64.max_int64 ->
  0 <= BytesTransmitted prior <= Int64.max_int64 ->
  reportsFor k (cycleReports tsClient now readings) = [zeroReport k] /\
  cycleReadings tsClient now readings !! k
  = Some {| BytesReceived := 0; BytesTransmitted := 0; LastChecked := now |}.
Proof.
  intros Hs Hf Hl Hfail Hp Hlt Hrx Htx.
  assert (Ht : tailscale.GetPeerTraffic tsClient i k = (0, 0)).
  { unfold tailscale.GetPeerTraffic.
    destruct (tailscale.TrafficOutput tsClient i) as [e | e | rawStatus];
      [done | done |]. by destruct (Hfail rawStatus). }
  destruct (calculatePeerBandwidth_spec tsClient now readings status Hs)
    as (readings' & bandwidths & effs & Hc & Hfirst & Hlast & _).
  destruct (cycleReports_Ok _ _ _ _ _ _ Hc) as [-> ->].
  rewrite (Hfirst i k Hf), (Hlast i k Hl), Hp.
  rewrite (currentReading_eq _ _ _ _ _ _ Ht). split; [| done].
  unfold emitted. cbn [LastChecked]. rewrite bool_decide_eq_true_2 by done.
  f_equal. unfold deltaReport, zeroReport. cbn [BytesReceived BytesTransmitted].
  assert (Hzero : forall p, 0 <= p <= Int64.max_int64 ->
            (let d := F64.of_int (Int64.sub 0 p) in
             if F64.ltb d F64.zero then F64.of_int 0 else d) = F64.of_int 0).
  { intros p Hp0. destruct (decide (p = 0)) as [-> | Hne]; [done |].
    apply diff_reset. revert Hp0. unfold Int64.min_int64, Int64.max_int64.
    lia. }
  cbv zeta in Hzero. by rewrite !Hzero by done.
Qed.

(** ** No report is infinite or NaN *)

Module F64Finite.
Import F64 F64Facts.

Lemma Zdigits2_gt (m : Z) : 0 <= m -> m < 2 ^ Zdigits2 m.
Proof.
  intros Hm. destruct m as [| p | p]; [reflexivity | | lia].
  cbn [Zdigits2]. rewrite digits2_size.
  pose proof (Pos.size_gt p) as Hgt.
  apply Pos2Z.pos_lt_pos in Hgt. by rewrite Pos2Z.inj_pow in Hgt.
Qed.

Lemma Zdigits2_le (m k : Z) : 0 <= m -> 0 <= k -> m < 2 ^ k -> Zdigits2 m <= k.
Proof.
  intros Hm Hk Hlt. destruct m as [| p | p]; [cbn; lia | | lia].
  cbn [Zdigits2]. rewrite digits2_size.
  pose proof (Pos.size_le p) as Hle.
  apply Pos2Z.pos_le_pos in Hle. rewrite Pos2Z.inj_pow in Hle.
  destruct (Z_le_gt_dec (Z.pos (Pos.size p)) k) as [| Hgt]; [assumption |].
  exfalso.
  assert (2 ^ (k + 1) <= 2 ^ Z.pos (Pos.size p))
    by (apply Z.pow_le_mono_r; lia).
  rewrite Z.pow_add_r in H by lia. lia.
Qed.

Lemma Zdigits2_mono (m n : Z) : 0 <= m <= n -> Zdigits2 m <= Zdigits2 n.
Proof.
  intros [Hm Hn]. apply Zdigits2_le; [lia | apply Zdigits2_nonneg |].
  pose proof (Zdigits2_gt n ltac:(lia)). lia.
Qed.

Lemma Zdigits2_succ (m : Z) : 0 <= m -> Zdigits2 (m + 1) <= Zdigits2 m + 1.
Proof.
  intros Hm. pose proof (Zdigits2_nonneg m) as Hd.
  apply Zdigits2_le; [lia | lia |].
  pose proof (Zdigits2_gt m Hm). rewrite Z.pow_add_r by lia. lia.
Qed.

Lemma shr_1_zero (r : shr_record) : shr_m r = 0 -> shr_m (shr_1 r) = 0.
Proof. destruct r as [m r s]; cbn [shr_m]. by intros ->. Qed.

Lemma shr_iter_digits_max (n : nat) (r : shr_record) :
  0 <= shr_m r ->
  Zdigits2 (shr_m (Nat.iter n shr_1 r))
  = Z.max 0 (Zdigits2 (shr_m r) - Z.of_nat n).
Proof.
  intros H0. pose proof (Zdigits2_nonneg (shr_m r)) as Hd.
  induction n as [| n IH].
  { change (Nat.iter 0 shr_1 r) with r. lia. }
  rewrite Nat.iter_succ.
  pose proof (shr_iter_nonneg n r H0) as Hn.
  destruct (Z.eq_dec (shr_m (Nat.iter n shr_1 r)) 0) as [Hz | Hnz].
  - rewrite shr_1_zero by done. rewrite Hz in IH. cbn in IH |- *. lia.
  - rewrite shr_1_digits by lia. rewrite IH.
    assert (0 < Zdigits2 (shr_m (Nat.iter n shr_1 r)))
      by (apply Zdigits2_pos; lia).
    lia.
Qed.

(** The exponent after a shift, and how far the mantissa then reaches. *)
Lemma shr_fexp_bounds (m e : Z) (l : location) :
  0 <= m ->
  0 <= shr_m (shr_fexp prec emax m e l).1 /\
  (shr_fexp prec emax m e l).2
  = Z.max e (fexp prec emax (Zdigits2 m + e)) /\
  Zdigits2 (shr_m (shr_fexp prec emax m e l).1) + (shr_fexp prec emax m e l).2
  <= Z.max (Zdigits2 m + e) (shr_fexp prec emax m e l).2.
Proof.
  intros Hm. split; [by apply shr_fexp_nonneg |].
  unfold shr_fexp, shr.
  destruct (fexp prec emax (Zdigits2 m + e) - e) as [| p | p] eqn:Hs;
    cbn [fst snd]; rewrite ?shr_m_of_loc; try (split; lia).
  rewrite iter_pos_nat, shr_iter_digits_max by (by rewrite shr_m_of_loc).
  rewrite shr_m_of_loc, positive_nat_Z. split; lia.
Qed.

(** Rounding a mantissa that does not reach beyond [2^k] gives zero or a
    finite number that does not reach beyond [2^(k+1)]. *)
Lemma binary_round_aux_finite (s : bool) (m e k : Z) (l : location) :
  0 <= m -> -1021 <= k <= 1023 -> Zdigits2 m + e <= k -> e <= k - 53 ->
  match binary_round_aux prec emax s m e l with
  | S754_zero _ => True
  | S754_finite _ m' e' => e' <= k - 52 /\ Zdigits2 (Z.pos m') + e' <= k + 1
  | _ => False
  end.
Proof.
  intros Hm Hk Hd He. unfold binary_round_aux.
  destruct (shr_fexp_bounds m e l Hm) as (H1 & He1 & Hd1).
  destruct (shr_fexp prec emax m e l) as [mrs' e']; cbn [fst snd] in *.
  pose proof (round_nearest_even_bounds (shr_m mrs')
                (loc_of_shr_record mrs')) as Hr.
  set (m1 := round_nearest_even (shr_m mrs') (loc_of_shr_record mrs')) in *.
  assert (Hm1 : 0 <= m1) by lia.
  assert (Hdm1 : Zdigits2 m1 <= Zdigits2 (shr_m mrs') + 1).
  { pose proof (Zdigits2_mono m1 (shr_m mrs' + 1) ltac:(lia)).
    pose proof (Zdigits2_succ (shr_m mrs') H1). lia. }
  destruct (shr_fexp_bounds m1 e' loc_Exact Hm1) as (H2 & He2 & Hd2).
  destruct (shr_fexp prec emax m1 e' loc_Exact) as [mrs'' e''];
    cbn [fst snd] in *.
  assert (Hb1 : e' <= k - 53)
    by (revert He1; unfold fexp, emin, prec, emax; lia).
  assert (Hb2 : e'' <= k - 52)
    by (revert He2; unfold fexp, emin, prec, emax; lia).
  destruct (shr_m mrs'') as [| m'' | m'']; [done | | lia].
  destruct (Z.leb_spec e'' (emax - prec)) as [_ | Hover];
    [| unfold emax, prec in Hover; lia].
  split; lia.
Qed.

Lemma binary_round_finite (s : bool) (p : positive) :
  Z.pos p < 2 ^ 64 ->
  match binary_round prec emax s p 0 with
  | S754_zero _ => True
  | S754_finite _ m' e' => e' <= 12 /\ Zdigits2 (Z.pos m') + e' <= 65
  | _ => False
  end.
Proof.
  intros Hp.
  assert (Hd : Zdigits2 (Z.pos p) <= 64) by (apply Zdigits2_le; lia).
  pose proof (Zdigits2_pos (Z.pos p) ltac:(lia)) as Hd0.
  cbn [Zdigits2] in Hd, Hd0.
  unfold binary_round, shl_align.
  destruct (fexp prec emax (Z.pos (digits2_pos p) + 0) - 0) as [| d | d] eqn:Hs.
  - apply (binary_round_aux_finite s (Z.pos p) 0 64); cbn [Zdigits2]; lia.
  - apply (binary_round_aux_finite s (Z.pos p) 0 64); cbn [Zdigits2]; lia.
  - apply (binary_round_aux_finite s _ _ 64); [lia | lia | |].
    + cbn [Zdigits2]. rewrite digits2_iter_xO.
      revert Hs. unfold fexp, emin, prec, emax. lia.
    + revert Hs. unfold fexp, emin, prec, emax. lia.
Qed.

(** [float64(n)] of an [int64] is zero or finite, of exponent 12 at most. *)
Lemma of_int_finite (n : Z) :
  Int64.min_int64 <= n <= Int64.max_int64 ->
  match of_int n with
  | S754_zero _ => True
  | S754_finite _ m' e' => e' <= 12 /\ Zdigits2 (Z.pos m') + e' <= 65
  | _ => False
  end.
Proof.
  unfold Int64.min_int64, Int64.max_int64. intros Hn.
  destruct n as [| p | p]; [done | |]; unfold of_int, binary_normalize;
    apply binary_round_finite; lia.
Qed.

Lemma div_MB_finite (x : float64) :
  match x with
  | S754_zero _ => True
  | S754_finite _ m e => e <= 12 /\ Zdigits2 (Z.pos m) + e <= 65
  | _ => False
  end ->
  is_finite (div x MB) = true.
Proof.
  change MB with (S754_finite false 4503599627370496 (-32)).
  destruct x as [s | s | | s m e]; try done. intros [He Hd].
  unfold div, SFdiv, SFdiv_core_binary.
  change (Zdigits2 4503599627370496) with 53.
  set (d1 := Zdigits2 (Z.pos m)) in *.
  pose proof (Zdigits2_pos (Z.pos m) ltac:(lia)) as Hd1. fold d1 in Hd1.
  set (e' := Z.min (fexp prec emax (d1 + e - (53 + -32))) (e - -32)).
  assert (He' : e' <= e + 32) by (unfold e'; lia).
  cbv zeta.
  set (m' := match e - -32 - e' with
             | 0 => Z.pos m
             | Z.pos _ => Z.shiftl (Z.pos m) (e - -32 - e')
             | Z.neg _ => 0
             end).
  assert (Hm' : 0 <= m' < 2 ^ (d1 + (e + 32 - e'))).
  { pose proof (Zdigits2_gt (Z.pos m) ltac:(lia)) as Hgt. fold d1 in Hgt.
    unfold m'. destruct (e - -32 - e') as [| sh | sh] eqn:Hsh; [| | lia].
    - replace (e + 32 - e') with 0 by lia. rewrite Z.add_0_r. lia.
    - rewrite Z.shiftl_mul_pow2 by lia.
      replace (e + 32 - e') with (Z.pos sh) by lia.
      rewrite Z.pow_add_r by lia. nia. }
  pose proof (Z_div_mod m' 4503599627370496 ltac:(lia)) as Hq.
  destruct (Z.div_eucl m' 4503599627370496) as [q r].
  assert (Hq0 : 0 <= q <= m') by nia.
  pose proof (binary_round_aux_finite (xorb s false) q e' 200
                (new_location 4503599627370496 r)
                ltac:(lia) ltac:(lia)) as Hfin.
  assert (Hdq : Zdigits2 q <= d1 + (e + 32 - e')).
  { apply Zdigits2_le; lia. }
  specialize (Hfin ltac:(lia) ltac:(lia)).
  by destruct (binary_round_aux prec emax (xorb s false) q e' _).
Qed.

Lemma wrap_in_range (z : Z) :
  Int64.min_int64 <= Int64.wrap z <= Int64.max_int64.
Proof.
  unfold Int64.wrap, Int64.min_int64, Int64.max_int64.
  pose proof (Z.mod_pos_bound (z + 2 ^ 63) (2 ^ 64) ltac:(lia)). lia.
Qed.

Lemma to_int64_in_range (x : float64) :
  Int64.min_int64 <= to_int64 x <= Int64.max_int64.
Proof.
  assert (Hmin : Int64.min_int64 <= Int64.min_int64 <= Int64.max_int64)
    by (unfold Int64.min_int64, Int64.max_int64; lia).
  assert (H0 : Int64.min_int64 <= 0 <= Int64.max_int64)
    by (unfold Int64.min_int64, Int64.max_int64; lia).
  destruct x as [s | s | | s m e]; cbn [to_int64]; try done.
  cbv zeta.
  set (z := if s then _ else _).
  destruct (Z.leb_spec Int64.min_int64 z); [| done].
  destruct (Z.leb_spec z Int64.max_int64); [| done].
  cbn [andb]. lia.
Qed.

End F64Finite.

Lemma counter_in_range peer name :
  Int64.min_int64 <= tailscale.counter peer name <= Int64.max_int64.
Proof.
  unfold tailscale.counter.
  destruct (json.asNumber (json.index peer name)) as [n |].
  - apply F64Finite.to_int64_in_range.
  - unfold Int64.min_int64, Int64.max_int64; lia.
Qed.

Lemma findTraffic_in_range members k rx tx :
  tailscale.findTraffic members k = Some (rx, tx) ->
  (Int64.min_int64 <= rx <= Int64.max_int64) /\
  (Int64.min_int64 <= tx <= Int64.max_int64).
Proof.
  induction members as [| [name peerData] rest IH]; [done |].
  cbn [tailscale.findTraffic].
  destruct (json.asObject peerData) as [peer |]; [| done].
  destruct (json.asString (json.index peer "PublicKey")) as [pubKey |];
    [| done].
  destruct (String.eqb pubKey k); [| done].
  intros [= <- <-]. split; apply counter_in_range.
Qed.

Lemma GetPeerTraffic_in_range tsClient n k :
  (Int64.min_int64 <= (tailscale.GetPeerTraffic tsClient n k).1
   <= Int64.max_int64) /\
  (Int64.min_int64 <= (tailscale.GetPeerTraffic tsClient n k).2
   <= Int64.max_int64).
Proof.
  assert (H0 : Int64.min_int64 <= 0 <= Int64.max_int64)
    by (unfold Int64.min_int64, Int64.max_int64; lia).
  unfold tailscale.GetPeerTraffic.
  destruct (tailscale.TrafficOutput tsClient n) as [e | e | rawStatus];
    [done | done |].
  destruct (json.asObject (json.index rawStatus "Peer")) as [members |];
    [| done].
  destruct (tailscale.findTraffic members k) as [[rx tx] |] eqn:Hf; [| done].
  by apply (findTraffic_in_range members k).
Qed.

Lemma deltaReport_finite k current last :
  Int64.min_int64 <= BytesReceived current <= Int64.max_int64 ->
  Int64.min_int64 <= BytesTransmitted current <= Int64.max_int64 ->
  F64.is_finite (BytesIn (deltaReport k current last)) = true /\
  F64.is_finite (BytesOut (deltaReport k current last)) = true.
Proof.
  intros Hrx Htx. unfold deltaReport. cbn [BytesIn BytesOut].
  split; apply F64Finite.div_MB_finite;
    match goal with |- context [if ?b then _ else _] => destruct b end;
    apply F64Finite.of_int_finite; try done; apply F64Finite.wrap_in_range.
Qed.

Lemma cycleReports_finite tsClient now readings :
  Forall (fun r => F64.is_finite (BytesIn r) = true /\
                   F64.is_finite (BytesOut r) = true)
         (cycleReports tsClient now readings).
Proof.
  unfold cycleReports, calculatePeerBandwidth.
  destruct (tailscale.Client_Status tsClient) as [status | e];
    cbn [fst snd]; [| constructor].
  apply peerLoop_Forall; [| constructor].
  intros i p Hp. cbv zeta. split; [done |]. intros last.
  destruct (GetPeerTraffic_in_range tsClient (0 + i)
              (tailscale.PublicKey p)) as [Hrx Htx].
  by apply deltaReport_finite.
Qed.

Lemma cycleReports_marshal tsClient now readings :
  json_Marshal (cycleReports tsClient now readings)
  = Ok (BandwidthJSON (cycleReports tsClient now readings)).
Proof.
  unfold json_Marshal.
  assert (Hall : forallb (fun r => F64.is_finite (BytesIn r)
                                   && F64.is_finite (BytesOut r))
                   (cycleReports tsClient now readings) = true).
  { induction (cycleReports_finite tsClient now readings)
      as [| r l [Hi Ho] _ IH]; cbn; [done |].
    by rewrite Hi, Ho, IH. }
  by rewrite Hall.
Qed.

(** The tick of the reporter, with the encoding that cannot fail left
    out. *)
Lemma reportPeerBandwidth_eq apiURL tsClient now post readings :
  reportPeerBandwidth apiURL tsClient now post readings
  = match tailscale.Client_Status tsClient with
    | Err e =>
        (readings,
         Some ("failed to calculate peer bandwidth: "
               +:+ "failed to get Tailscale status: " +:+ e),
         [CmdStatus])
    | Ok _ =>
        (cycleReadings tsClient now readings,
         match post with
         | Err e => Some ("failed to send bandwidth data: " +:+ e)
         | Ok resp =>
             if decide (http.StatusCode resp = StatusOK) then None
             else Some ("API returned non-OK status: " +:+ http.Status resp)
         end,
         cycleEffects tsClient now readings
           ++ [HttpPost apiURL
                 (BandwidthJSON (cycleReports tsClient now readings))])
    end.
Proof.
  pose proof (cycleReports_marshal tsClient now readings) as Hm.
  unfold reportPeerBandwidth, cycleReports, cycleReadings, cycleEffects in *.
  unfold calculatePeerBandwidth in *.
  destruct (tailscale.Client_Status tsClient) as [status | e];
    cbn [fst snd] in *; [| done].
  rewrite Hm. by destruct post as [code | e]; [case_decide |].
Qed.

(** X8. Every report of every cycle is a finite number, neither infinite
    nor NaN, whatever the status output and the cache hold: so the encoding
    of the reports as JSON cannot fail, and the reporter never returns the
    error it has for that failure. *)
Theorem X8_reports_are_finite
    (tsClient : tailscale.Client) (now : time.Time)
    (readings : gmap string PeerReading) :
  Forall (fun r => F64.is_finite (BytesIn r) = true /\
                   F64.is_finite (BytesOut r) = true)
         (cycleReports tsClient now readings) /\
  json_Marshal (cycleReports tsClient now readings)
  = Ok (BandwidthJSON (cycleReports tsClient now readings)) /\
  forall apiURL post e,
    (reportPeerBandwidth apiURL tsClient now post readings).1.2
    <> Some ("failed to marshal bandwidth data: " +:+ e).
Proof.
  split; [apply cycleReports_finite |].
  split; [apply cycleReports_marshal |].
  intros apiURL post e. rewrite reportPeerBandwidth_eq.
  destruct (tailscale.Client_Status tsClient) as [status | e'];
    cbn [fst snd]; [| done].
  by destruct post as [code | e'']; [case_decide |].
Qed.

(** ** The reporter *)

Lemma postedTo_app url l1 l2 :
  postedTo url (l1 ++ l2) = postedTo url l1 ++ postedTo url l2.
Proof. unfold postedTo. apply omap_app. Qed.

Lemma postedTo_commands url (keys : list string) :
  postedTo url (CmdStatus :: (CmdPeerTraffic <$> keys)) = [].
Proof.
  unfold postedTo. cbn. induction keys as [| k keys IH]; [done | by cbn].
Qed.

Lemma cycleEffects_post_nothing url tsClient now readings :
  postedTo url (cycleEffects tsClient now readings) = [].
Proof.
  unfold cycleEffects, calculatePeerBandwidth.
  destruct (tailscale.Client_Status tsClient) as [status | e]; [| done].
  cbn [snd]. rewrite peerLoop_effects. cbn [effects app].
  apply postedTo_commands.
Qed.

Lemma reportPeerBandwidth_posted apiURL tsClient now post readings :
  postedTo apiURL (reportPeerBandwidth apiURL tsClient now post readings).2
  = match tailscale.Client_Status tsClient with
    | Ok _ => [BandwidthJSON (cycleReports tsClient now readings)]
    | Err _ => []
    end /\
  (reportPeerBandwidth apiURL tsClient now post readings).1.1
  = cycleReadings tsClient now readings.
Proof.
  rewrite reportPeerBandwidth_eq.
  destruct (tailscale.Client_Status tsClient) as [status | e] eqn:Hs;
    cbn [fst snd].
  - rewrite postedTo_app, cycleEffects_post_nothing. cbn.
    by rewrite decide_True.
  - by destruct (cycle_of_error tsClient now readings e Hs) as [_ ->].
Qed.

(** X9. One tick of the reporter returns no error exactly when the
    snapshot query succeeded and the endpoint answered 200. When the
    snapshot query succeeded it posts to the endpoint once, the reports of
    the cycle, also when there is none to report; when the query failed it
    posts nothing. It leaves the cache of the cycle whatever became of the
    POST. *)
Theorem X9_tick_succeeds_only_on_200
    (apiURL : string) (tsClient : tailscale.Client) (now : time.Time)
    (post : result http.Response) (readings : gmap string PeerReading) :
  let '(readings', err, effs) :=
    reportPeerBandwidth apiURL tsClient now post readings in
  (err = None <->
     (exists status, tailscale.Client_Status tsClient = Ok status) /\
     exists resp, post = Ok resp /\ http.StatusCode resp = StatusOK) /\
  postedTo apiURL effs
  = match tailscale.Client_Status tsClient with
    | Ok _ => [BandwidthJSON (cycleReports tsClient now readings)]
    | Err _ => []
    end /\
  readings' = cycleReadings tsClient now readings.
Proof.
  pose proof (reportPeerBandwidth_posted apiURL tsClient now post readings)
    as [Hposted Hreadings].
  rewrite reportPeerBandwidth_eq in *.
  destruct (tailscale.Client_Status tsClient) as [status | e];
    cbn [fst snd] in *.
  - split; [| done].
    destruct post as [resp | e]; [case_decide as Hcode |].
    + split; eauto.
    + split; [done | by intros [_ (? & [= <-] & ?)]].
    + split; [done | by intros [_ (? & [=] & _)]].
  - split; [| done]. split; [done | by intros [[? [=]] _]].
Qed.

(** X10. The reporter loop goes through every tick whatever the ticks before
    returned, and the cache it works on is that of the successive cycles
    alone: the outcome of a POST has no part in it. The reports it posts
    are, in order, the reports of these cycles, each posted once: a report
    that was not delivered is not sent again. *)
Theorem X10_reporter_posts_each_report_once
    (endpoint : string) (ticks : list Tick)
    (readings : gmap string PeerReading) :
  let '(final, logged, effs) :=
    periodicBandwidthCheck endpoint ticks readings in
  let cycles := (fun tick => (tickClient tick, tickNow tick)) <$> ticks in
  final = (runCycles cycles readings).1 /\
  reportsOf (postedTo endpoint effs) = (runCycles cycles readings).2 /\
  (length (postedTo endpoint effs) <= length ticks)%nat /\
  (length logged <= length ticks)%nat.
Proof.
  revert readings. induction ticks as [| tick rest IH]; intros readings.
  { cbn. repeat split; lia. }
  cbn [periodicBandwidthCheck fmap list_fmap runCycles].
  pose proof (reportPeerBandwidth_posted endpoint (tickClient tick)
                (tickNow tick) (tickPost tick) readings)
    as [Hposted Hreadings].
  destruct (reportPeerBandwidth endpoint (tickClient tick) (tickNow tick)
              (tickPost tick) readings) as [[readings' err] effs].
  cbn [fst snd] in Hposted, Hreadings. subst readings'.
  specialize (IH (cycleReadings (tickClient tick) (tickNow tick) readings)).
  destruct (periodicBandwidthCheck endpoint rest _)
    as [[final logged] effs'].
  cbv zeta in IH. destruct IH as (Hfinal & Hreports & Hposts & Hlogged).
  cbv zeta.
  destruct (runCycles _ (cycleReadings _ _ readings)) as [final' reports].
  cbn [fst snd length] in *. split; [done |].
  rewrite postedTo_app, Hposted. unfold reportsOf in *.
  rewrite flat_map_app, Hreports, length_app.
  destruct (tailscale.Client_Status (tickClient tick)) as [status | e] eqn:Hs.
  - cbn. rewrite app_nil_r. split; [done |].
    split; [lia | destruct err; cbn [length]; lia].
  - destruct (cycle_of_error _ (tickNow tick) readings e Hs) as [-> _].
    cbn. split; [done |]. split; [lia | destruct err; cbn [length]; lia].
Qed.

(** ** The traffic query, the snapshot and the handlers *)

Lemma findTraffic_absent members k :
  k ∉ keysOf (omap (fun peerData =>
                      tailscale.peerInfo <$> json.asObject peerData.2)
                   members) ->
  tailscale.findTraffic members k = None.
Proof.
  induction members as [| [name peerData] rest IH]; intros Hk; [done |].
  cbn [omap list_omap tailscale.findTraffic snd] in *.
  destruct (json.asObject peerData) as [peer |];
    cbn [fmap option_fmap option_map] in *; [| by apply IH].
  unfold keysOf in Hk. rewrite fmap_cons in Hk.
  apply not_elem_of_cons in Hk as [Hne Hk]. cbn in Hne.
  destruct (json.asString (json.index peer "PublicKey")) as [pubKey |];
    [| by apply IH].
  cbn in Hne. destruct (String.eqb_spec pubKey k); [done | by apply IH].
Qed.

Lemma asObject_Some v peer :
  json.asObject v = Some peer -> v = json.Object peer.
Proof. destruct v; cbn; congruence. Qed.

(** The peers of a snapshot are the entries of the map that are objects. *)
Lemma elem_of_snapshot_peers (members : list (string * json.Value))
    (p : tailscale.PeerInfo) :
  p ∈ omap (fun peerData => tailscale.peerInfo <$> json.asObject peerData.2)
           members <->
  exists name peer,
    (name, json.Object peer) ∈ members /\ p = tailscale.peerInfo peer.
Proof.
  rewrite list_elem_of_omap. split.
  - intros [[name peerData] [Hin Hp]]. cbn [snd] in Hp.
    destruct (json.asObject peerData) as [peer |] eqn:Hobj; [| done].
    apply asObject_Some in Hobj as ->. cbn in Hp. injection Hp as <-.
    by exists name, peer.
  - intros (name & peer & Hin & ->). by exists (name, json.Object peer).
Qed.

(** What the loop of [GetPeerTraffic] returns was read off an entry that is
    an object with the key asked for. *)
Lemma findTraffic_Some members k c :
  tailscale.findTraffic members k = Some c ->
  exists name peer,
    (name, json.Object peer) ∈ members /\
    json.asString (json.index peer "PublicKey") = Some k /\
    c = (tailscale.counter peer "RxBytes", tailscale.counter peer "TxBytes").
Proof.
  induction members as [| [name peerData] rest IH]; intros Hf; [done |].
  cbn [tailscale.findTraffic] in Hf.
  assert (Hrest : tailscale.findTraffic rest k = Some c ->
                  exists name' peer,
                    (name', json.Object peer) ∈ (name, peerData) :: rest /\
                    json.asString (json.index peer "PublicKey") = Some k /\
                    c = (tailscale.counter peer "RxBytes",
                         tailscale.counter peer "TxBytes")).
  { intros Hr. destruct (IH Hr) as (name' & peer & Hin & Hpk & Hc).
    exists name', peer. split; [by right | done]. }
  destruct (json.asObject peerData) as [peer |] eqn:Hobj; [| by apply Hrest].
  apply asObject_Some in Hobj as ->.
  destruct (json.asString (json.index peer "PublicKey")) as [pubKey |] eqn:Hpk;
    [| by apply Hrest].
  destruct (String.eqb_spec pubKey k) as [-> |]; [| by apply Hrest].
  injection Hf as <-. exists name, peer. split; [by left | done].
Qed.

(** The loop finds something as soon as one entry is an object with the key
    asked for, wherever that entry stands. *)
Lemma findTraffic_is_Some members k name peer :
  (name, json.Object peer) ∈ members ->
  json.asString (json.index peer "PublicKey") = Some k ->
  is_Some (tailscale.findTraffic members k).
Proof.
  intros Hin Hpk.
  induction members as [| [name' peerData] rest IH];
    [by apply elem_of_nil in Hin |].
  cbn [tailscale.findTraffic].
  apply elem_of_cons in Hin as [Heq | Hin].
  - injection Heq as <- <-. cbn [json.asObject]. rewrite Hpk, String.eqb_refl.
    by eexists.
  - destruct (json.asObject peerData) as [peer' |]; [| by apply IH].
    destruct (json.asString (json.index peer' "PublicKey")) as [pubKey |];
      [| by apply IH].
    destruct (String.eqb pubKey k); [by eexists | by apply IH].
Qed.

Lemma NoDup_fmap_eq {A B : Type} (f : A -> B) (l : list A) (x y : A) :
  NoDup (f <$> l) -> x ∈ l -> y ∈ l -> f x = f y -> x = y.
Proof.
  induction l as [| a l IH]; intros Hnd Hx Hy Hf;
    [by apply elem_of_nil in Hx |].
  rewrite fmap_cons in Hnd. apply NoDup_cons in Hnd as [Ha Hnd].
  apply elem_of_cons in Hx as [-> | Hx]; apply elem_of_cons in Hy as [-> | Hy].
  - done.
  - exfalso. apply Ha. rewrite Hf. by apply list_elem_of_fmap_2.
  - exfalso. apply Ha. rewrite <- Hf. by apply list_elem_of_fmap_2.
  - by apply IH.
Qed.

(** The traffic query, when the map it ranges over holds the entries of the
    map the snapshot was made from, in whatever order: the counters of some
    snapshot peer with the key asked for. *)
Lemma GetPeerTraffic_of_some_peer tsClient n rawStatus rawStatus' status k :
  tailscale.StatusOutput tsClient = tailscale.Parsed rawStatus ->
  tailscale.TrafficOutput tsClient n = tailscale.Parsed rawStatus' ->
  peerEntries rawStatus' ≡ₚ peerEntries rawStatus ->
  tailscale.Client_Status tsClient = Ok status ->
  k ∈ keysOf (tailscale.Peers status) -> k <> "" ->
  exists p,
    p ∈ tailscale.Peers status /\ tailscale.PublicKey p = k /\
    tailscale.GetPeerTraffic tsClient n k
      = (tailscale.RxBytes p, tailscale.TxBytes p).
Proof.
  intros Hso Hto Hperm Hs Hin Hk.
  assert (HP : tailscale.Peers status
               = omap (fun peerData =>
                         tailscale.peerInfo <$> json.asObject peerData.2)
                      (peerEntries rawStatus)).
  { unfold tailscale.Client_Status in Hs. rewrite Hso in Hs.
    injection Hs as <-. cbn [tailscale.Peers]. unfold peerEntries.
    by destruct (json.asObject (json.index rawStatus "Peer")). }
  assert (HG : tailscale.GetPeerTraffic tsClient n k
               = default (0, 0)
                   (tailscale.findTraffic (peerEntries rawStatus') k)).
  { unfold tailscale.GetPeerTraffic. rewrite Hto. unfold peerEntries.
    by destruct (json.asObject (json.index rawStatus' "Peer")). }
  unfold keysOf in Hin. apply list_elem_of_fmap in Hin as (q & Hq & Hqin).
  rewrite HP in Hqin.
  apply elem_of_snapshot_peers in Hqin as (name & peer & Hmem & ->).
  symmetry in Hq. pose proof (peerInfo_PublicKey peer k Hq Hk) as Hpk.
  rewrite <- Hperm in Hmem.
  destruct (findTraffic_is_Some _ k name peer Hmem Hpk) as [c Hc].
  destruct (findTraffic_Some _ k c Hc) as (name' & peer' & Hmem' & Hpk' & ->).
  exists (tailscale.peerInfo peer'). split; [| split].
  - rewrite HP. apply elem_of_snapshot_peers. exists name', peer'.
    by rewrite <- Hperm.
  - cbn. by rewrite Hpk'.
  - by rewrite HG, Hc.
Qed.

(** X11. The traffic query and the snapshot come from two runs of the
    command, each decoded into a map of its own and ranged over in an order
    of its own. When the run made for the traffic of a peer gives the peer
    entries the run made for the snapshot gave, in whatever order, the query
    for a non-empty key of the snapshot gives the counters of a snapshot
    peer with that key; when no key is repeated in the snapshot, it gives
    the counters of the snapshot peer with that key; and for a key that is
    not in the snapshot it gives [(0, 0)]. *)
Theorem X11_traffic_query_agrees_with_snapshot
    (tsClient : tailscale.Client) (n : nat)
    (rawStatus rawStatus' : list (string * json.Value))
    (status : tailscale.Status) (k : string) :
  tailscale.StatusOutput tsClient = tailscale.Parsed rawStatus ->
  tailscale.TrafficOutput tsClient n = tailscale.Parsed rawStatus' ->
  peerEntries rawStatus' ≡ₚ peerEntries rawStatus ->
  tailscale.Client_Status tsClient = Ok status ->
  (k ∈ keysOf (tailscale.Peers status) -> k <> "" ->
   exists p,
     p ∈ tailscale.Peers status /\ tailscale.PublicKey p = k /\
     tailscale.GetPeerTraffic tsClient n k
       = (tailscale.RxBytes p, tailscale.TxBytes p)) /\
  (NoDup (keysOf (tailscale.Peers status)) ->
   forall p,
     p ∈ tailscale.Peers status -> tailscale.PublicKey p = k -> k <> "" ->
     tailscale.GetPeerTraffic tsClient n k
       = (tailscale.RxBytes p, tailscale.TxBytes p)) /\
  (k ∉ keysOf (tailscale.Peers status) ->
   tailscale.GetPeerTraffic tsClient n k = (0, 0)).
Proof.
  intros Hso Hto Hperm Hs. split; [| split].
  - by apply (GetPeerTraffic_of_some_peer tsClient n rawStatus rawStatus').
  - intros Hnd p Hp Hpk Hk.
    assert (Hin : k ∈ keysOf (tailscale.Peers status)).
    { rewrite <- Hpk. by apply list_elem_of_fmap_2. }
    destruct (GetPeerTraffic_of_some_peer tsClient n rawStatus rawStatus'
                status k Hso Hto Hperm Hs Hin Hk) as (q & Hq & Hqk & ->).
    assert (Heq : q = p).
    { apply (NoDup_fmap_eq tailscale.PublicKey (tailscale.Peers status));
        [done | done | done | congruence]. }
    by rewrite Heq.
  - intros Hk. unfold tailscale.Client_Status in Hs. rewrite Hso in Hs.
    injection Hs as <-. cbn [tailscale.Peers] in Hk.
    unfold tailscale.GetPeerTraffic. rewrite Hto.
    destruct (json.asObject (json.index rawStatus' "Peer")) as [members' |]
      eqn:Hobj'; [| done].
    rewrite (findTraffic_absent members' k); [done |].
    intros Hin. apply Hk.
    unfold keysOf in *. apply list_elem_of_fmap in Hin as (q & Hq & Hqin).
    apply elem_of_snapshot_peers in Hqin as (name & peer & Hmem & ->).
    assert (Hmem0 : (name, json.Object peer) ∈ peerEntries rawStatus).
    { rewrite <- Hperm. unfold peerEntries. by rewrite Hobj'. }
    unfold peerEntries in Hmem0.
    destruct (json.asObject (json.index rawStatus "Peer")) as [members |];
      [| by apply elem_of_nil in Hmem0].
    rewrite Hq. apply list_elem_of_fmap_2.
    apply elem_of_snapshot_peers. by exists name, peer.
Qed.

(** X12. A counter below [2^53] bytes that the status output gives as a JSON
    number comes through the decoding into a [float64] and the conversion
    [int64(rx)] unchanged. *)
Theorem X12_counter_survives_float64
    (peer : list (string * json.Value)) (name : string) (n : Z) :
  0 <= n < 2 ^ 53 ->
  json.index peer name = json.Number (F64.of_int n) ->
  tailscale.counter peer name = n.
Proof.
  intros [H0 Hn] Hidx. unfold tailscale.counter. rewrite Hidx.
  cbn [json.asNumber]. destruct n as [| p | p]; [reflexivity | | lia].
  destruct (F64Facts.binary_round_small false p Hn)
    as (m & e & Hr & Hd & He & Hm).
  unfold F64.of_int, binary_normalize. rewrite Hr.
  unfold F64.to_int64.
  assert (Hmag : (if 0 <=? e then Z.pos m * 2 ^ e
                  else Z.pos m / 2 ^ (- e)) = Z.pos p).
  { destruct (Z.leb_spec 0 e).
    - assert (e = 0) as -> by lia. rewrite Hm. cbn. lia.
    - rewrite Hm. apply Z.div_mul. apply Z.pow_nonzero; lia. }
  rewrite Hmag.
  assert (H63 : 2 ^ 53 <= Int64.max_int64) by (vm_compute; discriminate).
  destruct (Z.leb_spec Int64.min_int64 (Z.pos p)) as [_ | Hlo];
    [| revert Hlo; unfold Int64.min_int64; lia].
  destruct (Z.leb_spec (Z.pos p) Int64.max_int64) as [_ | Hhi];
    [reflexivity | lia].
Qed.

Lemma foldl_slice_append {A B} (f : A -> B) (l : list A) (s : option (list B)) :
  foldl (fun s x => slice_append s (f x)) s l
  = match l with
    | [] => s
    | _ => Some (default [] s ++ (f <$> l))
    end.
Proof.
  revert s. induction l as [| x l IH]; intros s; [done |].
  cbn [foldl]. rewrite IH. destruct l as [| y l]; [done |].
  unfold slice_append. cbn. by rewrite <- app_assoc.
Qed.

(** X13. [/peers] answers a snapshot with the views of its peers, one for
    each and in the order of the snapshot; for a snapshot without peers the
    body is the encoding of a nil slice, [null], not [[]]. *)
Theorem X13_peers_lists_the_snapshot
    (tsClient : tailscale.Client) (status : tailscale.Status) :
  tailscale.Client_Status tsClient = Ok status ->
  handleGetPeers tsClient
  = PeersJSON match tailscale.Peers status with
              | [] => None
              | peers => Some (peerView <$> peers)
              end.
Proof.
  intros Hs. unfold handleGetPeers. rewrite Hs. f_equal.
  rewrite (foldl_slice_append peerView). by destruct (tailscale.Peers status).
Qed.

(** X14. [/health] and [/status] go together, whatever the status command
    gives: [/health] answers 200 exactly when [/status] writes its view,
    "Unhealthy" exactly when [/status] answers 500, and "Not logged in"
    exactly when [/status] panics on the nil [Self]. *)
Theorem X14_health_tells_what_status_does (tsClient : tailscale.Client) :
  (handleHealth tsClient = Plain StatusOK "OK" <->
   exists r, handleStatus tsClient = Returns r /\ isSelfStatusView r) /\
  (handleHealth tsClient = http_Error "Unhealthy" StatusServiceUnavailable <->
   exists r, handleStatus tsClient = Returns r /\ isInternalServerError r) /\
  (handleHealth tsClient
     = http_Error "Not logged in" StatusServiceUnavailable <->
   exists reason, handleStatus tsClient = Panics reason).
Proof.
  unfold handleHealth, handleStatus, tailscale.Client_Status.
  destruct (tailscale.StatusOutput tsClient) as [e | e | rawStatus];
    [| | cbn [tailscale.LoggedIn tailscale.Self];
         destruct (json.asObject (json.index rawStatus "Self")) as [self |]];
    cbn; repeat split; try done;
    try (by intros (r & [=] & _)); try (by intros (r & [=]));
    try (by intros (r & [= <-] & [Hcode _]));
    try (by intros (r & [= <-] & Hcode));
    eauto.
  - intros _. eexists. split; [reflexivity |]. reflexivity.
  - intros _. eexists. split; [reflexivity |]. split; [done |]. cbn. eauto 10.
Qed.

(** X15. On [/peer] only GET reaches Tailscale: POST and DELETE are answered
    501 and every other method 405, with the same response whatever the
    state of the node, and GET is answered as [/peers] is. *)
Theorem X15_peer_is_read_only
    (method : string) (tsClient1 tsClient2 : tailscale.Client) :
  method <> "GET" ->
  handlePeer method tsClient1 = handlePeer method tsClient2 /\
  (exists msg code,
     handlePeer method tsClient1 = http_Error msg code /\
     (code = StatusNotImplemented \/ code = StatusMethodNotAllowed) /\
     (code = StatusNotImplemented <-> method = "POST" \/ method = "DELETE")) /\
  handlePeer "GET" tsClient1 = handleGetPeers tsClient1.
Proof.
  intros Hm. unfold handlePeer.
  destruct (String.eqb_spec method "GET") as [| _]; [done |].
  destruct (String.eqb_spec method "POST") as [-> | Hpost].
  { split; [done |]. split; [| done]. eexists _, _. split; [done |].
    split; [by left |]. split; [by left | done]. }
  destruct (String.eqb_spec method "DELETE") as [-> | Hdel].
  { split; [done |]. split; [| done]. eexists _, _. split; [done |].
    split; [by left |]. split; [by right | done]. }
  split; [done |]. split; [| done]. eexists _, _. split; [done |].
  split; [by right |]. split; [done | by intros [|]].
Qed.

(** ** Bringing Tailscale up *)

Lemma ensureTailscale_identity_returns status :
  exists id, ensureTailscale_identity status = Returns id.
Proof.
  unfold ensureTailscale_identity. destruct (tailscale.Self status); eauto.
Qed.

Lemma startTailscaleDaemon_None h :
  ((startTailscaleDaemon h).1 = None <->
   tailscaledStart h = None \/ systemctlRun h = None \/ serviceRun h = None)
  /\ delays (startTailscaleDaemon h).2 = [].
Proof.
  unfold startTailscaleDaemon.
  destruct (tailscaledStart h) as [e1 |];
    [destruct (systemctlRun h) as [e2 |];
       [destruct (serviceRun h) as [e3 |] |] |];
    cbn; (split; [| done]); split; try done; eauto;
    by intros [[=] | [[=] | [=]]].
Qed.

Local Ltac sublist_steps :=
  cbn;
  repeat first [apply sublist_nil | apply sublist_skip | apply sublist_cons].

(** X16. [ensureTailscale] never panics, and it returns no error exactly
    when the daemon was running or one of the three ways to start it
    worked, the first status query gave a status that says logged in or
    else [tailscale up] succeeded, and the status query made to verify gave
    a status: what that last status says (logged in or not, [Self] nil or
    not) has no part in the result. It waits 3 seconds at most once and
    5 seconds at most once, in that order. *)
Theorem X16_ensureTailscale_outcome (config : TailscaleConfig) (h : Host) :
  exists err steps,
    ensureTailscale config h = Returns (err, steps) /\
    (err = None <->
       (probeRun h = None \/ tailscaledStart h = None \/
        systemctlRun h = None \/ serviceRun h = None) /\
       (exists status,
          tailscale.Client_Status (statusBefore h) = Ok status /\
          (tailscale.LoggedIn status = true \/
           loginRun h (loginArgs config) = None)) /\
       (exists status, tailscale.Client_Status (statusAfter h) = Ok status)) /\
    delays steps `sublist_of` [3 * time.Second; 5 * time.Second].
Proof.
  pose proof (startTailscaleDaemon_None h) as [Hstart Hquiet].
  assert (Hgo : forall steps0,
            delays steps0 `sublist_of` [3 * time.Second] ->
            exists err steps,
              (let steps := steps0 ++ [Did CmdStatus] in
               match tailscale.Client_Status (statusBefore h) with
               | Err err =>
                   Returns
                     (Some ("failed to get Tailscale status: " +:+ err), steps)
               | Ok status =>
                   let loggedIn :=
                     if negb (tailscale.LoggedIn status) then
                       let args := loginArgs config in
                       let steps := steps ++ [ExecCommand "tailscale" args] in
                       match loginRun h args with
                       | Some (err, output) =>
                           (Some ("failed to login to Tailscale: " +:+ err
                                  +:+ ", output: " +:+ output), steps)
                       | None =>
                           (None, steps ++ [Did (Sleep (5 * time.Second))])
                       end
                     else (None, steps) in
                   match loggedIn with
                   | (Some err, steps) => Returns (Some err, steps)
                   | (None, steps) =>
                       let steps := steps ++ [Did CmdStatus] in
                       match tailscale.Client_Status (statusAfter h) with
                       | Err err =>
                           Returns
                             (Some ("failed to verify Tailscale status: "
                                    +:+ err), steps)
                       | Ok status =>
                           _ ← ensureTailscale_identity status;
                           mret (None, steps)
                       end
                   end
               end) = Returns (err, steps) /\
              (err = None <->
                 (exists status,
                    tailscale.Client_Status (statusBefore h) = Ok status /\
                    (tailscale.LoggedIn status = true \/
                     loginRun h (loginArgs config) = None)) /\
                 (exists status,
                    tailscale.Client_Status (statusAfter h) = Ok status)) /\
              delays steps `sublist_of` [3 * time.Second; 5 * time.Second]).
  { intros steps0 Hd0. cbv zeta.
    assert (Hd1 : delays steps0
                    `sublist_of` [3 * time.Second; 5 * time.Second])
      by (by apply (sublist_inserts_r [5 * time.Second]) in Hd0).
    assert (Hd2 : delays steps0 ++ [5 * time.Second]
                    `sublist_of` [3 * time.Second; 5 * time.Second])
      by (by apply (sublist_app _ [_] _ [_])).
    destruct (tailscale.Client_Status (statusBefore h)) as [before | e4].
    2:{ eexists _, _. split; [reflexivity |]. split.
        - split; [done | by intros ((? & [=] & _) & _)].
        - unfold delays in *. rewrite omap_app. cbn. by rewrite app_nil_r. }
    assert (Hafter : forall steps1,
              delays steps1 `sublist_of` [3 * time.Second; 5 * time.Second] ->
              exists err steps,
                match tailscale.Client_Status (statusAfter h) with
                | Err err =>
                    Returns
                      (Some ("failed to verify Tailscale status: " +:+ err),
                       steps1 ++ [Did CmdStatus])
                | Ok status =>
                    _ ← ensureTailscale_identity status;
                    mret (None, steps1 ++ [Did CmdStatus])
                end = Returns (err, steps) /\
                (err = None <->
                   exists status,
                     tailscale.Client_Status (statusAfter h) = Ok status) /\
                delays steps
                  `sublist_of` [3 * time.Second; 5 * time.Second]).
    { intros steps1 Hd.
      assert (Hd' : delays (steps1 ++ [Did CmdStatus])
                      `sublist_of` [3 * time.Second; 5 * time.Second]).
      { unfold delays in *. rewrite omap_app. cbn. by rewrite app_nil_r. }
      destruct (tailscale.Client_Status (statusAfter h)) as [after | e6].
      - destruct (ensureTailscale_identity_returns after) as [id ->]. cbn.
        eexists _, _. split; [reflexivity |]. split; [| done].
        split; [eauto | done].
      - eexists _, _. split; [reflexivity |]. split; [| done].
        split; [done | by intros (? & [=])]. }
    destruct (tailscale.LoggedIn before) eqn:Hin; cbn [negb].
    - destruct (Hafter (steps0 ++ [Did CmdStatus])) as (err & steps & He & Hiff & Hd).
      { unfold delays in *. rewrite omap_app. cbn. by rewrite app_nil_r. }
      exists err, steps. split; [done |]. split; [| done].
      rewrite Hiff. split; [eauto 10 | by intros [_ ?]].
    - destruct (loginRun h (loginArgs config)) as [[e5 out] |].
      + eexists _, _. split; [reflexivity |]. split.
        * split; [done |].
          intros ((? & [= <-] & [Hl | [=]]) & _). congruence.
        * unfold delays in *. rewrite !omap_app. cbn. by rewrite !app_nil_r.
      + destruct (Hafter (((steps0 ++ [Did CmdStatus])
                             ++ [ExecCommand "tailscale" (loginArgs config)])
                            ++ [Did (Sleep (5 * time.Second))]))
          as (err & steps & He & Hiff & Hd).
        { unfold delays in *. rewrite !omap_app. cbn.
          by rewrite !app_nil_r. }
        exists err, steps. split; [done |]. split; [| done].
        rewrite Hiff. split; [eauto 10 | by intros [_ ?]]. }
  unfold ensureTailscale, isTailscaleDaemonRunning.
  destruct (probeRun h) as [e0 |]; cbn [negb bool_decide decide_rel].
  - destruct (startTailscaleDaemon h) as [[e1 |] steps'] eqn:Hst;
      cbn [fst snd] in *.
    + eexists _, _. split; [reflexivity |]. split.
      * split; [done |]. intros ([[=] | Hany] & _).
        apply Hstart in Hany. done.
      * unfold delays in *. rewrite omap_app, Hquiet. sublist_steps.
    + destruct (Hgo ([ExecCommand "tailscale" ["status"; "--json"]]
                       ++ steps' ++ [Did (Sleep (3 * time.Second))]))
        as (err & steps & He & Hiff & Hd).
      { unfold delays in *. rewrite !omap_app, Hquiet. sublist_steps. }
      exists err, steps. split; [done |]. split; [| done].
      rewrite Hiff. split; [intros [? ?]; split; [| done] | by intros [_ ?]].
      right. by apply Hstart.
  - destruct (Hgo [ExecCommand "tailscale" ["status"; "--json"]])
      as (err & steps & He & Hiff & Hd); [sublist_steps |].
    exists err, steps. split; [done |]. split; [| done].
    rewrite Hiff. split; [intros [? ?]; split; [by left | done]
                         | by intros [_ ?]].
Qed.

(** X17. On a host where the daemon runs and the node is logged in,
    [ensureTailscale] makes no use of the configuration: it runs the probe
    and the two status queries, no [tailscale up], and waits for nothing. *)
Theorem X17_logged_in_node_is_left_alone
    (config1 config2 : TailscaleConfig) (h : Host) (status : tailscale.Status) :
  probeRun h = None ->
  tailscale.Client_Status (statusBefore h) = Ok status ->
  tailscale.LoggedIn status = true ->
  ensureTailscale config1 h = ensureTailscale config2 h /\
  forall err steps,
    ensureTailscale config1 h = Returns (err, steps) ->
    steps = [ExecCommand "tailscale" ["status"; "--json"];
             Did CmdStatus; Did CmdStatus] /\
    commandsRun steps = [("tailscale", ["status"; "--json"])] /\
    delays steps = [].
Proof.
  intros Hprobe Hbefore Hin.
  unfold ensureTailscale, isTailscaleDaemonRunning.
  rewrite Hprobe, Hbefore, Hin. cbn [negb bool_decide decide_rel].
  split; [done |]. intros err steps.
  destruct (tailscale.Client_Status (statusAfter h)) as [after | e].
  - destruct (ensureTailscale_identity_returns after) as [id ->]. cbn.
    by intros [= <- <-].
  - cbn. by intros [= <- <-].
Qed.

(** X18. The [tailscale up] command of [ensureTailscale] starts with the
    arguments [Client.Login] builds from the same auth key, host name and
    control URL, and it is that very command exactly when the
    configuration asks neither for accepting routes nor for an exit
    node. *)
Theorem X18_login_command_extends_Client_Login (config : TailscaleConfig) :
  tailscale_Login.args (AuthKey config) (Hostname config) (ControlURL config)
    `prefix_of` loginArgs config /\
  (loginArgs config
   = tailscale_Login.args (AuthKey config) (Hostname config)
       (ControlURL config) <->
   AcceptRoutes config = false /\ ExitNode config = "").
Proof.
  unfold loginArgs. cbv zeta.
  fold (tailscale_Login.args (AuthKey config) (Hostname config)
          (ControlURL config)).
  generalize (tailscale_Login.args (AuthKey config) (Hostname config)
                (ControlURL config)). intros args.
  destruct (AcceptRoutes config); case_decide as Hexit; split;
    try (rewrite <- ?app_assoc; by apply prefix_app_r);
    try done; split; try (by intros [? ?]); intros Heq;
    apply (f_equal length) in Heq; rewrite ?length_app in Heq;
    cbn in Heq; lia.
Qed.

(** ** Suffixes of strings, and the URL of the remote configuration *)

Lemma string_app_cons (c : Ascii.ascii) (s t : string) :
  String c s +:+ t = String c (s +:+ t).
Proof. reflexivity. Qed.

Lemma string_app_nil_l (t : string) : "" +:+ t = t.
Proof. reflexivity. Qed.

Local Ltac string_cbn := rewrite ?string_app_cons, ?string_app_nil_l; cbn.

Lemma string_length_app (s t : string) :
  String.length (s +:+ t) = (String.length s + String.length t)%nat.
Proof. induction s as [| c s IH]; string_cbn; [done | by rewrite IH]. Qed.

Lemma string_app_assoc (s t u : string) : (s +:+ t) +:+ u = s +:+ (t +:+ u).
Proof. induction s as [| c s IH]; string_cbn; [done | by rewrite IH]. Qed.

Lemma substring_all (s : string) :
  String.substring 0 (String.length s) s = s.
Proof. induction s as [| c s IH]; cbn; [done | by rewrite IH]. Qed.

Lemma substring_app_l (s t : string) :
  String.substring 0 (String.length s) (s +:+ t) = s.
Proof.
  induction s as [| c s IH]; string_cbn; [by destruct t | by rewrite IH].
Qed.

Lemma substring_app_r (s t : string) (n : nat) :
  String.substring (String.length s) n (s +:+ t) = String.substring 0 n t.
Proof. induction s as [| c s IH]; string_cbn; [done | by rewrite IH]. Qed.

Lemma substring_split (s : string) (n : nat) :
  (n <= String.length s)%nat ->
  s = String.substring 0 n s
      +:+ String.substring n (String.length s - n) s.
Proof.
  revert n. induction s as [| c s IH]; intros n Hn.
  - cbn in Hn. assert (n = 0%nat) as -> by lia. done.
  - destruct n as [| n].
    + cbn. by rewrite substring_all.
    + cbn in *. rewrite string_app_cons. f_equal. apply IH. lia.
Qed.

Lemma HasSuffix_app (s suffix : string) : HasSuffix (s +:+ suffix) suffix = true.
Proof.
  unfold HasSuffix. rewrite string_length_app.
  replace (String.length s + String.length suffix - String.length suffix)%nat
    with (String.length s) by lia.
  rewrite substring_app_r, substring_all, String.eqb_refl.
  by rewrite (proj2 (Nat.leb_le _ _)) by lia.
Qed.

Lemma HasSuffix_inv (s suffix : string) :
  HasSuffix s suffix = true -> exists p, s = p +:+ suffix.
Proof.
  unfold HasSuffix. intros [Hlen Heq%String.eqb_eq]%andb_true_iff.
  apply Nat.leb_le in Hlen.
  exists (String.substring 0 (String.length s - String.length suffix) s).
  pose proof (substring_split s (String.length s - String.length suffix)
                ltac:(lia)) as Hsplit.
  replace (String.length s - (String.length s - String.length suffix))%nat
    with (String.length suffix) in Hsplit by lia.
  by rewrite Heq in Hsplit.
Qed.

Lemma TrimSuffix_app (s suffix : string) : TrimSuffix (s +:+ suffix) suffix = s.
Proof.
  unfold TrimSuffix. rewrite HasSuffix_app, string_length_app.
  replace (String.length s + String.length suffix - String.length suffix)%nat
    with (String.length s) by lia.
  apply substring_app_l.
Qed.

Lemma TrimSuffix_none (s suffix : string) :
  HasSuffix s suffix = false -> TrimSuffix s suffix = s.
Proof. unfold TrimSuffix. by intros ->. Qed.

Lemma string_app_last_inj (s t : string) (a b : Ascii.ascii) :
  s +:+ String a "" = t +:+ String b "" -> a = b.
Proof.
  revert t. induction s as [| c s IH]; intros [| c' t];
    rewrite ?string_app_cons, ?string_app_nil_l.
  - by intros [= ->].
  - intros [= _ H]. by destruct t.
  - intros [= _ H]. by destruct s.
  - intros [= _ H]. by apply (IH t).
Qed.

Lemma HasSuffix_last (s suffix : string) (a b : Ascii.ascii) :
  a <> b -> HasSuffix (s +:+ String a "") (suffix +:+ String b "") = false.
Proof.
  intros Hne. destruct (HasSuffix _ _) eqn:Hs; [| done].
  apply HasSuffix_inv in Hs as [p Hp].
  rewrite <- string_app_assoc in Hp. by apply string_app_last_inj in Hp.
Qed.

(** X19. The remote URL may be given bare, with a slash at the end, or with
    the path [/gerbil/get-config] of earlier versions at the end: the
    configuration is fetched from the same URL and the bandwidth is
    reported to the same endpoint, both under the bare URL. A slash after
    the old path is one form too many: the old path then stays in the
    URL. *)
Theorem X19_remote_url_forms
    (p : Params) (base : string) (file : FileContent)
    (replies : list FetchReply) :
  configFile p = "" -> base <> "" ->
  HasSuffix base "/" = false ->
  HasSuffix base "/gerbil/get-config" = false ->
  (remoteConfigURL p = base \/ remoteConfigURL p = base +:+ "/" \/
   remoteConfigURL p = base +:+ "/gerbil/get-config" ->
   acquireConfig p file replies
   = fetchLoop (base +:+ "/gerbil/get-tailscale-config") replies
       TailscaleConfig_zero [] /\
   reporterEndpoint p = Some (base +:+ "/gerbil/receive-bandwidth")) /\
  (remoteConfigURL p = base +:+ "/gerbil/get-config/" ->
   acquireConfig p file replies
   = fetchLoop
       (base +:+ "/gerbil/get-config/gerbil/get-tailscale-config")
       replies TailscaleConfig_zero []).
Proof.
  intros Hfile Hbase Hslash Hold.
  assert (Hclean : forall url cleaned,
            remoteConfigURL p = url -> cleaned <> "" ->
            TrimSuffix (TrimSuffix url "/gerbil/get-config") "/" = cleaned ->
            acquireConfig p file replies
            = fetchLoop (cleaned +:+ "/gerbil/get-tailscale-config") replies
                TailscaleConfig_zero [] /\
            reporterEndpoint p
            = Some (cleaned +:+ "/gerbil/receive-bandwidth")).
  { intros url cleaned Hurl Hne Hc.
    unfold acquireConfig, reporterEndpoint. rewrite Hfile, Hurl, Hc.
    cbn [String.eqb negb].
    by destruct (String.eqb_spec cleaned "") as [| _]. }
  split.
  - intros [Hurl | [Hurl | Hurl]]; apply (Hclean _ base Hurl Hbase).
    + by rewrite (TrimSuffix_none base "/gerbil/get-config"), TrimSuffix_none.
    + rewrite (TrimSuffix_none (base +:+ "/") "/gerbil/get-config");
        [apply TrimSuffix_app |].
      by apply (HasSuffix_last base "/gerbil/get-confi").
    + by rewrite TrimSuffix_app, TrimSuffix_none.
  - intros Hurl.
    destruct (Hclean _ (base +:+ "/gerbil/get-config") Hurl) as [-> _];
      [| | by rewrite string_app_assoc].
    + by destruct base.
    + change "/gerbil/get-config/"%string
        with ("/gerbil/get-config" +:+ "/")%string.
      rewrite <- string_app_assoc.
      rewrite (TrimSuffix_none ((base +:+ "/gerbil/get-config") +:+ "/")
                 "/gerbil/get-config");
        [apply TrimSuffix_app |].
      by apply (HasSuffix_last _ "/gerbil/get-confi").
Qed.

(** ** The configuration [main] ends up with *)

(** X20. Without a configuration file, [main] goes on only with an auth key
    that is not empty, from the remote endpoint or from the flags and the
    environment; and a configuration file, when one is named, is the only
    source: no request is made, and neither the remote URL nor the flags
    play a part. *)
Theorem X20_config_sources
    (p : Params) (file : FileContent) (replies : list FetchReply) :
  (configFile p = "" ->
   forall tsconfig effs,
     acquireConfig p file replies = Configured tsconfig effs ->
     AuthKey tsconfig <> "") /\
  (configFile p <> "" ->
   StartupEffects (acquireConfig p file replies) = [] /\
   forall p' replies',
     configFile p' <> "" ->
     acquireConfig p' file replies' = acquireConfig p file replies).
Proof.
  unfold acquireConfig. split.
  - intros -> tsconfig effs. cbn [String.eqb negb].
    destruct (negb _).
    + apply fetchLoop_configured.
    + cbn [AuthKey]. destruct (String.eqb_spec (authKey p) "") as [| Hne];
        [done |]. by intros [= <- _].
  - intros Hfile.
    destruct (String.eqb_spec (configFile p) "") as [| _]; [done |].
    cbn [negb]. split.
    + by destruct (loadConfig file) as [tsconfig [e |]].
    + intros p' replies' Hfile'.
      by destruct (String.eqb_spec (configFile p') "") as [| _].
Qed.

(** X21. The loop that fetches the remote configuration goes through the
    replies up to the first that carries an auth key, and ends there with
    the configuration of that reply, also when the reply came with a
    decoding error; without such a reply it is still fetching. Each reply
    costs one GET, followed by a delay of five seconds exactly when the
    fetch returned an error; the status code of a reply plays no part. *)
Theorem X21_fetch_loop_ends_at_first_key
    (url : string) (replies : list FetchReply) :
  fetchLoop url replies TailscaleConfig_zero []
  = match list_find (fun reply => AuthKey (loadRemoteConfig reply).1 <> "")
            replies with
    | Some (_, reply) =>
        Configured (loadRemoteConfig reply).1
          (flat_map (attempt url) (fetched replies))
    | None => Fetching (flat_map (attempt url) (fetched replies))
    end.
Proof.
  assert (Hgen : forall tsconfig effs,
            AuthKey tsconfig = "" ->
            fetchLoop url replies tsconfig effs
            = match list_find
                      (fun reply => AuthKey (loadRemoteConfig reply).1 <> "")
                      replies with
              | Some (_, reply) =>
                  Configured (loadRemoteConfig reply).1
                    (effs ++ flat_map (attempt url) (fetched replies))
              | None =>
                  Fetching (effs ++ flat_map (attempt url) (fetched replies))
              end).
  { induction replies as [| reply rest IH]; intros tsconfig effs Hk.
    - cbn. rewrite decide_True by done. by rewrite app_nil_r.
    - cbn [fetchLoop fetched list_find]. rewrite decide_True by done.
      assert (Hatt : attempt url reply
                     = HttpGet url ::
                       match (loadRemoteConfig reply).2 with
                       | Some _ => [Sleep (5 * time.Second)]
                       | None => []
                       end) by reflexivity.
      destruct (loadRemoteConfig reply) as [cfg err] eqn:Hload;
        cbn [fst snd] in *.
      destruct (decide (AuthKey cfg = "")) as [Hcfg | Hcfg].
      + rewrite decide_False by (by intros H).
        cbn [flat_map]. rewrite Hatt.
        destruct err as [e |]; rewrite IH by done;
          destruct (list_find _ rest) as [[i r] |]; cbn;
          by rewrite <- ?app_assoc.
      + rewrite decide_True by done. cbn [flat_map]. rewrite Hatt, Hload.
        destruct err as [e |]; rewrite fetchLoop_with_key by done;
          cbn [fst]; by rewrite app_nil_r, <- ?app_assoc. }
  apply (Hgen TailscaleConfig_zero []). reflexivity.
Qed.

(** ** The methods that read plain text *)

Lemma Split_cons (s : string) (sep : Ascii.ascii) :
  exists part parts, text.Split s sep = part :: parts.
Proof.
  induction s as [| c s (part & parts & IH)]; cbn; [eauto |].
  destruct (Ascii.eqb c sep); [eauto |]. rewrite IH. eauto.
Qed.

Lemma HasPrefix_app (s prefix : string) :
  text.HasPrefix s prefix = true -> exists rest, s = prefix +:+ rest.
Proof.
  revert s. induction prefix as [| a prefix IH]; intros s; cbn.
  - intros _. by exists s.
  - destruct s as [| b s]; [done |].
    intros [->%Ascii.eqb_eq Hp]%andb_true_iff.
    destruct (IH s Hp) as [rest ->]. by exists rest.
Qed.

Lemma Contains_app (s substr : string) :
  text.Contains s substr = true ->
  exists before after, s = before +:+ substr +:+ after.
Proof.
  induction s as [| c s IH]; cbn [text.Contains].
  - rewrite orb_false_r. intros [rest ->]%HasPrefix_app. by exists "", rest.
  - intros [[rest ->]%HasPrefix_app | Hs]%orb_true_iff.
    + by exists "", rest.
    + destruct (IH Hs) as (before & after & ->).
      by exists (String c before), after.
Qed.

Lemma Split_at_separator (before after : string) (sep : Ascii.ascii) :
  (2 <= length (text.Split (before +:+ String sep after) sep))%nat.
Proof.
  induction before as [| c before IH].
  - change ("" +:+ String sep after) with (String sep after).
    cbn. rewrite Ascii.eqb_refl.
    destruct (Split_cons after sep) as (part & parts & ->). cbn. lia.
  - change (String c before +:+ String sep after)
      with (String c (before +:+ String sep after)).
    cbn [text.Split]. destruct (Ascii.eqb c sep).
    + destruct (Split_cons (before +:+ String sep after) sep)
        as (part & parts & ->). cbn. lia.
    + destruct (text.Split (before +:+ String sep after) sep)
        as [| part parts]; cbn in *; lia.
Qed.

(** A line that holds a label ending in a colon has a second part. *)
Lemma at_index_1_of_label (line label : string) :
  text.Contains line (label +:+ ":") = true ->
  exists value, text.at_index (text.Split line text.colon) 1 = Returns value.
Proof.
  intros (before & after & ->)%Contains_app.
  assert (Heq : before +:+ (label +:+ ":") +:+ after
                = (before +:+ label) +:+ String text.colon after)
    by (rewrite !string_app_assoc; reflexivity).
  rewrite Heq.
  pose proof (Split_at_separator (before +:+ label) after text.colon) as Hlen.
  unfold text.at_index.
  destruct (text.Split _ text.colon) as [| part [| value parts]];
    cbn in *; try lia. eauto.
Qed.

(** X22. [GetVersion] has no way to its last error: splitting a text into
    lines gives one line at the least, so that with the command succeeding
    the version returned is the first line of the output, trimmed, and
    "unable to parse version" is never returned. *)
Theorem X22_GetVersion_returns_first_line
    (TrimSpace : string -> string) (output : string) :
  exists line,
    text.GetVersion TrimSpace (Ok output) = Ok (TrimSpace line) /\
    text.Contains line (String text.newline "") = false /\
    (output = line \/
     exists rest, output = line +:+ String text.newline rest).
Proof.
  unfold text.GetVersion.
  assert (Hhead : exists line parts,
            text.Split output text.newline = line :: parts /\
            text.Contains line (String text.newline "") = false /\
            (output = line \/
             exists rest, output = line +:+ String text.newline rest)).
  { induction output as [| c output (line & parts & Hs & Hc & Ho)].
    - exists "", []. repeat split; eauto.
    - cbn [text.Split].
      destruct (Ascii.eqb_spec c text.newline) as [-> | Hne].
      + exists "", (text.Split output text.newline).
        repeat split. right. by exists output.
      + rewrite Hs. exists (String c line), parts. split; [done |]. split.
        * cbn. cbn in Hc. rewrite Hc.
          destruct (Ascii.eqb_spec text.newline c) as [<- | _]; [done |].
          done.
        * destruct Ho as [-> | [rest ->]]; [by left |].
          right. by exists rest. }
  destruct Hhead as (line & parts & -> & Hc & Ho). eauto.
Qed.

(** X23. [GetNetworkStats] never panics on [strings.Split(line, ":")[1]]:
    a line is split only after it was found to hold a label that ends in a
    colon, so that the second part is there. With the command succeeding
    it returns a map with no key beside ["udp"], ["ipv4"] and ["ipv6"]. *)
Theorem X23_GetNetworkStats_never_panics
    (TrimSpace : string -> string) (run : result string) :
  exists r,
    text.GetNetworkStats TrimSpace run = Returns r /\
    forall stats key,
      r = Ok stats -> is_Some (stats !! key) ->
      key = "udp" \/ key = "ipv4" \/ key = "ipv6".
Proof.
  assert (Hinsert : forall (stats : gmap string string) name value,
            name = "udp" \/ name = "ipv4" \/ name = "ipv6" ->
            (forall key, is_Some (stats !! key) ->
                         key = "udp" \/ key = "ipv4" \/ key = "ipv6") ->
            forall key, is_Some (<[name := value]> stats !! key) ->
                        key = "udp" \/ key = "ipv4" \/ key = "ipv6").
  { intros stats name value Hname Hstats key.
    destruct (decide (name = key)) as [<- | Hne]; [done |].
    rewrite lookup_insert_ne by done. apply Hstats. }
  assert (Hline : forall stats line,
            (forall key, is_Some (stats !! key) ->
                         key = "udp" \/ key = "ipv4" \/ key = "ipv6") ->
            exists stats',
              text.statsLine TrimSpace stats line = Returns stats' /\
              forall key, is_Some (stats' !! key) ->
                          key = "udp" \/ key = "ipv4" \/ key = "ipv6").
  { intros stats line Hstats. unfold text.statsLine.
    destruct (text.Contains line "UDP:") eqn:Hudp;
      [| destruct (text.Contains line "IPv4:") eqn:Hv4;
         [| destruct (text.Contains line "IPv6:") eqn:Hv6]].
    - destruct (at_index_1_of_label line "UDP" Hudp) as [value ->].
      eexists. split; [reflexivity |]. apply Hinsert; auto.
    - destruct (at_index_1_of_label line "IPv4" Hv4) as [value ->].
      eexists. split; [reflexivity |]. apply Hinsert; auto.
    - destruct (at_index_1_of_label line "IPv6" Hv6) as [value ->].
      eexists. split; [reflexivity |]. apply Hinsert; auto.
    - eexists. split; [reflexivity | done]. }
  assert (Hlines : forall lines stats,
            (forall key, is_Some (stats !! key) ->
                         key = "udp" \/ key = "ipv4" \/ key = "ipv6") ->
            exists stats',
              text.statsLines TrimSpace stats lines = Returns stats' /\
              forall key, is_Some (stats' !! key) ->
                          key = "udp" \/ key = "ipv4" \/ key = "ipv6").
  { induction lines as [| line rest IH]; intros stats Hstats.
    - eexists. split; [reflexivity | done].
    - cbn [text.statsLines].
      destruct (Hline stats line Hstats) as (stats1 & -> & H1).
      destruct (IH stats1 H1) as (stats' & Hr & H'). cbn. eauto. }
  unfold text.GetNetworkStats. destruct run as [output | err].
  - destruct (Hlines (text.Split output text.newline) ∅)
      as (stats & -> & Hstats).
    { intros key [v Hv]. by rewrite lookup_empty in Hv. }
    eexists. split; [reflexivity |]. intros ? key [= <-]. apply Hstats.
  - eexists. split; [reflexivity |]. by intros ? ? [=].
Qed.

(** ** The further theorems at work on concrete inputs *)

(** The peer ["P"], cached at [(1000, 500)] at time 10, over the three
    ticks of [exampleRun]: the reports add up to [3097152 / 1048576] and
    [1048576 / 1048576] megabytes. *)
Lemma X1_witness :
  exampleReadings "P" 1000 500 10 !! "P"
    = Some {| BytesReceived := 1000; BytesTransmitted := 500;
              LastChecked := 10 |} /\
  steadyRun "P" {| BytesReceived := 1000; BytesTransmitted := 500;
                   LastChecked := 10 |} exampleRun /\
  exists last,
    (runCycles exampleRun (exampleReadings "P" 1000 500 10)).1 !! "P"
      = Some last /\
    Qeq (totalIn (reportsFor "P"
           (runCycles exampleRun (exampleReadings "P" 1000 500 10)).2))
        (inject_Z (BytesReceived last - 1000) / inject_Z 1048576) /\
    Qeq (totalOut (reportsFor "P"
           (runCycles exampleRun (exampleReadings "P" 1000 500 10)).2))
        (inject_Z (BytesTransmitted last - 500) / inject_Z 1048576).
Proof.
  assert (Hrun : steadyRun "P" {| BytesReceived := 1000;
                   BytesTransmitted := 500; LastChecked := 10 |} exampleRun).
  { exists 0%nat. split; [apply firstOf_example |].
    split; [apply lastOf_example |]. split; [reflexivity |].
    split; [vm_compute; split; [discriminate | reflexivity] |].
    split; [vm_compute; split; [discriminate | reflexivity] |].
    exists 0%nat. split; [apply firstOf_example |].
    split; [apply lastOf_example |]. split; [reflexivity |].
    split; [vm_compute; split; [discriminate | reflexivity] |].
    split; [vm_compute; split; [discriminate | reflexivity] |].
    exact I. }
  split; [reflexivity |]. split; [exact Hrun |].
  exact (X1_reports_add_up_to_counter_growth "P" exampleRun
           (exampleReadings "P" 1000 500 10)
           {| BytesReceived := 1000; BytesTransmitted := 500;
              LastChecked := 10 |} eq_refl Hrun).
Defined.

(** A snapshot with the distinct keys ["P"] and ["Q"], on a cache that
    holds ["P"] only. *)
Lemma X3_witness :
  tailscale.Client_Status (exampleClient ["P"; "Q"] 2000 700)
    = Ok (exampleStatus ["P"; "Q"] 2000 700) /\
  NoDup (keysOf (tailscale.Peers (exampleStatus ["P"; "Q"] 2000 700))) /\
  cycleReports (exampleClient ["P"; "Q"] 2000 700) 20
    (exampleReadings "P" 1000 500 10)
  = mjoin (imap (fun i p =>
                   emitted (tailscale.PublicKey p)
                     (currentReading (exampleClient ["P"; "Q"] 2000 700) 20 i
                        (tailscale.PublicKey p))
                     (exampleReadings "P" 1000 500 10
                        !! tailscale.PublicKey p))
                (tailscale.Peers (exampleStatus ["P"; "Q"] 2000 700))) /\
  (forall i p,
     tailscale.Peers (exampleStatus ["P"; "Q"] 2000 700) !! i = Some p ->
     cycleReadings (exampleClient ["P"; "Q"] 2000 700) 20
       (exampleReadings "P" 1000 500 10) !! tailscale.PublicKey p
     = Some (currentReading (exampleClient ["P"; "Q"] 2000 700) 20 i
               (tailscale.PublicKey p))) /\
  (exampleReadings "P" 1000 500 10 = ∅ ->
   cycleReports (exampleClient ["P"; "Q"] 2000 700) 20
     (exampleReadings "P" 1000 500 10)
   = zeroReport
       <$> keysOf (tailscale.Peers (exampleStatus ["P"; "Q"] 2000 700))).
Proof.
  assert (Hnd : NoDup (keysOf (tailscale.Peers
                                 (exampleStatus ["P"; "Q"] 2000 700)))).
  { cbn. apply NoDup_cons. split.
    - intros Hin%list_elem_of_singleton. discriminate.
    - apply NoDup_singleton. }
  split; [reflexivity |]. split; [exact Hnd |].
  exact (X3_distinct_keys_cycle_is_pointwise
           (exampleClient ["P"; "Q"] 2000 700) 20
           (exampleReadings "P" 1000 500 10)
           (exampleStatus ["P"; "Q"] 2000 700) eq_refl Hnd).
Defined.

(** The same snapshot on two different caches. *)
Lemma X4_witness :
  tailscale.Client_Status (exampleClient ["P"; "Q"] 2000 700)
    = Ok (exampleStatus ["P"; "Q"] 2000 700) /\
  cycleReadings (exampleClient ["P"; "Q"] 2000 700) 20
    (exampleReadings "P" 1000 500 10)
  = cycleReadings (exampleClient ["P"; "Q"] 2000 700) 20
      (exampleReadings "R" 7 7 15) /\
  forall k r,
    cycleReadings (exampleClient ["P"; "Q"] 2000 700) 20
      (exampleReadings "P" 1000 500 10) !! k = Some r ->
    LastChecked r = 20.
Proof.
  split; [reflexivity |].
  exact (X4_cache_after_cycle_forgets_the_past
           (exampleClient ["P"; "Q"] 2000 700) 20
           (exampleReadings "P" 1000 500 10) (exampleReadings "R" 7 7 15)
           (exampleStatus ["P"; "Q"] 2000 700) eq_refl).
Defined.

(** The peer ["P"], cached, over a cycle in which the command fails and a
    cycle in which it is back with its counters at [(2000, 700)]. *)
Lemma X5_witness :
  tailscale.Client_Status stoppedClient = Ok tailscale.minimalStatus /\
  ("P" ∉ keysOf (tailscale.Peers tailscale.minimalStatus)) /\
  tailscale.Client_Status (exampleClient ["P"] 2000 700)
    = Ok (exampleStatus ["P"] 2000 700) /\
  firstOf (tailscale.Peers (exampleStatus ["P"] 2000 700)) 0 "P" /\
  reportsFor "P"
    (cycleReports (exampleClient ["P"] 2000 700) 30
       (cycleReadings stoppedClient 20 (exampleReadings "P" 1000 500 10)))
  = [zeroReport "P"].
Proof.
  assert (Hk : "P" ∉ keysOf (tailscale.Peers tailscale.minimalStatus))
    by (intros Hin; by apply elem_of_nil in Hin).
  split; [reflexivity |]. split; [exact Hk |]. split; [reflexivity |].
  split; [apply firstOf_example |].
  exact (X5_returning_peer_starts_from_zero stoppedClient
           (exampleClient ["P"] 2000 700) 20 30
           (exampleReadings "P" 1000 500 10) tailscale.minimalStatus
           (exampleStatus ["P"] 2000 700) 0%nat "P"
           eq_refl Hk eq_refl (firstOf_example 2000 700 "P")).
Defined.

(** Two cycles at time 20 on the same snapshot. *)
Lemma X6_witness :
  tailscale.Client_Status (exampleClient ["P"; "Q"] 2000 700)
    = Ok (exampleStatus ["P"; "Q"] 2000 700) /\
  cycleReports (exampleClient ["P"; "Q"] 2000 700) 20
    (cycleReadings (exampleClient ["P"; "Q"] 2000 700) 20
       (exampleReadings "P" 1000 500 10)) = [] /\
  cycleReadings (exampleClient ["P"; "Q"] 2000 700) 20
    (cycleReadings (exampleClient ["P"; "Q"] 2000 700) 20
       (exampleReadings "P" 1000 500 10))
  = cycleReadings (exampleClient ["P"; "Q"] 2000 700) 20
      (exampleReadings "P" 1000 500 10).
Proof.
  split; [reflexivity |].
  exact (X6_cycle_at_same_instant_reports_nothing
           (exampleClient ["P"; "Q"] 2000 700) 20
           (exampleReadings "P" 1000 500 10)
           (exampleStatus ["P"; "Q"] 2000 700) eq_refl).
Defined.

(** The peer ["P"], cached at [(1000, 500)] at time 10, when the traffic
    queries fail at time 20. *)
Lemma X7_witness :
  tailscale.Client_Status (flakyClient ["P"])
    = Ok (exampleStatus ["P"] 0 0) /\
  firstOf (tailscale.Peers (exampleStatus ["P"] 0 0)) 0 "P" /\
  lastOf (tailscale.Peers (exampleStatus ["P"] 0 0)) 0 "P" /\
  (forall rawStatus,
     tailscale.TrafficOutput (flakyClient ["P"]) 0
       <> tailscale.Parsed rawStatus) /\
  exampleReadings "P" 1000 500 10 !! "P"
    = Some {| BytesReceived := 1000; BytesTransmitted := 500;
              LastChecked := 10 |} /\
  10 < 20 /\
  0 <= 1000 <= Int64.max_int64 /\
  0 <= 500 <= Int64.max_int64 /\
  reportsFor "P"
    (cycleReports (flakyClient ["P"]) 20 (exampleReadings "P" 1000 500 10))
    = [zeroReport "P"] /\
  cycleReadings (flakyClient ["P"]) 20 (exampleReadings "P" 1000 500 10)
    !! "P"
  = Some {| BytesReceived := 0; BytesTransmitted := 0; LastChecked := 20 |}.
Proof.
  assert (Hfail : forall rawStatus,
            tailscale.TrafficOutput (flakyClient ["P"]) 0
              <> tailscale.Parsed rawStatus) by (intros rawStatus; discriminate).
  assert (H1 : 0 <= 1000 <= Int64.max_int64)
    by (split; vm_compute; discriminate).
  assert (H2 : 0 <= 500 <= Int64.max_int64)
    by (split; vm_compute; discriminate).
  split; [reflexivity |]. split; [apply firstOf_example |].
  split; [apply lastOf_example |]. split; [exact Hfail |].
  split; [reflexivity |]. split; [reflexivity |].
  split; [exact H1 |]. split; [exact H2 |].
  exact (X7_failed_traffic_query_reads_as_zero (flakyClient ["P"]) 20
           (exampleReadings "P" 1000 500 10) (exampleStatus ["P"] 0 0)
           0%nat "P"
           {| BytesReceived := 1000; BytesTransmitted := 500;
              LastChecked := 10 |}
           eq_refl (firstOf_example 0 0 "P") (lastOf_example 0 0 "P")
           Hfail eq_refl eq_refl H1 H2).
Defined.

(** The snapshot made from the peers ["P"] and ["Q"] in that order, and the
    traffic of ["Q"] asked of a run that ranges over ["Q"] first. *)
Lemma X11_witness :
  tailscale.StatusOutput shuffledClient
    = tailscale.Parsed (shuffledOutput false) /\
  tailscale.TrafficOutput shuffledClient 1
    = tailscale.Parsed (shuffledOutput true) /\
  peerEntries (shuffledOutput true) ≡ₚ peerEntries (shuffledOutput false) /\
  tailscale.Client_Status shuffledClient
    = Ok {| tailscale.LoggedIn := true;
            tailscale.Self :=
              Some {| tailscale.PublicKey := "S"; tailscale.Hostname := "";
                      tailscale.TailscaleIPs := "";
                      tailscale.AllowedIPs := []; tailscale.Online := false;
                      tailscale.RxBytes := 0; tailscale.TxBytes := 0 |};
            tailscale.Peers :=
              [examplePeer 1000 500 "P"; examplePeer 2000 700 "Q"] |} /\
  NoDup (keysOf [examplePeer 1000 500 "P"; examplePeer 2000 700 "Q"]) /\
  tailscale.GetPeerTraffic shuffledClient 1 "Q" = (2000, 700) /\
  tailscale.GetPeerTraffic shuffledClient 1 "R" = (0, 0).
Proof.
  assert (Hperm : peerEntries (shuffledOutput true)
                  ≡ₚ peerEntries (shuffledOutput false))
    by apply Permutation_swap.
  assert (Hnd : NoDup (keysOf [examplePeer 1000 500 "P";
                               examplePeer 2000 700 "Q"])).
  { cbn. apply NoDup_cons. split.
    - intros Hin. apply list_elem_of_singleton in Hin. discriminate.
    - apply NoDup_singleton. }
  split; [reflexivity |]. split; [reflexivity |]. split; [exact Hperm |].
  split; [reflexivity |]. split; [exact Hnd |]. split.
  - apply (proj1 (proj2 (X11_traffic_query_agrees_with_snapshot
                           shuffledClient 1 (shuffledOutput false)
                           (shuffledOutput true) _ "Q"
                           eq_refl eq_refl Hperm eq_refl))
             Hnd (examplePeer 2000 700 "Q"));
      [by right; left | reflexivity | discriminate].
  - apply (proj2 (proj2 (X11_traffic_query_agrees_with_snapshot
                           shuffledClient 1 (shuffledOutput false)
                           (shuffledOutput true) _ "R"
                           eq_refl eq_refl Hperm eq_refl))).
    cbn. intros Hin. apply elem_of_cons in Hin as [Hin | Hin];
      [discriminate |]. apply list_elem_of_singleton in Hin. discriminate.
Defined.

(** A peer object whose ["RxBytes"] is the number 1049576. *)
Lemma X12_witness :
  0 <= 1049576 < 2 ^ 53 /\
  json.index [("RxBytes", json.Number (F64.of_int 1049576))] "RxBytes"
    = json.Number (F64.of_int 1049576) /\
  tailscale.counter [("RxBytes", json.Number (F64.of_int 1049576))] "RxBytes"
    = 1049576.
Proof.
  assert (H : 0 <= 1049576 < 2 ^ 53)
    by (split; [discriminate | reflexivity]).
  split; [exact H |]. split; [reflexivity |].
  exact (X12_counter_survives_float64
           [("RxBytes", json.Number (F64.of_int 1049576))] "RxBytes" 1049576
           H eq_refl).
Defined.

(** [/peers] on the snapshot with the peers ["P"] and ["Q"]. *)
Lemma X13_witness :
  tailscale.Client_Status (exampleClient ["P"; "Q"] 2000 700)
    = Ok (exampleStatus ["P"; "Q"] 2000 700) /\
  handleGetPeers (exampleClient ["P"; "Q"] 2000 700)
  = PeersJSON
      match tailscale.Peers (exampleStatus ["P"; "Q"] 2000 700) with
      | [] => None
      | peers => Some (peerView <$> peers)
      end.
Proof.
  split; [reflexivity |].
  exact (X13_peers_lists_the_snapshot (exampleClient ["P"; "Q"] 2000 700)
           (exampleStatus ["P"; "Q"] 2000 700) eq_refl).
Defined.

(** A POST on [/peer], with Tailscale up and with Tailscale down. *)
Lemma X15_witness :
  "POST" <> "GET" /\
  handlePeer "POST" (exampleClient ["P"] 0 0) = handlePeer "POST" stoppedClient /\
  (exists msg code,
     handlePeer "POST" (exampleClient ["P"] 0 0) = http_Error msg code /\
     (code = StatusNotImplemented \/ code = StatusMethodNotAllowed) /\
     (code = StatusNotImplemented <-> "POST" = "POST" \/ "POST" = "DELETE")) /\
  handlePeer "GET" (exampleClient ["P"] 0 0)
  = handleGetPeers (exampleClient ["P"] 0 0).
Proof.
  assert (H : "POST" <> "GET") by discriminate.
  split; [exact H |].
  exact (X15_peer_is_read_only "POST" (exampleClient ["P"] 0 0) stoppedClient
           H).
Defined.

(** The host that is ready, with a configuration and with none. *)
Lemma X17_witness :
  probeRun readyHost = None /\
  tailscale.Client_Status (statusBefore readyHost)
    = Ok (exampleStatus ["P"] 0 0) /\
  tailscale.LoggedIn (exampleStatus ["P"] 0 0) = true /\
  ensureTailscale exampleConfig readyHost
    = ensureTailscale TailscaleConfig_zero readyHost /\
  forall err steps,
    ensureTailscale exampleConfig readyHost = Returns (err, steps) ->
    steps = [ExecCommand "tailscale" ["status"; "--json"];
             Did CmdStatus; Did CmdStatus] /\
    commandsRun steps = [("tailscale", ["status"; "--json"])] /\
    delays steps = [].
Proof.
  split; [reflexivity |]. split; [reflexivity |]. split; [reflexivity |].
  exact (X17_logged_in_node_is_left_alone exampleConfig TailscaleConfig_zero
           readyHost (exampleStatus ["P"] 0 0) eq_refl eq_refl eq_refl).
Defined.

(** The URL of the Pangolin server given with a slash at its end. *)
Lemma X19_witness :
  configFile exampleParams = "" /\
  "http://pangolin:3001/api/v1" <> "" /\
  HasSuffix "http://pangolin:3001/api/v1" "/" = false /\
  HasSuffix "http://pangolin:3001/api/v1" "/gerbil/get-config" = false /\
  (remoteConfigURL exampleParams = "http://pangolin:3001/api/v1" \/
   remoteConfigURL exampleParams = "http://pangolin:3001/api/v1" +:+ "/" \/
   remoteConfigURL exampleParams
     = "http://pangolin:3001/api/v1" +:+ "/gerbil/get-config" ->
   acquireConfig exampleParams (OpenFailed "") []
   = fetchLoop
       ("http://pangolin:3001/api/v1" +:+ "/gerbil/get-tailscale-config")
       [] TailscaleConfig_zero [] /\
   reporterEndpoint exampleParams
   = Some ("http://pangolin:3001/api/v1" +:+ "/gerbil/receive-bandwidth")) /\
  (remoteConfigURL exampleParams
     = "http://pangolin:3001/api/v1" +:+ "/gerbil/get-config/" ->
   acquireConfig exampleParams (OpenFailed "") []
   = fetchLoop
       ("http://pangolin:3001/api/v1"
        +:+ "/gerbil/get-config/gerbil/get-tailscale-config")
       [] TailscaleConfig_zero []).
Proof.
  assert (H : "http://pangolin:3001/api/v1" <> "") by discriminate.
  split; [reflexivity |]. split; [exact H |].
  split; [reflexivity |]. split; [reflexivity |].
  exact (X19_remote_url_forms exampleParams "http://pangolin:3001/api/v1"
           (OpenFailed "") [] eq_refl H eq_refl eq_refl).
Defined.

(** ** Further worked examples *)

(** Three ways to start the daemon, all failing: the error is that of the
    last, and nothing else is tried. *)
Example dead_host_is_given_up :
  ensureTailscale exampleConfig deadHost
  = Returns
      (Some "failed to start tailscaled: exit status 1",
       [ExecCommand "tailscale" ["status"; "--json"];
        ExecCommand "tailscaled"
          ["--state=/var/lib/tailscale/tailscaled.state";
           "--socket=/var/run/tailscale/tailscaled.sock"];
        ExecCommand "systemctl" ["start"; "tailscaled"];
        ExecCommand "service" ["tailscaled"; "start"]]).
Proof. reflexivity. Qed.

(** The daemon starts and [tailscale up] succeeds, but the status command
    still fails when the connection is verified: [Status()] answers with
    the minimal status and no error, and [ensureTailscale] returns no
    error. *)
Example fresh_host_passes_unverified :
  ensureTailscale exampleConfig freshHost
  = Returns
      (None,
       [ExecCommand "tailscale" ["status"; "--json"];
        ExecCommand "tailscaled"
          ["--state=/var/lib/tailscale/tailscaled.state";
           "--socket=/var/run/tailscale/tailscaled.sock"];
        Did (Sleep (3 * time.Second));
        Did CmdStatus;
        ExecCommand "tailscale"
          ["up"; "--authkey"; "tskey-auth-k1"; "--hostname"; "gerbil"];
        Did (Sleep (5 * time.Second));
        Did CmdStatus]) /\
  handleHealth (statusAfter freshHost)
  = http_Error "Not logged in" StatusServiceUnavailable.
Proof. split; reflexivity. Qed.

(** [strings.Split] on a few texts. *)
Example Split_examples :
  text.Split "a:b:c" text.colon = ["a"; "b"; "c"] /\
  text.Split "" text.colon = [""] /\
  text.Split ":" text.colon = [""; ""] /\
  text.Split "UDP: true" text.colon = ["UDP"; " true"].
Proof. repeat split; reflexivity. Qed.

(** A configuration file is taken as it is, also without an auth key. *)
Example config_file_is_not_checked :
  acquireConfig
    {| configFile := "/etc/gerbil/config.json"; remoteConfigURL := "";
       authKey := ""; hostname := ""; controlURL := "" |}
    (Content TailscaleConfig_zero None) []
  = Configured TailscaleConfig_zero [].
Proof. reflexivity. Qed.

(** Three ticks on the peer ["P"]: every cycle is posted once, also the
    one the endpoint answers with 500, and the cache ends at the last
    reading. *)
Example reporter_three_ticks :
  let '(final, logged, effs) :=
    periodicBandwidthCheck "http://pangolin:3001/api/v1/gerbil/receive-bandwidth"
      [{| tickClient := exampleClient ["P"] 2049576 500; tickNow := 20;
          tickPost := Ok response500 |};
       {| tickClient := failingClient; tickNow := 25;
          tickPost := Ok response200 |};
       {| tickClient := exampleClient ["P"] 3098152 1049076; tickNow := 30;
          tickPost := Ok response200 |}]
      (exampleReadings "P" 1000 500 10) in
  final = exampleReadings "P" 3098152 1049076 30 /\
  logged
  = ["Failed to report peer bandwidth: API returned non-OK status: 500 Internal Server Error";
     "Failed to report peer bandwidth: failed to calculate peer bandwidth: failed to get Tailscale status: failed to parse tailscale status: unexpected end of JSON input"] /\
  reportsOf
    (postedTo "http://pangolin:3001/api/v1/gerbil/receive-bandwidth" effs)
  = [{| PublicKey := "P"; BytesIn := toMB 2048576; BytesOut := toMB 0 |};
     {| PublicKey := "P"; BytesIn := toMB 1048576;
        BytesOut := toMB 1048576 |}].
Proof. vm_compute. repeat split; reflexivity. Qed.
